(** * Calendar task synchronization: field mapper and reconciler

    A shallow embedding of [synchronization.py]: the functions that
    normalize OpenProject work packages and Google Calendar events
    ([parse_workpackages], [parse_events]), build an event body from a
    work package ([wp_to_event], [str_to_date]) and reconcile the two
    collections through the calendar service ([to_create], [to_delete],
    [may_update], [synchronize_wps]).

    Conventions of the embedding.
    - A Python [str] is a [string]; the model covers ASCII text.
    - A Python [dict] keyed by work package id is a [gmap Z _], a [set] of
      ids is a [gset Z].
    - A Python exception is a value of [exn]; code that may raise returns
      a [res]. A [try]/[except Exception] block is a [match] on the [res].
    - JSON fields that the services may send as [null] (or leave out) are
      [option]s. *)

From Stdlib Require Import ZArith Ascii String List Lia.
From Stdlib Require Import DecimalString DecimalZ DecimalN DecimalPos DecimalFacts.
From stdpp Require Import base option list gmap strings.

Local Open Scope string_scope.
Local Open Scope Z_scope.

(** ** Exceptions and results *)

Inductive exn : Type :=
  | KeyError (key : string)
  | IndexError
  | ValueError
  | AttributeError
  | OverflowError
  | OSError.

Inductive res (A : Type) : Type :=
  | Ok (a : A)
  | Raise (e : exn).
Arguments Ok {A} a.
Arguments Raise {A} e.

#[global] Instance res_ret : MRet res := fun _ a => Ok a.

#[global] Instance res_bind : MBind res := fun _ _ k m =>
  match m with
  | Ok a => k a
  | Raise e => Raise e
  end.

(** [d[key]] on a JSON object whose member may be missing or null. *)
Definition getitem {A} (key : string) (o : option A) : res A :=
  match o with
  | Some a => Ok a
  | None => Raise (KeyError key)
  end.

(** [o.method()] on a value that may be [None]. *)
Definition attr_of {A} (o : option A) : res A :=
  match o with
  | Some a => Ok a
  | None => Raise AttributeError
  end.

(** ** Python string operations *)

Module Py.

(** [s.split(sep)] for a one-character separator: never empty. *)
Fixpoint split (sep : ascii) (s : string) : list string :=
  match s with
  | EmptyString => [EmptyString]
  | String c r =>
      if Ascii.eqb c sep then EmptyString :: split sep r
      else match split sep r with
           | [] => [String c EmptyString]
           | h :: t => String c h :: t
           end
  end.

(** [l[0]], [l[1]], [l[2]], ... *)
Definition index {A} (l : list A) (i : nat) : res A :=
  match l !! i with
  | Some a => Ok a
  | None => Raise IndexError
  end.

(** [l[-1]] *)
Definition index_last {A} (l : list A) : res A :=
  match last l with
  | Some a => Ok a
  | None => Raise IndexError
  end.

(** [l[-2]] *)
Definition index_last2 {A} (l : list A) : res A :=
  match rev l with
  | _ :: a :: _ => Ok a
  | _ => Raise IndexError
  end.

(** [s[:-1]] *)
Fixpoint drop_last (s : string) : string :=
  match s with
  | EmptyString => EmptyString
  | String c EmptyString => EmptyString
  | String c r => String c (drop_last r)
  end.

(** ASCII characters for which [str.isspace] holds. *)
Definition is_space (c : ascii) : bool :=
  let n := N_of_ascii c in
  ((9 <=? n) && (n <=? 13) || (28 <=? n) && (n <=? 32))%N.

Fixpoint lstrip (s : string) : string :=
  match s with
  | EmptyString => EmptyString
  | String c r => if is_space c then lstrip r else s
  end.

Fixpoint rstrip (s : string) : string :=
  match s with
  | EmptyString => EmptyString
  | String c r =>
      match rstrip r with
      | EmptyString => if is_space c then EmptyString else String c EmptyString
      | r' => String c r'
      end
  end.

(** [s.strip()] *)
Definition strip (s : string) : string := rstrip (lstrip s).

(** Truth value of an optional string: [None] and [''] are false. *)
Definition truthy (o : option string) : bool :=
  match o with
  | None | Some EmptyString => false
  | Some _ => true
  end.

End Py.

(** A value that is an [int] in one record and a [str] in another. *)
Inductive pyval : Type :=
  | PyInt (z : Z)
  | PyStr (s : string).

Definition nl : ascii := "010"%char.
Definition NL : string := String nl EmptyString.

(** ** Work packages as read from OpenProject *)

(** [elem['_links']['parent']] and [elem['_links']['assignee']]: the
    title is read only when [href] is true. *)
Record link : Type := Link {
  href : option string;
  title : string }.

(** [elem['description']] *)
Record description_json : Type := Description {
  raw : option string;
  html : string }.

(** One element of [workpackages['_embedded']['elements']]. The member
    [dueDate] may be absent (a milestone has a [date] instead): that is
    the outer [None]; when it is there its value may be [null]. *)
Record work_package_json : Type := WorkPackageJson {
  elem_id : Z;
  elem_subject : option string;
  elem_description : description_json;
  elem_parent : link;
  elem_assignee : link;
  elem_dueDate : option (option string);
  elem_createdAt : string;
  elem_updatedAt : string }.

(** ** Normalized work packages: the [tmp] dictionary of
    [parse_workpackages] *)

Module WP.
Record t : Type := Make {
  wp_id : pyval;
  subject : string;
  description : string;
  parent : string;
  assignee : string;
  due_date : string;
  due_hour : string;
  updated_at : string }.
End WP.

(** The test that guards the [pass] branch of [parse_workpackages]. *)
Definition not_synchronized (elem : work_package_json) : bool :=
  match raw (elem_description elem) with
  | None => true
  | Some r => bool_decide (head (Py.split nl r) = Some "!!!")
  end.

(** [tmp['parent']] *)
Definition parse_parent (elem : work_package_json) : res string :=
  if Py.truthy (href (elem_parent elem)) then
    h ← attr_of (href (elem_parent elem));
    seg ← Py.index_last (Py.split "/" h);
    mret (seg +:+ ":" +:+ title (elem_parent elem))
  else mret "No parent".

(** [tmp['assignee']] *)
Definition parse_assignee (elem : work_package_json) : string :=
  if Py.truthy (href (elem_assignee elem)) then title (elem_assignee elem)
  else "Not assigned to anyone".

(** [tmp['due_date']] and [tmp['due_hour']] *)
Definition parse_due (elem : work_package_json) : res (string * string) :=
  dueDate ← getitem "dueDate" (elem_dueDate elem);
  if Py.truthy dueDate then
    d ← attr_of dueDate;
    r ← attr_of (raw (elem_description elem));
    line ← Py.index_last (Py.split nl r);
    tok ← Py.index_last (Py.split "=" line);
    mret (d, Py.strip tok)
  else
    d ← Py.index (Py.split "T" (elem_createdAt elem)) 0;
    t ← Py.index_last (Py.split "T" (elem_createdAt elem));
    mret (d, Py.drop_last t).

(** The body of the [try] block of [parse_workpackages]. *)
Definition parse_workpackage (elem : work_package_json) : res WP.t :=
  subject ← attr_of (elem_subject elem);
  let tmp_subject := Py.strip subject in
  let tmp_description := html (elem_description elem) in
  tmp_parent ← parse_parent elem;
  let tmp_assignee := parse_assignee elem in
  due ← parse_due elem;
  mret {| WP.wp_id := PyInt (elem_id elem);
          WP.subject := tmp_subject;
          WP.description := tmp_description;
          WP.parent := tmp_parent;
          WP.assignee := tmp_assignee;
          WP.due_date := due.1;
          WP.due_hour := due.2;
          WP.updated_at := elem_updatedAt elem |}.

(** One iteration of the loop of [parse_workpackages]. *)
Definition parse_workpackages_step
    (acc : gmap Z WP.t * list (work_package_json * exn))
    (elem : work_package_json) : gmap Z WP.t * list (work_package_json * exn) :=
  if not_synchronized elem then acc
  else match parse_workpackage elem with
       | Ok tmp => (<[elem_id elem := tmp]> acc.1, acc.2)
       | Raise error => (acc.1, (acc.2 ++ [(elem, error)])%list)
       end.

Definition parse_workpackages (workpackages : list work_package_json)
  : gmap Z WP.t * list (work_package_json * exn) :=
  foldl parse_workpackages_step (∅, []) workpackages.

(** ** [str] and [int] on integers *)

Module PyInt.

(** [str(n)] for an [int]. *)
Definition str (n : Z) : string := NilZero.string_of_int (Z.to_int n).

Definition is_digit (c : ascii) : bool :=
  let n := N_of_ascii c in ((48 <=? n) && (n <=? 57))%N.

Definition next_is_digit (s : string) : bool :=
  match s with
  | String c _ => is_digit c
  | EmptyString => false
  end.

(** An underscore is accepted between two digits and dropped. *)
Fixpoint drop_underscores (prev_digit : bool) (s : string) : option string :=
  match s with
  | EmptyString => Some EmptyString
  | String c r =>
      if Ascii.eqb c "_" then
        if prev_digit && next_is_digit r then drop_underscores false r else None
      else String c <$> drop_underscores (is_digit c) r
  end.

Definition unsigned (s : string) : option Z :=
  s' ← drop_underscores false s;
  u ← NilZero.uint_of_string s';
  Some (Z.of_uint u).

(** The white space that [int] skips around the digits of ASCII text:
    tab, line feed, vertical tab, form feed, carriage return and space.
    The separators [\x1c] to [\x1f], which [str.strip] removes, are not
    among them. *)
Definition is_space (c : ascii) : bool :=
  let n := N_of_ascii c in ((9 <=? n) && (n <=? 13) || (n =? 32))%N.

Fixpoint lstrip (s : string) : string :=
  match s with
  | EmptyString => EmptyString
  | String c r => if is_space c then lstrip r else s
  end.

Fixpoint rstrip (s : string) : string :=
  match s with
  | EmptyString => EmptyString
  | String c r =>
      match rstrip r with
      | EmptyString => if is_space c then EmptyString else String c EmptyString
      | r' => String c r'
      end
  end.

Definition strip (s : string) : string := rstrip (lstrip s).

(** [int(s)] for a [str]: surrounding whitespace, an optional sign, then
    decimal digits. *)
Definition int (s : string) : res Z :=
  let r :=
    match strip s with
    | String c body =>
        if Ascii.eqb c "-" then Z.opp <$> unsigned body
        else if Ascii.eqb c "+" then unsigned body
        else unsigned (String c body)
    | EmptyString => unsigned EmptyString
    end in
  match r with
  | Some n => Ok n
  | None => Raise ValueError
  end.

(** [s.zfill(width)], as the [%02d] and [%04d] of [isoformat] use it on
    the fields of a date, which are not negative. *)
Definition zfill (width : nat) (s : string) : string :=
  String.concat EmptyString (replicate (width - String.length s) "0") +:+ s.

End PyInt.

(** [str(v)] *)
Definition str (v : pyval) : string :=
  match v with
  | PyInt n => PyInt.str n
  | PyStr s => s
  end.

(** ** [datetime] *)

Record datetime : Type := Datetime {
  year : Z; month : Z; day : Z;
  hour : Z; minute : Z; second : Z }.

Definition is_leap (y : Z) : bool :=
  (y mod 4 =? 0) && (negb (y mod 100 =? 0) || (y mod 400 =? 0)).

Definition days_in_month (y m : Z) : Z :=
  if m =? 2 then (if is_leap y then 29 else 28)
  else if (m =? 4) || (m =? 6) || (m =? 9) || (m =? 11) then 30
  else 31.

(** The constructor [datetime(year, month, day, hour, minute, second)]. *)
Definition datetime_new (y mo d h mi s : Z) : res datetime :=
  if (1 <=? y) && (y <=? 9999) && (1 <=? mo) && (mo <=? 12)
     && (1 <=? d) && (d <=? days_in_month y mo)
     && (0 <=? h) && (h <=? 23) && (0 <=? mi) && (mi <=? 59)
     && (0 <=? s) && (s <=? 59)
  then Ok (Datetime y mo d h mi s)
  else Raise ValueError.

(** [dt + timedelta(hours=1)] *)
Definition add_one_hour (dt : datetime) : res datetime :=
  let '(Datetime y mo d h mi s) := dt in
  if h <? 23 then Ok (Datetime y mo d (h + 1) mi s)
  else if d <? days_in_month y mo then Ok (Datetime y mo (d + 1) 0 mi s)
  else if mo <? 12 then Ok (Datetime y (mo + 1) 1 0 mi s)
  else if y <? 9999 then Ok (Datetime (y + 1) 1 1 0 mi s)
  else Raise OverflowError.

Definition iso_date (dt : datetime) : string :=
  PyInt.zfill 4 (PyInt.str (year dt)) +:+ "-" +:+
  PyInt.zfill 2 (PyInt.str (month dt)) +:+ "-" +:+
  PyInt.zfill 2 (PyInt.str (day dt)).

Definition iso_time (dt : datetime) : string :=
  PyInt.zfill 2 (PyInt.str (hour dt)) +:+ ":" +:+
  PyInt.zfill 2 (PyInt.str (minute dt)) +:+ ":" +:+
  PyInt.zfill 2 (PyInt.str (second dt)).

(** A [datetime] with a time zone: its fields and its offset from UTC in
    seconds ([dt.utcoffset()]). *)
Record aware_datetime : Type := Aware {
  naive : datetime;
  utcoffset : Z }.

(** [dt.astimezone()] for a naive [dt]: the machine reads the fields as
    local time and answers with a [datetime] in its own zone. The offset
    is the one of the zone at that time (it changes with daylight saving
    time), the fields are moved when the local time does not exist, and
    a time too close to year 1 or 9999 raises, as does a time that the
    system cannot convert ([OSError]). What the machine answers is a
    parameter of the model. *)
Definition local_zone : Type := datetime -> res aware_datetime.

(** The UTC offset as [isoformat] prints it: hours and minutes, and the
    seconds when there are some. *)
Definition iso_offset (seconds : Z) : string :=
  let off := Z.abs seconds in
  (if seconds <? 0 then "-" else "+") +:+
  PyInt.zfill 2 (PyInt.str (off / 3600)) +:+ ":" +:+
  PyInt.zfill 2 (PyInt.str (off mod 3600 / 60)) +:+
  (if off mod 60 =? 0 then ""
   else ":" +:+ PyInt.zfill 2 (PyInt.str (off mod 60))).

(** [dt.isoformat()] for a [datetime] with a zone. *)
Definition isoformat (dt : aware_datetime) : string :=
  iso_date (naive dt) +:+ "T" +:+ iso_time (naive dt)
  +:+ iso_offset (utcoffset dt).

(** [dt.astimezone().isoformat()] for a naive [dt]. *)
Definition astimezone_isoformat (zone : local_zone) (dt : datetime)
  : res string :=
  local ← zone dt;
  mret (isoformat local).

Definition str_to_date (date hour : string) : res datetime :=
  due_date ← mapM PyInt.int (Py.split "-" date);
  due_hour ← mapM PyInt.int (Py.split ":" hour);
  y ← Py.index due_date 0;
  mo ← Py.index due_date 1;
  d ← Py.index due_date 2;
  h ← Py.index due_hour 0;
  mi ← Py.index due_hour 1;
  s ← Py.index due_hour 2;
  datetime_new y mo d h mi s.

(** ** The event body sent to Google Calendar *)

Record reminders_json : Type := Reminders {
  useDefault : bool;
  overrides : list (string * Z) }.

Module Body.
Record t : Type := Make {
  summary : string;
  description : string;
  start_dateTime : string;
  end_dateTime : string;
  reminders : reminders_json }.
End Body.

(** The [description] of [wp_to_event]. *)
Definition event_description (wp : WP.t) : string :=
  WP.description wp +:+ "Parent=" +:+ WP.parent wp +:+ NL
  +:+ WP.assignee wp +:+ NL +:+ WP.updated_at wp.

Definition wp_to_event (zone : local_zone) (wp : WP.t) : res Body.t :=
  event_start ← str_to_date (WP.due_date wp) (WP.due_hour wp);
  event_finish ← add_one_hour event_start;
  let description := event_description wp in
  start_dateTime ← astimezone_isoformat zone event_start;
  end_dateTime ← astimezone_isoformat zone event_finish;
  mret {| Body.summary := str (WP.wp_id wp) +:+ ":" +:+ WP.subject wp;
          Body.description := description;
          Body.start_dateTime := start_dateTime;
          Body.end_dateTime := end_dateTime;
          Body.reminders :=
            {| useDefault := false;
               overrides := [("popup", 24 * 60); ("popup", 30)] |} |}.

(** ** Events as read from Google Calendar *)

(** One element of the list that [read_events] returns; a member that the
    calendar left out is [None]. *)
Record event_json : Type := EventJson {
  ev_id : string;
  ev_summary : option string;
  ev_description : option string;
  ev_end_dateTime : option string }.

(** Normalized events: the [tmp] dictionary of [parse_events]. *)
Module PE.
Record t : Type := Make {
  event_id : string;
  wp_id : pyval;
  subject : string;
  assignee : string;
  updated_at : string;
  due_date : string;
  due_hour : string }.
End PE.

(** The body of the [try] block of [parse_events], up to the store into
    [parsed_events]: the key and the record stored under it. *)
Definition parse_event (elem : event_json) : res (Z * PE.t) :=
  let tmp_event_id := ev_id elem in
  s ← getitem "summary" (ev_summary elem);
  let summary := Py.split ":" s in
  tmp_wp_id ← Py.index summary 0;
  tmp_subject ← Py.index_last summary;
  d ← getitem "description" (ev_description elem);
  let description := Py.split nl d in
  tmp_assignee ← Py.index_last2 description;
  tmp_updated_at ← Py.index_last description;
  e ← getitem "dateTime" (ev_end_dateTime elem);
  let due := Py.split "T" e in
  tmp_due_date ← Py.index due 0;
  tmp_due_hour ← Py.index due 1;
  key ← PyInt.int tmp_wp_id;
  mret (key, {| PE.event_id := tmp_event_id;
                PE.wp_id := PyStr tmp_wp_id;
                PE.subject := tmp_subject;
                PE.assignee := tmp_assignee;
                PE.updated_at := tmp_updated_at;
                PE.due_date := tmp_due_date;
                PE.due_hour := tmp_due_hour |}).

Definition parse_events_step
    (acc : gmap Z PE.t * list (event_json * exn))
    (elem : event_json) : gmap Z PE.t * list (event_json * exn) :=
  match parse_event elem with
  | Ok (key, tmp) => (<[key := tmp]> acc.1, acc.2)
  | Raise error => (acc.1, (acc.2 ++ [(elem, error)])%list)
  end.

Definition parse_events (events : list event_json)
  : gmap Z PE.t * list (event_json * exn) :=
  foldl parse_events_step (∅, []) events.

(** The event that the calendar lists once it has stored [body] under
    the identifier [event_id]. *)
Definition stored_event (event_id : string) (body : Body.t) : event_json :=
  {| ev_id := event_id;
     ev_summary := Some (Body.summary body);
     ev_description := Some (Body.description body);
     ev_end_dateTime := Some (Body.end_dateTime body) |}.

(** ** The calendar service and the reconciler *)

(** The three sets of ids that [synchronize_wps] decides on. *)
Definition to_create_set (parsed_wps : gmap Z WP.t)
    (parsed_events : gmap Z PE.t) : gset Z :=
  let wps_on_openproject := dom parsed_wps in
  let wps_on_calendar := dom parsed_events in
  wps_on_openproject ∖ wps_on_calendar.

Definition to_delete_set (parsed_wps : gmap Z WP.t)
    (parsed_events : gmap Z PE.t) : gset Z :=
  let wps_on_openproject := dom parsed_wps in
  let wps_on_calendar := dom parsed_events in
  wps_on_calendar ∖ wps_on_openproject.

Definition may_update_set (parsed_wps : gmap Z WP.t)
    (parsed_events : gmap Z PE.t) : gset Z :=
  let wps_on_openproject := dom parsed_wps in
  let wps_on_calendar := dom parsed_events in
  wps_on_calendar ∩ wps_on_openproject.

(** The three requests that the reconciler sends, with their arguments. *)
Inductive call : Type :=
  | Insert (calendarId : string) (body : Body.t)
  | Delete (calendarId : string) (eventId : string)
  | Update (calendarId : string) (eventId : string) (body : Body.t).

Section Reconciler.

(** The calendar service: its state, and what [.execute()] does to it.
    The answer [Some msg] is an exception [error] with [str(error) = msg];
    the answer [None] is a reply, which for [update] is the event with
    its summary. *)
Context {St : Type}.
Variable execute : call -> St -> St * option string.

Variable calendar_id : string.

(** The local zone of the machine. *)
Variable zone : local_zone.

(** The order in which a [for] loop visits a [set]. *)
Variable iter : gset Z -> list Z.

(** The service together with the requests made so far. *)
Definition world : Type := St * list call.

(** A computation that talks to the service and may raise. *)
Definition action (A : Type) : Type := world -> res A * world.

#[local] Instance action_ret : MRet action := fun _ a w => (Ok a, w).

#[local] Instance action_bind : MBind action := fun _ _ k m w =>
  match m w with
  | (Ok a, w') => k a w'
  | (Raise e, w') => (Raise e, w')
  end.

Definition lift {A} (r : res A) : action A := fun w => (r, w).

(** A request inside [try: ... except Exception as error: return
    str(error)]; without an exception the function falls off its end
    and returns [None]. *)
Definition request (c : call) : action (option string) := fun w =>
  let (st, err) := execute c w.1 in (Ok err, (st, (w.2 ++ [c])%list)).

Definition to_create (work_package : WP.t) : action (option string) :=
  let wp := work_package in
  event ← lift (wp_to_event zone wp);
  request (Insert calendar_id event).

Definition to_delete (parsed_event : PE.t) : action (option string) :=
  let event_id := PE.event_id parsed_event in
  request (Delete calendar_id event_id).

Definition may_update (work_package : WP.t) (parsed_event : PE.t)
  : action (option string) :=
  let wp := work_package in
  if bool_decide (WP.updated_at wp <> PE.updated_at parsed_event) then
    tmp ← lift (wp_to_event zone wp);
    let event_id := PE.event_id parsed_event in
    request (Update calendar_id event_id tmp)
  else mret None.

(** [for wp_id in ids: err = body(wp_id); errs.append(err)] *)
Fixpoint for_each (ids : list Z) (body : Z -> action (option string))
    (errs : list (option string)) : action (list (option string)) :=
  match ids with
  | [] => mret errs
  | wp_id :: rest =>
      err ← body wp_id;
      for_each rest body (errs ++ [err])%list
  end.

(** [d[wp_id]] for a dictionary keyed by work package id. *)
Definition subscript {A} (d : gmap Z A) (wp_id : Z) : action A :=
  lift (getitem (PyInt.str wp_id) (d !! wp_id)).

Definition synchronize_wps (parsed_wps : gmap Z WP.t)
    (parsed_events : gmap Z PE.t)
  : action ((gset Z * gset Z * gset Z)
            * (list (option string) * list (option string)
               * list (option string))) :=
  let to_create_set := to_create_set parsed_wps parsed_events in
  let to_delete_set := to_delete_set parsed_wps parsed_events in
  let may_update_set := may_update_set parsed_wps parsed_events in
  to_create_err ←
    for_each (iter to_create_set)
      (fun wp_id => wp ← subscript parsed_wps wp_id; to_create wp) [];
  to_delete_err ←
    for_each (iter to_delete_set)
      (fun wp_id => ev ← subscript parsed_events wp_id; to_delete ev) [];
  may_update_err ←
    for_each (iter may_update_set)
      (fun wp_id =>
         work_package ← subscript parsed_wps wp_id;
         event ← subscript parsed_events wp_id;
         may_update work_package event) [];
  let wp_ids := (to_create_set, to_delete_set, may_update_set) in
  let error := (to_create_err, to_delete_err, may_update_err) in
  mret (wp_ids, error).

End Reconciler.

(** ** Predicates used in the statements *)

(** [c in s] *)
Fixpoint occurs (c : ascii) (s : string) : bool :=
  match s with
  | EmptyString => false
  | String a r => Ascii.eqb a c || occurs c r
  end.

(** Every character of [s] satisfies [p]. *)
Fixpoint all_chars (p : ascii -> bool) (s : string) : bool :=
  match s with
  | EmptyString => true
  | String a r => p a && all_chars p r
  end.

(** The body layout as the interface description words it: a line break
    after the description. *)
Definition spec_event_body (wp : WP.t) : string :=
  WP.description wp +:+ NL +:+ "Parent=" +:+ WP.parent wp +:+ NL
  +:+ WP.assignee wp +:+ NL +:+ WP.updated_at wp.

(** ** Sample data *)

Module Sample.

(** A task without a due date whose description carries a due hour. *)
Definition report : work_package_json :=
  {| elem_id := 5;
     elem_subject := Some "Write report";
     elem_description :=
       Description (Some ("Draft..." +:+ NL +:+ "dueHour=14:30:00"))
                   "<p>Draft...</p>";
     elem_parent := Link None "";
     elem_assignee := Link (Some "/api/v3/users/3") "Alice";
     elem_dueDate := Some None;
     elem_createdAt := "2024-01-02T09:00:00Z";
     elem_updatedAt := "2024-01-02T09:00:00Z" |}.

(** A task with a due date and a due hour. *)
Definition review : work_package_json :=
  {| elem_id := 7;
     elem_subject := Some "Review draft";
     elem_description :=
       Description (Some ("Read it" +:+ NL +:+ "dueHour=08:15:00"))
                   "<p>Read it</p>";
     elem_parent := Link (Some "/api/v3/work_packages/5") "Write report";
     elem_assignee := Link None "";
     elem_dueDate := Some (Some "2024-03-01");
     elem_createdAt := "2024-02-01T10:00:00Z";
     elem_updatedAt := "2024-02-01T10:00:00Z" |}.

(** A task with a due date whose description has no due hour. *)
Definition no_hour : work_package_json :=
  {| elem_id := 8;
     elem_subject := Some "Call supplier";
     elem_description := Description (Some "Ask for a quote") "<p>Ask for a quote</p>";
     elem_parent := Link None "";
     elem_assignee := Link None "";
     elem_dueDate := Some (Some "2024-03-01");
     elem_createdAt := "2024-02-01T10:00:00Z";
     elem_updatedAt := "2024-02-02T10:00:00Z" |}.

(** A task marked as not to be synchronized. *)
Definition private : work_package_json :=
  {| elem_id := 9;
     elem_subject := Some "Private note";
     elem_description := Description (Some ("!!!" +:+ NL +:+ "dueHour=10:00:00")) "<p>!!!</p>";
     elem_parent := Link None "";
     elem_assignee := Link None "";
     elem_dueDate := Some (Some "2024-03-01");
     elem_createdAt := "2024-02-01T10:00:00Z";
     elem_updatedAt := "2024-02-02T10:00:00Z" |}.

(** A task whose subject is null. *)
Definition broken : work_package_json :=
  {| elem_id := 10;
     elem_subject := None;
     elem_description := Description (Some "text") "<p>text</p>";
     elem_parent := Link None "";
     elem_assignee := Link None "";
     elem_dueDate := Some None;
     elem_createdAt := "2024-02-01T10:00:00Z";
     elem_updatedAt := "2024-02-02T10:00:00Z" |}.

(** An event left on the calendar for task 9. *)
Definition event9 : event_json :=
  {| ev_id := "evt9";
     ev_summary := Some "9:Private note";
     ev_description :=
       Some ("<p>note</p>Parent=No parent" +:+ NL +:+ "Not assigned to anyone"
             +:+ NL +:+ "2024-02-01T10:00:00Z");
     ev_end_dateTime := Some "2024-03-01T11:00:00+00:00" |}.

(** An event whose title pads the id with zeros. *)
Definition event7 : event_json :=
  {| ev_id := "evt7";
     ev_summary := Some "007:Write report";
     ev_description :=
       Some ("<p>Draft</p>Parent=No parent" +:+ NL +:+ "Alice"
             +:+ NL +:+ "2024-02-01T10:00:00Z");
     ev_end_dateTime := Some "2024-03-01T09:15:00+00:00" |}.

(** Task 7 once normalized, and the event body built from it in a zone
    at UTC. *)
Definition review_wp : WP.t :=
  {| WP.wp_id := PyInt 7;
     WP.subject := "Review draft";
     WP.description := "<p>Read it</p>";
     WP.parent := "5:Write report";
     WP.assignee := "Not assigned to anyone";
     WP.due_date := "2024-03-01";
     WP.due_hour := "08:15:00";
     WP.updated_at := "2024-02-01T10:00:00Z" |}.

Definition review_body : Body.t :=
  {| Body.summary := "7:Review draft";
     Body.description :=
       "<p>Read it</p>Parent=5:Write report" +:+ NL +:+ "Not assigned to anyone"
       +:+ NL +:+ "2024-02-01T10:00:00Z";
     Body.start_dateTime := "2024-03-01T08:15:00+00:00";
     Body.end_dateTime := "2024-03-01T09:15:00+00:00";
     Body.reminders :=
       {| useDefault := false; overrides := [("popup", 1440); ("popup", 30)] |} |}.

(** A task due in the hour that the change to summer time skips, and the
    event body built from it in a zone with that change: the event ends
    when it starts. *)
Definition night_wp : WP.t :=
  {| WP.wp_id := PyInt 21;
     WP.subject := "Night shift";
     WP.description := "<p>Check the logs</p>";
     WP.parent := "No parent";
     WP.assignee := "Not assigned to anyone";
     WP.due_date := "2024-03-10";
     WP.due_hour := "02:30:00";
     WP.updated_at := "2024-02-01T10:00:00Z" |}.

Definition night_body : Body.t :=
  {| Body.summary := "21:Night shift";
     Body.description :=
       "<p>Check the logs</p>Parent=No parent" +:+ NL +:+ "Not assigned to anyone"
       +:+ NL +:+ "2024-02-01T10:00:00Z";
     Body.start_dateTime := "2024-03-10T03:30:00-04:00";
     Body.end_dateTime := "2024-03-10T03:30:00-04:00";
     Body.reminders :=
       {| useDefault := false; overrides := [("popup", 1440); ("popup", 30)] |} |}.

(** Task 8 once normalized: its due hour is not a time. *)
Definition no_hour_wp : WP.t :=
  {| WP.wp_id := PyInt 8;
     WP.subject := "Call supplier";
     WP.description := "<p>Ask for a quote</p>";
     WP.parent := "No parent";
     WP.assignee := "Not assigned to anyone";
     WP.due_date := "2024-03-01";
     WP.due_hour := "Ask for a quote";
     WP.updated_at := "2024-02-02T10:00:00Z" |}.

(** An older event on the calendar for task 7. *)
Definition event7_old : event_json :=
  {| ev_id := "evt7old";
     ev_summary := Some "7:Review draft";
     ev_description :=
       Some ("<p>Read</p>Parent=5:Write report" +:+ NL +:+ "Not assigned to anyone"
             +:+ NL +:+ "2024-01-15T10:00:00Z");
     ev_end_dateTime := Some "2024-03-01T09:15:00+00:00" |}.

(** An older event on the calendar for task 8. *)
Definition event8_old : event_json :=
  {| ev_id := "evt8old";
     ev_summary := Some "8:Call supplier";
     ev_description :=
       Some ("<p>Ask</p>Parent=No parent" +:+ NL +:+ "Not assigned to anyone"
             +:+ NL +:+ "2024-02-01T10:00:00Z");
     ev_end_dateTime := Some "2024-03-01T09:15:00+00:00" |}.

(** The older event for task 7 once normalized. *)
Definition event7_old_parsed : PE.t :=
  {| PE.event_id := "evt7old";
     PE.wp_id := PyStr "7";
     PE.subject := "Review draft";
     PE.assignee := "Not assigned to anyone";
     PE.updated_at := "2024-01-15T10:00:00Z";
     PE.due_date := "2024-03-01";
     PE.due_hour := "09:15:00+00:00" |}.

Definition tasks : gmap Z WP.t :=
  (parse_workpackages [review; report; private]).1.

Definition events : gmap Z PE.t := (parse_events [event7; event9]).1.

(** Another order in which a set may be visited. *)
Definition backwards (X : gset Z) : list Z := reverse (elements X).

(** A work package without a [dueDate] member, as a milestone has. *)
Definition milestone : work_package_json :=
  {| elem_id := 12;
     elem_subject := Some "Release";
     elem_description := Description (Some "Ship it") "<p>Ship it</p>";
     elem_parent := Link None "";
     elem_assignee := Link None "";
     elem_dueDate := None;
     elem_createdAt := "2024-01-02T09:00:00Z";
     elem_updatedAt := "2024-01-02T09:00:00Z" |}.

(** A work package without due date and without description. *)
Definition draft : work_package_json :=
  {| elem_id := 13;
     elem_subject := Some "Idea";
     elem_description := Description None "";
     elem_parent := Link None "";
     elem_assignee := Link None "";
     elem_dueDate := Some None;
     elem_createdAt := "2024-01-02T09:00:00Z";
     elem_updatedAt := "2024-01-02T09:00:00Z" |}.

(** A work package without due date whose creation timestamp carries an
    offset instead of [Z]. *)
Definition zoned : work_package_json :=
  {| elem_id := 14;
     elem_subject := Some "Plan";
     elem_description := Description (Some "Plan it") "<p>Plan it</p>";
     elem_parent := Link None "";
     elem_assignee := Link None "";
     elem_dueDate := Some None;
     elem_createdAt := "2024-01-02T10:00:00+01:00";
     elem_updatedAt := "2024-01-02T09:00:00Z" |}.

(** A second work package with the id of [report], with a due date. *)
Definition report_again : work_package_json :=
  {| elem_id := 5;
     elem_subject := Some "Write report";
     elem_description :=
       Description (Some ("Draft..." +:+ NL +:+ "dueHour=14:30:00"))
                   "<p>Draft...</p>";
     elem_parent := Link None "";
     elem_assignee := Link (Some "/api/v3/users/3") "Alice";
     elem_dueDate := Some (Some "2024-03-01");
     elem_createdAt := "2024-01-02T09:00:00Z";
     elem_updatedAt := "2024-01-03T09:00:00Z" |}.

(** A machine whose local zone is UTC. *)
Definition utc : local_zone := fun dt => Ok (Aware dt 0).

(** A machine whose local zone is a fixed number of seconds from UTC. *)
Definition fixed (seconds : Z) : local_zone :=
  fun dt => Ok (Aware dt seconds).

(** A machine in a zone with daylight saving time, in the night of the
    change to summer time: the local times from 02:00 to 03:00 do not
    exist and [astimezone] answers with the hour after, at the summer
    offset of four hours; before 02:00 the winter offset of five hours
    holds. *)
Definition spring_forward : local_zone :=
  fun dt =>
    if hour dt <? 2 then Ok (Aware dt (-18000))
    else if hour dt =? 2 then
      Ok (Aware (Datetime (year dt) (month dt) (day dt) 3 (minute dt) (second dt))
                (-14400))
    else Ok (Aware dt (-14400)).

(** A calendar that accepts every request. *)
Definition accept : call -> unit -> unit * option string :=
  fun _ st => (st, None).

(** A calendar that refuses every request. *)
Definition refuse : call -> unit -> unit * option string :=
  fun _ st => (st, Some "HttpError 403").

End Sample.

(** The requests that a run sends for one id, in each of its phases. *)
Definition create_calls (calendar_id : string) (zone : local_zone)
    (parsed_wps : gmap Z WP.t) (wp_id : Z) : list call :=
  match parsed_wps !! wp_id with
  | Some wp =>
      match wp_to_event zone wp with
      | Ok event => [Insert calendar_id event]
      | Raise _ => []
      end
  | None => []
  end.

Definition delete_calls (calendar_id : string)
    (parsed_events : gmap Z PE.t) (wp_id : Z) : list call :=
  match parsed_events !! wp_id with
  | Some ev => [Delete calendar_id (PE.event_id ev)]
  | None => []
  end.

Definition update_calls (calendar_id : string) (zone : local_zone)
    (parsed_wps : gmap Z WP.t) (parsed_events : gmap Z PE.t) (wp_id : Z)
  : list call :=
  match parsed_wps !! wp_id, parsed_events !! wp_id with
  | Some wp, Some ev =>
      if bool_decide (WP.updated_at wp <> PE.updated_at ev) then
        match wp_to_event zone wp with
        | Ok tmp => [Update calendar_id (PE.event_id ev) tmp]
        | Raise _ => []
        end
      else []
  | _, _ => []
  end.

(** Every event body that the run has to build can be built: the body of
    each task without an event, and of each task whose event carries
    another update time. *)
Definition payloads_ok (zone : local_zone) (parsed_wps : gmap Z WP.t)
    (parsed_events : gmap Z PE.t) : Prop :=
  forall wp_id wp,
    parsed_wps !! wp_id = Some wp ->
    (forall ev, parsed_events !! wp_id = Some ev ->
                WP.updated_at wp <> PE.updated_at ev) ->
    exists event, wp_to_event zone wp = Ok event.

Definition is_update (c : call) : bool :=
  match c with
  | Update _ _ _ => true
  | _ => false
  end.

(** The characters of a printed integer. *)
Definition digit_or_minus (c : ascii) : bool :=
  PyInt.is_digit c || Ascii.eqb c "-".

(** The characters of a time of day or of a UTC offset. *)
Definition time_char (c : ascii) : bool :=
  digit_or_minus c || Ascii.eqb c ":" || Ascii.eqb c "+".

(** ** Dates as [datetime] counts them *)

(** The fields that the constructor of [datetime] accepts. *)
Definition valid_datetime (dt : datetime) : Prop :=
  1 <= year dt <= 9999 /\ 1 <= month dt <= 12 /\
  1 <= day dt <= days_in_month (year dt) (month dt) /\
  0 <= hour dt <= 23 /\ 0 <= minute dt <= 59 /\ 0 <= second dt <= 59.

(** [_days_before_year] of the [datetime] module. *)
Definition days_before_year (y : Z) : Z :=
  let y' := y - 1 in y' * 365 + y' / 4 - y' / 100 + y' / 400.

(** [_days_before_month] of the [datetime] module. *)
Definition days_before_month (y m : Z) : Z :=
  (if m =? 1 then 0 else if m =? 2 then 31 else if m =? 3 then 59
   else if m =? 4 then 90 else if m =? 5 then 120 else if m =? 6 then 151
   else if m =? 7 then 181 else if m =? 8 then 212 else if m =? 9 then 243
   else if m =? 10 then 273 else if m =? 11 then 304 else 334)
  + (if (2 <? m) && is_leap y then 1 else 0).

(** [dt.toordinal()]: the day number, 1 for the first of January of year 1. *)
Definition toordinal (dt : datetime) : Z :=
  days_before_year (year dt) + days_before_month (year dt) (month dt) + day dt.

(** The seconds from the start of day 0 to [dt]. *)
Definition to_seconds (dt : datetime) : Z :=
  ((toordinal dt * 24 + hour dt) * 60 + minute dt) * 60 + second dt.

(** ** Requests that the two maps call for *)

(** A request is called for when it creates the event of a task that has
    none, deletes an event that has no task, or replaces the event of a
    task whose update time differs from the one kept in the event. *)
Definition called_for (calendar_id : string) (zone : local_zone)
    (parsed_wps : gmap Z WP.t) (parsed_events : gmap Z PE.t) (c : call) : Prop :=
  match c with
  | Insert calendarId body =>
      calendarId = calendar_id /\
      exists wp_id wp,
        parsed_wps !! wp_id = Some wp /\ parsed_events !! wp_id = None /\
        wp_to_event zone wp = Ok body
  | Delete calendarId eventId =>
      calendarId = calendar_id /\
      exists wp_id ev,
        parsed_events !! wp_id = Some ev /\ parsed_wps !! wp_id = None /\
        PE.event_id ev = eventId
  | Update calendarId eventId body =>
      calendarId = calendar_id /\
      exists wp_id wp ev,
        parsed_wps !! wp_id = Some wp /\ parsed_events !! wp_id = Some ev /\
        WP.updated_at wp <> PE.updated_at ev /\
        PE.event_id ev = eventId /\ wp_to_event zone wp = Ok body
  end.

(** The requests of a whole run, in the order in which it makes them. *)
Definition planned_calls (calendar_id : string) (zone : local_zone)
    (iter : gset Z -> list Z)
    (parsed_wps : gmap Z WP.t) (parsed_events : gmap Z PE.t) : list call :=
  (flat_map (create_calls calendar_id zone parsed_wps)
     (iter (to_create_set parsed_wps parsed_events))
   ++ flat_map (delete_calls calendar_id parsed_events)
        (iter (to_delete_set parsed_wps parsed_events))
   ++ flat_map (update_calls calendar_id zone parsed_wps parsed_events)
        (iter (may_update_set parsed_wps parsed_events)))%list.

(** ** Reading the services, the log sheet and the program *)

(** What ends the program: an exception of the functions above, the
    [TypeError] of a loop over [None], or an exception of a service that
    no [try] block catches, with its text. *)
Inductive failure : Type :=
  | Uncaught (e : exn)
  | TypeError
  | ServiceError (msg : string).

Inductive outcome (A : Type) : Type :=
  | Done (a : A)
  | Failed (f : failure).
Arguments Done {A} a.
Arguments Failed {A} f.

(** The reply of the calendar to [events().list(...).execute()]: an
    exception, or a result whose [items] may be missing. *)
Inductive list_reply : Type :=
  | ListRaises (msg : string)
  | ListResult (items : option (list event_json)).

(** [read_events]: the exception is printed and the function falls off
    its end, returning [None]. *)
Definition read_events (reply : list_reply) : option (list event_json) :=
  match reply with
  | ListRaises _ => None
  | ListResult None => Some []
  | ListResult (Some items) => Some items
  end.

(** [get_projects_and_ids] on the decoded [elements] of the reply: a
    dictionary from project name to project id. *)
Definition get_projects_and_ids (raw_projects : list (string * Z))
  : gmap string Z :=
  foldl (fun parsed_projects elem => <[elem.1 := elem.2]> parsed_projects)
        ∅ raw_projects.

(** [str(elem)] for an entry of an error list. *)
Definition str_of_entry (elem : option string) : string :=
  match elem with
  | None => "None"
  | Some msg => msg
  end.

(** [spreadsheets().values().append(...)] with its arguments. *)
Inductive sheet_call : Type :=
  | Append (spreadsheetId valueInputOption range : string)
           (values : list (list string)).

(** The parameters of [main]. *)
Record parameters : Type := Parameters {
  path_to_secret_file : string;
  SCOPES : list string;
  p_calendar_id : string;
  openproject_api_url : string;
  openproject_api_key : string;
  project_name : string;
  p_save_logs : bool;
  p_sheet_id : string }.

(** What OpenProject and the calendar answer to the three reads of
    [main]: the projects, the work packages of a project, the events. *)
Record replies : Type := Replies {
  projects_reply : list (string * Z);
  workpackages_reply : Z -> list work_package_json;
  events_reply : list_reply }.

Section Program.

Context {St Sh : Type}.

(** The calendar service, as in the reconciler. *)
Variable execute : call -> St -> St * option string.

(** The sheet service: [Some msg] is an exception with that text. *)
Variable append : sheet_call -> Sh -> Sh * option string.

Variable zone : local_zone.
Variable iter : gset Z -> list Z.

(** [datetime.now().isoformat()] at the time of logging. *)
Variable now : string.

(** The sheet together with the requests made to it so far. *)
Definition sheet : Type := Sh * list sheet_call.

(** A request to the sheet; nothing catches its exception. *)
Definition sheet_request (c : sheet_call) (s : sheet) : outcome unit * sheet :=
  let (sh, err) := append c s.1 in
  (match err with
   | None => Done tt
   | Some msg => Failed (ServiceError msg)
   end, (sh, (s.2 ++ [c])%list)).

Definition save_logs (wps : gset Z * gset Z * gset Z)
    (errors : list (option string) * list (option string) * list (option string))
    (sheet_id : string) (s : sheet) : outcome unit * sheet :=
  let range_name := "errors" in
  let to_create_errors := "to_create_errors" :: (str_of_entry <$> errors.1.1) in
  let to_delete_errors := "to_delete_errors" :: (str_of_entry <$> errors.1.2) in
  let may_update_errors := "may_update_errors" :: (str_of_entry <$> errors.2) in
  let log_time := [now] in
  let values := [log_time; to_create_errors; to_delete_errors; may_update_errors] in
  match sheet_request (Append sheet_id "USER_ENTERED" range_name values) s with
  | (Failed f, s1) => (Failed f, s1)
  | (Done _, s1) =>
      let range_name := "actions" in
      let to_create := "to_create" :: (PyInt.str <$> iter wps.1.1) in
      let to_delete := "to_delete" :: (PyInt.str <$> iter wps.1.2) in
      let may_update := "may_update" :: (PyInt.str <$> iter wps.2) in
      let values := [log_time; to_create; to_delete; may_update] in
      sheet_request (Append sheet_id "USER_ENTERED" range_name values) s1
  end.

(** [main]: the calendar and the sheet before, the outcome and the two
    services after. *)
Definition main (params : parameters) (env : replies)
    (w : @world St) (s : sheet) : outcome unit * (@world St * sheet) :=
  let calendar_id := p_calendar_id params in
  let projects := get_projects_and_ids (projects_reply env) in
  match projects !! project_name params with
  | None => (Failed (Uncaught (KeyError (project_name params))), (w, s))
  | Some project_id =>
      let all_work_packages := workpackages_reply env project_id in
      let '(parsed_wps, op_err) := parse_workpackages all_work_packages in
      let all_events := read_events (events_reply env) in
      match all_events with
      | None => (Failed TypeError, (w, s))
      | Some events =>
          let '(parsed_events, gc_err) := parse_events events in
          match synchronize_wps execute calendar_id zone iter
                  parsed_wps parsed_events w with
          | (Raise e, w') => (Failed (Uncaught e), (w', s))
          | (Ok (wps, errors), w') =>
              if p_save_logs params then
                let sheet_id := p_sheet_id params in
                let '(r, s') := save_logs wps errors sheet_id s in
                (r, (w', s'))
              else (Done tt, (w', s))
          end
      end
  end.

End Program.

(** * Facts *)

(** ** The functions on small inputs *)

Module Checks.

Example split_title : Py.split ":" "7:Write report" = ["7"; "Write report"].
Proof. reflexivity. Qed.

Example split_empty : Py.split ":" "" = [""].
Proof. reflexivity. Qed.

Example split_only_separator : Py.split "/" "/" = [""; ""].
Proof. reflexivity. Qed.

Example strip_both_sides :
  Py.strip (" 14:30:00 " +:+ NL) = "14:30:00".
Proof. reflexivity. Qed.

Example drop_last_Z : Py.drop_last "09:00:00Z" = "09:00:00".
Proof. reflexivity. Qed.

Example int_plain : PyInt.int "2024" = Ok 2024.
Proof. reflexivity. Qed.

Example int_leading_zero : PyInt.int "08" = Ok 8.
Proof. reflexivity. Qed.

Example int_spaces_sign_underscore : PyInt.int " -1_000 " = Ok (-1000).
Proof. reflexivity. Qed.

Example int_empty : PyInt.int "" = Raise ValueError.
Proof. reflexivity. Qed.

Example int_words : PyInt.int "Ask for a quote" = Raise ValueError.
Proof. reflexivity. Qed.

Example int_double_underscore : PyInt.int "1__0" = Raise ValueError.
Proof. reflexivity. Qed.

Example str_negative : PyInt.str (-12) = "-12".
Proof. reflexivity. Qed.

Example str_zero : PyInt.str 0 = "0".
Proof. reflexivity. Qed.

Example date_of_scenario :
  str_to_date "2024-03-01" "08:15:00" = Ok (Datetime 2024 3 1 8 15 0).
Proof. reflexivity. Qed.

Example date_without_seconds : str_to_date "2024-03-01" "08:15" = Raise IndexError.
Proof. reflexivity. Qed.

Example date_out_of_range : str_to_date "2023-02-29" "08:15:00" = Raise ValueError.
Proof. reflexivity. Qed.

Example hour_over_midnight_in_leap_year :
  add_one_hour (Datetime 2024 2 28 23 5 0) = Ok (Datetime 2024 2 29 0 5 0).
Proof. reflexivity. Qed.

Example hour_over_new_year :
  add_one_hour (Datetime 2023 12 31 23 5 0) = Ok (Datetime 2024 1 1 0 5 0).
Proof. reflexivity. Qed.

Example hour_past_the_last_year :
  add_one_hour (Datetime 9999 12 31 23 0 0) = Raise OverflowError.
Proof. reflexivity. Qed.

Example isoformat_west_of_utc :
  astimezone_isoformat (Sample.fixed (-9000)) (Datetime 987 3 1 8 5 0)
  = Ok "0987-03-01T08:05:00-02:30".
Proof. reflexivity. Qed.

Example isoformat_with_seconds_in_the_offset :
  isoformat (Aware (Datetime 1890 3 1 8 5 0) 1172) = "1890-03-01T08:05:00+00:19:32".
Proof. reflexivity. Qed.

Example isoformat_in_the_missing_hour :
  astimezone_isoformat Sample.spring_forward (Datetime 2024 3 10 2 30 0)
  = Ok "2024-03-10T03:30:00-04:00".
Proof. reflexivity. Qed.

Example event_in_the_missing_hour_ends_when_it_starts :
  wp_to_event Sample.spring_forward Sample.night_wp = Ok Sample.night_body /\
  Body.start_dateTime Sample.night_body = Body.end_dateTime Sample.night_body.
Proof. split; reflexivity. Qed.

Example zone_that_raises_ends_the_body :
  wp_to_event (fun _ => Raise OverflowError) Sample.review_wp = Raise OverflowError.
Proof. reflexivity. Qed.

Example int_refuses_a_separator : PyInt.int (String (ascii_of_nat 28) "7") = Raise ValueError.
Proof. reflexivity. Qed.

Example strip_removes_a_separator : Py.strip (String (ascii_of_nat 28) "7") = "7".
Proof. reflexivity. Qed.

Example milestone_is_an_error :
  parse_workpackage Sample.milestone = Raise (KeyError "dueDate").
Proof. reflexivity. Qed.

Example review_is_normalized : parse_workpackage Sample.review = Ok Sample.review_wp.
Proof. reflexivity. Qed.

Example no_hour_is_normalized : parse_workpackage Sample.no_hour = Ok Sample.no_hour_wp.
Proof. reflexivity. Qed.

Example broken_is_an_error :
  (parse_workpackages [Sample.broken; Sample.report]).2
  = [(Sample.broken, AttributeError)].
Proof. reflexivity. Qed.

Example review_body_is_built : wp_to_event Sample.utc Sample.review_wp = Ok Sample.review_body.
Proof. reflexivity. Qed.

Example event7_old_is_normalized :
  parse_event Sample.event7_old = Ok (7, Sample.event7_old_parsed).
Proof. reflexivity. Qed.

Example untitled_event_is_an_error :
  parse_event (EventJson "e" None (Some "a") (Some "2024-03-01T09:15:00Z"))
  = Raise (KeyError "summary").
Proof. reflexivity. Qed.

Example one_line_body_is_an_error :
  parse_event (EventJson "e" (Some "7:x") (Some "a") (Some "2024-03-01T09:15:00Z"))
  = Raise IndexError.
Proof. reflexivity. Qed.

Example refused_requests_are_recorded :
  (synchronize_wps Sample.refuse "cal" Sample.utc elements Sample.tasks Sample.events (tt, [])).1
  = Ok ((to_create_set Sample.tasks Sample.events,
         to_delete_set Sample.tasks Sample.events,
         may_update_set Sample.tasks Sample.events),
        ([Some "HttpError 403"], [Some "HttpError 403"], [None])).
Proof. vm_compute. reflexivity. Qed.

End Checks.

(** Case analysis on a computation of [res] that is known to return. *)
Ltac step_ok H :=
  match type of H with
  | context [mbind _ ?m] =>
      let E := fresh "E" in
      destruct m eqn:E; simpl in H; [|discriminate H]
  end.

(** ** Strings *)

Section StringFacts.

Lemma append_String (c : ascii) (a b : string) :
  String c a +:+ b = String c (a +:+ b).
Proof. reflexivity. Qed.

Lemma append_Empty (b : string) : EmptyString +:+ b = b.
Proof. reflexivity. Qed.

Lemma append_assoc (a b c : string) : (a +:+ b) +:+ c = a +:+ (b +:+ c).
Proof.
  induction a as [|x a IH]; [reflexivity|].
  rewrite !append_String. now rewrite IH.
Qed.

Lemma occurs_append (c : ascii) (a b : string) :
  occurs c (a +:+ b) = occurs c a || occurs c b.
Proof.
  induction a as [|x a IH]; [reflexivity|].
  rewrite append_String. simpl. rewrite IH. now rewrite orb_assoc.
Qed.

Lemma all_chars_append (p : ascii -> bool) (a b : string) :
  all_chars p (a +:+ b) = all_chars p a && all_chars p b.
Proof.
  induction a as [|x a IH]; [reflexivity|].
  rewrite append_String. simpl. rewrite IH. now rewrite andb_assoc.
Qed.

Lemma all_chars_impl (p q : ascii -> bool) (s : string) :
  (forall c, p c = true -> q c = true) ->
  all_chars p s = true -> all_chars q s = true.
Proof.
  intros Hpq. induction s as [|x s IH]; simpl; [reflexivity|].
  intros [Hx Hs]%andb_prop. rewrite (Hpq _ Hx). now apply IH.
Qed.

Lemma all_chars_not_occurs (p : ascii -> bool) (c : ascii) (s : string) :
  p c = false -> all_chars p s = true -> occurs c s = false.
Proof.
  intros Hc. induction s as [|x s IH]; simpl; [reflexivity|].
  intros [Hx Hs]%andb_prop. rewrite (IH Hs), orb_false_r.
  destruct (Ascii.eqb_spec x c) as [->|]; [congruence | reflexivity].
Qed.

Lemma split_nonempty (sep : ascii) (s : string) : Py.split sep s <> [].
Proof.
  induction s as [|x s IH]; simpl; [discriminate|].
  destruct (Ascii.eqb x sep); [discriminate|].
  destruct (Py.split sep s); [contradiction | discriminate].
Qed.

(** A string without the separator is its own only segment. *)
Lemma split_absent (sep : ascii) (s : string) :
  occurs sep s = false -> Py.split sep s = [s].
Proof.
  induction s as [|x s IH]; simpl; [reflexivity|].
  intros [Hx Hs]%orb_false_elim. rewrite Hx, (IH Hs). reflexivity.
Qed.

(** Splitting at a separator splits both sides. *)
Lemma split_append (sep : ascii) (a b : string) :
  Py.split sep (a +:+ String sep b) = (Py.split sep a ++ Py.split sep b)%list.
Proof.
  induction a as [|x a IH]; [rewrite append_Empty | rewrite append_String]; simpl.
  - now rewrite Ascii.eqb_refl.
  - destruct (Ascii.eqb x sep); simpl; [now rewrite IH|].
    rewrite IH. pose proof (split_nonempty sep a) as Hne.
    destruct (Py.split sep a); [contradiction | reflexivity].
Qed.

Lemma split_first (sep : ascii) (a b : string) :
  occurs sep a = false ->
  Py.split sep (a +:+ String sep b) = a :: Py.split sep b.
Proof. intros Ha. now rewrite split_append, (split_absent _ _ Ha). Qed.

Lemma index_last_app {A} (l1 l2 : list A) :
  l2 <> [] -> Py.index_last (l1 ++ l2)%list = Py.index_last l2.
Proof.
  intros Hne. unfold Py.index_last.
  destruct l2 as [|x l2] using rev_ind; [contradiction|].
  now rewrite app_assoc, !last_snoc.
Qed.

Lemma index_last_split (sep : ascii) (s : string) :
  exists seg, Py.index_last (Py.split sep s) = Ok seg.
Proof.
  unfold Py.index_last. pose proof (split_nonempty sep s) as Hne.
  destruct (Py.split sep s) as [|x l] using rev_ind; [contradiction|].
  rewrite last_snoc. eauto.
Qed.

Lemma index_last_absent (sep : ascii) (s : string) :
  occurs sep s = false -> Py.index_last (Py.split sep s) = Ok s.
Proof. intros H. now rewrite (split_absent _ _ H). Qed.

Lemma index_last2_snoc2 {A} (l : list A) (a b : A) :
  Py.index_last2 (l ++ [a; b])%list = Ok a.
Proof. unfold Py.index_last2. now rewrite rev_app_distr. Qed.

Lemma index_last2_long {A} (l1 l2 l3 : list A) :
  l2 <> [] -> l3 <> [] -> exists a, Py.index_last2 (l1 ++ l2 ++ l3)%list = Ok a.
Proof.
  intros H2 H3. unfold Py.index_last2.
  destruct l3 as [|z l3] using rev_ind; [contradiction|].
  destruct l2 as [|y l2] using rev_ind; [contradiction|].
  clear IHl3 IHl2. rewrite !rev_app_distr. simpl.
  destruct (rev l3) as [|w r]; simpl; eauto.
Qed.

(** [strip] leaves a string without whitespace alone. *)
Lemma lstrip_no_space (s : string) :
  all_chars (fun c => negb (Py.is_space c)) s = true -> Py.lstrip s = s.
Proof.
  destruct s as [|x s]; simpl; [reflexivity|].
  intros [Hx _]%andb_prop. apply negb_true_iff in Hx. now rewrite Hx.
Qed.

Lemma rstrip_no_space (s : string) :
  all_chars (fun c => negb (Py.is_space c)) s = true -> Py.rstrip s = s.
Proof.
  induction s as [|x s IH]; simpl; [reflexivity|].
  intros [Hx Hs]%andb_prop. apply negb_true_iff in Hx.
  rewrite (IH Hs), Hx. now destruct s.
Qed.

Lemma strip_no_space (s : string) :
  all_chars (fun c => negb (Py.is_space c)) s = true -> Py.strip s = s.
Proof.
  intros H. unfold Py.strip. now rewrite (lstrip_no_space _ H), rstrip_no_space.
Qed.

End StringFacts.

(** ** [str] and [int] *)

Section IntFacts.

Lemma string_of_uint_digits (d : Decimal.uint) :
  all_chars PyInt.is_digit (NilEmpty.string_of_uint d) = true.
Proof. induction d; simpl; auto. Qed.

Lemma nilzero_string_of_uint_digits (d : Decimal.uint) :
  all_chars PyInt.is_digit (NilZero.string_of_uint d) = true.
Proof. destruct d; try reflexivity; apply (string_of_uint_digits (_ _)). Qed.

Lemma nilzero_string_of_uint_nonempty (d : Decimal.uint) :
  NilZero.string_of_uint d <> EmptyString.
Proof. destruct d; discriminate. Qed.

Lemma str_chars (n : Z) : all_chars digit_or_minus (PyInt.str n) = true.
Proof.
  unfold PyInt.str, NilZero.string_of_int.
  destruct (Z.to_int n) as [d|d]; simpl.
  - eapply all_chars_impl; [|apply nilzero_string_of_uint_digits].
    intros c Hc. unfold digit_or_minus. now rewrite Hc.
  - eapply all_chars_impl; [|apply nilzero_string_of_uint_digits].
    intros c Hc. unfold digit_or_minus. now rewrite Hc.
Qed.

Lemma str_not_occurs (c : ascii) (n : Z) :
  digit_or_minus c = false -> occurs c (PyInt.str n) = false.
Proof. intros Hc. eapply all_chars_not_occurs; [exact Hc | apply str_chars]. Qed.

Lemma is_digit_not_space (c : ascii) :
  PyInt.is_digit c = true -> negb (Py.is_space c) = true.
Proof.
  unfold PyInt.is_digit, Py.is_space. cbv zeta.
  generalize (N_of_ascii c). intros n Hn.
  apply andb_prop in Hn as [H1%N.leb_le H2%N.leb_le].
  apply negb_true_iff, orb_false_iff. split; apply andb_false_iff.
  - right. apply N.leb_gt. lia.
  - right. apply N.leb_gt. lia.
Qed.

(** The white space of [int] is white space of [str.strip] too. *)
Lemma int_space_is_space (c : ascii) :
  PyInt.is_space c = true -> Py.is_space c = true.
Proof.
  unfold PyInt.is_space, Py.is_space. cbv zeta.
  generalize (N_of_ascii c). intros n Hn.
  apply orb_true_iff. apply orb_prop in Hn as [Hn | Hn%N.eqb_eq].
  - now left.
  - right. subst n. reflexivity.
Qed.

Lemma int_strip_no_space (s : string) :
  all_chars (fun c => negb (Py.is_space c)) s = true -> PyInt.strip s = s.
Proof.
  intros H.
  assert (H' : all_chars (fun c => negb (PyInt.is_space c)) s = true).
  { eapply all_chars_impl; [|exact H]. intros c Hc. simpl in Hc.
    apply negb_true_iff in Hc. apply negb_true_iff.
    destruct (PyInt.is_space c) eqn:E; [|reflexivity].
    apply int_space_is_space in E. congruence. }
  clear H. unfold PyInt.strip.
  assert (Hl : PyInt.lstrip s = s).
  { destruct s as [|x s]; simpl; [reflexivity|].
    simpl in H'. apply andb_prop in H' as [Hx _].
    apply negb_true_iff in Hx. now rewrite Hx. }
  rewrite Hl. induction s as [|x s IH]; simpl; [reflexivity|].
  simpl in H'. apply andb_prop in H' as [Hx Hs]. apply negb_true_iff in Hx.
  rewrite IH, Hx.
  - now destruct s.
  - exact Hs.
  - destruct s as [|y s]; simpl; [reflexivity|].
    simpl in Hs. apply andb_prop in Hs as [Hy _].
    apply negb_true_iff in Hy. now rewrite Hy.
Qed.

Lemma is_digit_not_sign (c : ascii) :
  PyInt.is_digit c = true ->
  Ascii.eqb c "-" = false /\ Ascii.eqb c "+" = false /\ Ascii.eqb c "_" = false.
Proof.
  intros Hc. repeat split.
  - destruct (Ascii.eqb_spec c "-"%char) as [->|]; [discriminate Hc | reflexivity].
  - destruct (Ascii.eqb_spec c "+"%char) as [->|]; [discriminate Hc | reflexivity].
  - destruct (Ascii.eqb_spec c "_"%char) as [->|]; [discriminate Hc | reflexivity].
Qed.

Lemma drop_underscores_digits (b : bool) (s : string) :
  all_chars PyInt.is_digit s = true -> PyInt.drop_underscores b s = Some s.
Proof.
  revert b. induction s as [|x s IH]; intros b; simpl; [reflexivity|].
  intros [Hx Hs]%andb_prop.
  destruct (is_digit_not_sign x Hx) as (_ & _ & ->).
  now rewrite (IH _ Hs).
Qed.

Lemma unsigned_string_of_uint (d : Decimal.uint) :
  PyInt.unsigned (NilZero.string_of_uint d) = Some (Z.of_uint d).
Proof.
  unfold PyInt.unsigned.
  rewrite (drop_underscores_digits _ _ (nilzero_string_of_uint_digits d)). simpl.
  destruct d; try reflexivity; now rewrite NilZero.usu.
Qed.

Lemma int_digits (s : string) :
  all_chars PyInt.is_digit s = true -> s <> EmptyString ->
  PyInt.int s = match PyInt.unsigned s with Some n => Ok n | None => Raise ValueError end.
Proof.
  intros Hs Hne. unfold PyInt.int.
  rewrite int_strip_no_space
    by (eapply all_chars_impl; [apply is_digit_not_space | exact Hs]).
  destruct s as [|c s]; [contradiction|].
  simpl in Hs. apply andb_prop in Hs as [Hc _].
  destruct (is_digit_not_sign c Hc) as (-> & -> & _). reflexivity.
Qed.

(** [int(str(n)) == n] *)
Lemma int_str (n : Z) : PyInt.int (PyInt.str n) = Ok n.
Proof.
  unfold PyInt.str. pose proof (DecimalZ.of_to n) as Hn.
  destruct (Z.to_int n) as [d|d]; simpl in *.
  - rewrite int_digits
      by auto using nilzero_string_of_uint_digits, nilzero_string_of_uint_nonempty.
    rewrite unsigned_string_of_uint. now rewrite Hn.
  - unfold PyInt.int.
    assert (Hsp : all_chars (fun c => negb (Py.is_space c))
                    (String "-" (NilZero.string_of_uint d)) = true).
    { simpl. eapply all_chars_impl;
        [apply is_digit_not_space | apply nilzero_string_of_uint_digits]. }
    rewrite (int_strip_no_space _ Hsp). simpl.
    rewrite unsigned_string_of_uint. simpl. now rewrite Hn.
Qed.

End IntFacts.

(** ** Task normalization *)

Section TaskNormalization.

Lemma drop_last_snoc (t : string) (c : ascii) :
  Py.drop_last (t +:+ String c EmptyString) = t.
Proof.
  induction t as [|x t IH]; [reflexivity|].
  rewrite append_String. simpl. rewrite IH.
  destruct t; reflexivity.
Qed.

Lemma truthy_Some (o : option string) :
  Py.truthy o = true -> exists s, o = Some s /\ s <> EmptyString.
Proof. destruct o as [[|c s]|]; try discriminate. intros _. eexists; split; [reflexivity | discriminate]. Qed.

(** The parent field never fails. *)
Lemma parse_parent_ok (elem : work_package_json) :
  exists p, parse_parent elem = Ok p.
Proof.
  unfold parse_parent. destruct (Py.truthy (href (elem_parent elem))) eqn:Hh.
  - apply truthy_Some in Hh as (h & -> & _). simpl.
    destruct (index_last_split "/" h) as [seg ->]. simpl. eauto.
  - eauto.
Qed.

(** What the loop does with a task whose [try] block completes. *)
Lemma parse_workpackages_step_ok (acc : gmap Z WP.t * list (work_package_json * exn))
    (elem : work_package_json) (tmp : WP.t) :
  not_synchronized elem = false -> parse_workpackage elem = Ok tmp ->
  parse_workpackages_step acc elem = (<[elem_id elem := tmp]> acc.1, acc.2).
Proof. intros Hs Hp. unfold parse_workpackages_step. now rewrite Hs, Hp. Qed.

Lemma parse_workpackages_snoc (l : list work_package_json) (elem : work_package_json) :
  parse_workpackages (l ++ [elem]) =
  parse_workpackages_step (parse_workpackages l) elem.
Proof. unfold parse_workpackages. now rewrite foldl_app. Qed.

(** With a due date, the due hour is whatever follows the last [=] of
    the last line of the raw description. *)
Lemma parse_due_with_date (elem : work_package_json) (d r : string) :
  elem_dueDate elem = Some (Some d) -> d <> EmptyString ->
  raw (elem_description elem) = Some r ->
  exists line tok,
    Py.index_last (Py.split nl r) = Ok line /\
    Py.index_last (Py.split "=" line) = Ok tok /\
    parse_due elem = Ok (d, Py.strip tok).
Proof.
  intros Hd Hne Hr.
  destruct (index_last_split nl r) as [line Hline].
  destruct (index_last_split "=" line) as [tok Htok].
  exists line, tok. split; [exact Hline|]. split; [exact Htok|].
  unfold parse_due. rewrite Hd, Hr.
  destruct d as [|c d]; [contradiction|]. simpl.
  rewrite Hline. simpl. now rewrite Htok.
Qed.

(** With a [dueDate] member that is null or empty, the creation
    timestamp is cut at its [T]. *)
Lemma parse_due_without_date (elem : work_package_json)
    (dueDate : option string) (d t : string) :
  elem_dueDate elem = Some dueDate -> Py.truthy dueDate = false ->
  elem_createdAt elem = d +:+ "T" +:+ t +:+ "Z" ->
  occurs "T" d = false -> occurs "T" t = false ->
  parse_due elem = Ok (d, t).
Proof.
  intros Hm Hd Hc HTd HTt. unfold parse_due. rewrite Hm. simpl.
  rewrite Hd, Hc.
  change (d +:+ "T" +:+ t +:+ "Z") with (d +:+ String "T" (t +:+ "Z")).
  rewrite (split_first _ _ _ HTd).
  assert (HtZ : occurs "T" (t +:+ "Z") = false)
    by (rewrite occurs_append, HTt; reflexivity).
  rewrite (split_absent _ _ HtZ). simpl.
  now rewrite (drop_last_snoc t "Z").
Qed.

(** Without a [dueDate] member, [elem['dueDate']] raises. *)
Lemma parse_due_without_member (elem : work_package_json) :
  elem_dueDate elem = None -> parse_due elem = Raise (KeyError "dueDate").
Proof. intros Hm. unfold parse_due. now rewrite Hm. Qed.

(** A normalized task carries the integer id of its work package. *)
Lemma parse_workpackage_wp_id (elem : work_package_json) (tmp : WP.t) :
  parse_workpackage elem = Ok tmp -> WP.wp_id tmp = PyInt (elem_id elem).
Proof.
  unfold parse_workpackage.
  destruct (attr_of (elem_subject elem)); simpl; [|discriminate].
  destruct (parse_parent elem); simpl; [|discriminate].
  destruct (parse_due elem); simpl; [|discriminate].
  now intros [= <-].
Qed.

(** A task that is not synchronized leaves the loop state as it is. *)
Lemma parse_workpackages_step_skip (acc : gmap Z WP.t * list (work_package_json * exn))
    (elem : work_package_json) :
  not_synchronized elem = true -> parse_workpackages_step acc elem = acc.
Proof. intros Hs. unfold parse_workpackages_step. now rewrite Hs. Qed.

(** An id gets a record only from a synchronized task with that id. *)
Lemma parse_workpackages_lookup_None (l : list work_package_json)
    (acc : gmap Z WP.t * list (work_package_json * exn)) (wp_id : Z) :
  (forall e, e ∈ l -> elem_id e = wp_id -> not_synchronized e = true) ->
  acc.1 !! wp_id = None ->
  (foldl parse_workpackages_step acc l).1 !! wp_id = None.
Proof.
  revert acc. induction l as [|e l IH]; intros acc Hl Hacc; [exact Hacc|].
  simpl. apply IH.
  - intros e' He'. apply Hl. now right.
  - unfold parse_workpackages_step.
    destruct (not_synchronized e) eqn:Hs; [exact Hacc|].
    assert (elem_id e <> wp_id) as Hne.
    { intros Heq. specialize (Hl e (list_elem_of_here _ _) Heq). congruence. }
    destruct (parse_workpackage e); simpl; [|exact Hacc].
    now rewrite lookup_insert_ne.
Qed.

(** The error list only ever receives synchronized tasks whose [try]
    block raised. *)
Lemma parse_workpackages_err (l : list work_package_json)
    (acc : gmap Z WP.t * list (work_package_json * exn))
    (e : work_package_json) (x : exn) :
  (e, x) ∈ (foldl parse_workpackages_step acc l).2 ->
  (e, x) ∈ acc.2 \/
  (e ∈ l /\ not_synchronized e = false /\ parse_workpackage e = Raise x).
Proof.
  revert acc. induction l as [|a l IH]; intros acc; simpl; [auto|].
  intros [H|(H1 & H2 & H3)]%IH.
  - unfold parse_workpackages_step in H.
    destruct (not_synchronized a) eqn:Hs; [auto|].
    destruct (parse_workpackage a) eqn:Hp; simpl in H; [auto|].
    apply elem_of_app in H as [H|H]; [auto|].
    apply list_elem_of_singleton in H. injection H as -> ->.
    right. split; [left | auto].
  - right. split; [now right | auto].
Qed.

(** A record in the map comes from a synchronized task with that id. *)
Lemma parse_workpackages_sound (l : list work_package_json) (k : Z) (tmp : WP.t) :
  (parse_workpackages l).1 !! k = Some tmp ->
  exists elem, elem ∈ l /\ elem_id elem = k /\
               not_synchronized elem = false /\ parse_workpackage elem = Ok tmp.
Proof.
  induction l as [|e l IH] using rev_ind.
  - unfold parse_workpackages. simpl. now rewrite lookup_empty.
  - rewrite parse_workpackages_snoc. unfold parse_workpackages_step.
    destruct (not_synchronized e) eqn:Hs.
    + intros (elem & ? & ?)%IH. exists elem. split; [apply elem_of_app; now left | assumption].
    + destruct (parse_workpackage e) as [t|] eqn:Hp; simpl.
      * destruct (decide (elem_id e = k)) as [<-|Hne].
        -- rewrite lookup_insert_eq. intros [= <-]. exists e.
           split; [apply elem_of_app; right; now left | auto].
        -- rewrite lookup_insert_ne by assumption.
           intros (elem & ? & ?)%IH. exists elem.
           split; [apply elem_of_app; now left | assumption].
      * intros (elem & ? & ?)%IH. exists elem.
        split; [apply elem_of_app; now left | assumption].
Qed.

(** A synchronized task whose [try] block raises is in the error list. *)
Lemma parse_workpackages_records_error (l : list work_package_json)
    (acc : gmap Z WP.t * list (work_package_json * exn))
    (elem : work_package_json) (x : exn) :
  elem ∈ l -> not_synchronized elem = false -> parse_workpackage elem = Raise x ->
  (elem, x) ∈ (foldl parse_workpackages_step acc l).2.
Proof.
  intros Hin Hs Hp.
  assert (Hkeep : forall l acc,
             (elem, x) ∈ acc.2 -> (elem, x) ∈ (foldl parse_workpackages_step acc l).2).
  { clear Hin. intros k. induction k as [|a k IH]; intros acc' Hacc; [exact Hacc|].
    simpl. apply IH. unfold parse_workpackages_step.
    destruct (not_synchronized a); [exact Hacc|].
    destruct (parse_workpackage a); simpl; [exact Hacc|].
    apply elem_of_app. now left. }
  revert acc. induction l as [|a l IH]; intros acc; [now apply elem_of_nil in Hin|].
  simpl. apply elem_of_cons in Hin as [<-|Hin]; [|now apply IH].
  apply Hkeep. unfold parse_workpackages_step. rewrite Hs, Hp. simpl.
  apply elem_of_app. right. now left.
Qed.

(** When no other work package has its id, a synchronized task whose
    [try] block completes has its record under its id. *)
Lemma parse_workpackages_lookup_unique (l : list work_package_json)
    (elem : work_package_json) (tmp : WP.t) :
  elem ∈ l ->
  (forall e, e ∈ l -> elem_id e = elem_id elem -> e = elem) ->
  not_synchronized elem = false -> parse_workpackage elem = Ok tmp ->
  (parse_workpackages l).1 !! elem_id elem = Some tmp.
Proof.
  intros Hin Huniq Hs Hp.
  induction l as [|a l IH] using rev_ind; [now apply elem_of_nil in Hin|].
  rewrite parse_workpackages_snoc.
  destruct (decide (elem_id a = elem_id elem)) as [Heq|Hne].
  - assert (a = elem) as -> by (apply Huniq; [apply elem_of_app; right; now left | exact Heq]).
    rewrite (parse_workpackages_step_ok _ _ _ Hs Hp). simpl. apply lookup_insert_eq.
  - assert (Hl : (parse_workpackages l).1 !! elem_id elem = Some tmp).
    { apply IH.
      - apply elem_of_app in Hin as [Hin|Hin]; [exact Hin|].
        apply list_elem_of_singleton in Hin. congruence.
      - intros e He. apply Huniq. apply elem_of_app. now left. }
    unfold parse_workpackages_step.
    destruct (not_synchronized a); [exact Hl|].
    destruct (parse_workpackage a); simpl; [|exact Hl].
    now rewrite lookup_insert_ne.
Qed.

End TaskNormalization.

(** C8, as the code has it. Take a work package that is synchronized,
    has a subject, and is the only one of the batch with its id. When
    its [dueDate] member is there and is null or empty, and its
    [createdAt] is a date, a [T], a time and a [Z], the map that
    [parse_workpackages] returns holds under its id a record whose
    [due_date] is that date and whose [due_hour] is that time, and the
    error list has no entry for it; the raw description, with or without
    a [dueHour=] line, plays no role. When the work package has no
    [dueDate] member, the map holds nothing under its id and the error
    list holds the work package with [KeyError]. *)
Theorem no_due_date_uses_creation_time
    (workpackages : list work_package_json)
    (elem : work_package_json) (sub d t : string) :
  elem ∈ workpackages ->
  (forall e, e ∈ workpackages -> elem_id e = elem_id elem -> e = elem) ->
  not_synchronized elem = false ->
  elem_subject elem = Some sub ->
  elem_createdAt elem = d +:+ "T" +:+ t +:+ "Z" ->
  occurs "T" d = false -> occurs "T" t = false ->
  (forall dueDate,
     elem_dueDate elem = Some dueDate -> Py.truthy dueDate = false ->
     exists tmp,
       (parse_workpackages workpackages).1 !! elem_id elem = Some tmp /\
       parse_workpackage elem = Ok tmp /\
       WP.due_date tmp = d /\ WP.due_hour tmp = t /\
       forall x, (elem, x) ∉ (parse_workpackages workpackages).2) /\
  (elem_dueDate elem = None ->
     (parse_workpackages workpackages).1 !! elem_id elem = None /\
     (elem, KeyError "dueDate") ∈ (parse_workpackages workpackages).2).
Proof.
  intros Hin Huniq Hs Hsub Hc HTd HTt.
  destruct (parse_parent_ok elem) as [p Hp]. split.
  - intros dueDate Hm Hd.
    pose proof (parse_due_without_date elem dueDate d t Hm Hd Hc HTd HTt) as Hdue.
    assert (Hok : exists tmp, parse_workpackage elem = Ok tmp /\
                              WP.due_date tmp = d /\ WP.due_hour tmp = t).
    { unfold parse_workpackage. rewrite Hsub. simpl. rewrite Hp. simpl.
      rewrite Hdue. simpl. eexists. split; [reflexivity|]. now split. }
    destruct Hok as (tmp & Hok & Hdd & Hdh). exists tmp.
    split; [exact (parse_workpackages_lookup_unique _ _ _ Hin Huniq Hs Hok)|].
    split; [exact Hok|]. split; [exact Hdd|]. split; [exact Hdh|].
    intros x Hx. apply parse_workpackages_err in Hx as [Hx|(_ & _ & Hx)].
    + now apply elem_of_nil in Hx.
    + congruence.
  - intros Hm.
    assert (Hraise : parse_workpackage elem = Raise (KeyError "dueDate")).
    { unfold parse_workpackage. rewrite Hsub. simpl. rewrite Hp. simpl.
      now rewrite (parse_due_without_member _ Hm). }
    split.
    + destruct ((parse_workpackages workpackages).1 !! elem_id elem)
        as [tmp|] eqn:Hl; [|reflexivity].
      apply parse_workpackages_sound in Hl as (e & He & Hid & _ & Hok).
      rewrite (Huniq e He Hid) in Hok. congruence.
    + now apply parse_workpackages_records_error.
Qed.

Lemma no_due_date_uses_creation_time_witness :
  (exists tmp,
     (parse_workpackages [Sample.review; Sample.report; Sample.milestone]).1 !! 5
     = Some tmp /\
     parse_workpackage Sample.report = Ok tmp /\
     WP.due_date tmp = "2024-01-02" /\ WP.due_hour tmp = "09:00:00" /\
     forall x, (Sample.report, x)
               ∉ (parse_workpackages [Sample.review; Sample.report; Sample.milestone]).2) /\
  (parse_workpackages [Sample.review; Sample.report; Sample.milestone]).1 !! 12 = None /\
  (Sample.milestone, KeyError "dueDate")
    ∈ (parse_workpackages [Sample.review; Sample.report; Sample.milestone]).2.
Proof.
  split.
  - apply (no_due_date_uses_creation_time
             [Sample.review; Sample.report; Sample.milestone] Sample.report
             "Write report" "2024-01-02" "09:00:00") with (dueDate := None);
      try reflexivity.
    + right. left.
    + intros e He Hid. apply elem_of_cons in He as [->|He]; [discriminate Hid|].
      apply elem_of_cons in He as [->|He]; [reflexivity|].
      apply list_elem_of_singleton in He as ->. discriminate Hid.
  - apply (no_due_date_uses_creation_time
             [Sample.review; Sample.report; Sample.milestone] Sample.milestone
             "Release" "2024-01-02" "09:00:00"); try reflexivity.
    + right. right. left.
    + intros e He Hid. apply elem_of_cons in He as [->|He]; [discriminate Hid|].
      apply elem_of_cons in He as [->|He]; [discriminate Hid|].
      now apply list_elem_of_singleton in He.
Defined.

(** C8 does not hold of every work package without a due date. One
    without a [dueDate] member raises [KeyError] and is put in the error
    list; one whose subject is null raises as well; one that is not
    synchronized gets no record and no error; of a creation timestamp
    that ends with an offset, the last character is cut from the time;
    and the record of a work package is replaced by the record of a
    later one with the same id. *)
Lemma no_due_date_is_not_enough :
  (elem_dueDate Sample.milestone = None /\
   parse_workpackages [Sample.milestone]
   = (∅, [(Sample.milestone, KeyError "dueDate")])) /\
  (elem_dueDate Sample.broken = Some None /\
   parse_workpackages [Sample.broken] = (∅, [(Sample.broken, AttributeError)])) /\
  (elem_dueDate Sample.draft = Some None /\
   parse_workpackages [Sample.draft] = (∅, [])) /\
  (elem_dueDate Sample.zoned = Some None /\
   exists tmp, parse_workpackages [Sample.zoned] = ({[14 := tmp]}, []) /\
               WP.due_date tmp = "2024-01-02" /\
               WP.due_hour tmp = "10:00:00+01:0") /\
  (elem_dueDate Sample.report = Some None /\
   exists tmp, (parse_workpackages [Sample.report; Sample.report_again]).1 !! 5
               = Some tmp /\
               WP.due_date tmp = "2024-03-01" /\ WP.due_hour tmp = "14:30:00").
Proof.
  split; [split; reflexivity|]. split; [split; reflexivity|].
  split; [split; reflexivity|].
  split; [split; [reflexivity|]; eexists; split; [reflexivity|]; split; reflexivity|].
  split; [reflexivity|]. eexists. split; [vm_compute; reflexivity|]. split; reflexivity.
Qed.

(** C6, as the code has it: a task with a due date is normalized whatever
    its raw description ends with. The due hour is the stripped text after
    the last [=] of the last line, the record is stored, and the error
    list stays as it was. *)
Theorem due_hour_is_taken_unchecked
    (acc : gmap Z WP.t * list (work_package_json * exn))
    (elem : work_package_json) (sub d r : string) :
  not_synchronized elem = false ->
  elem_subject elem = Some sub ->
  elem_dueDate elem = Some (Some d) -> d <> EmptyString ->
  raw (elem_description elem) = Some r ->
  exists tmp line tok,
    Py.index_last (Py.split nl r) = Ok line /\
    Py.index_last (Py.split "=" line) = Ok tok /\
    parse_workpackage elem = Ok tmp /\
    WP.due_date tmp = d /\ WP.due_hour tmp = Py.strip tok /\
    parse_workpackages_step acc elem = (<[elem_id elem := tmp]> acc.1, acc.2).
Proof.
  intros Hs Hsub Hd Hne Hr.
  destruct (parse_parent_ok elem) as [p Hp].
  destruct (parse_due_with_date elem d r Hd Hne Hr) as (line & tok & Hl & Ht & Hdue).
  assert (Hparse : parse_workpackage elem = Ok
            {| WP.wp_id := PyInt (elem_id elem);
               WP.subject := Py.strip sub;
               WP.description := html (elem_description elem);
               WP.parent := p;
               WP.assignee := parse_assignee elem;
               WP.due_date := d;
               WP.due_hour := Py.strip tok;
               WP.updated_at := elem_updatedAt elem |}).
  { unfold parse_workpackage. rewrite Hsub. simpl. rewrite Hp. simpl.
    rewrite Hdue. reflexivity. }
  eexists _, line, tok. repeat split; try eassumption; try reflexivity.
  now apply parse_workpackages_step_ok.
Qed.

Lemma due_hour_is_taken_unchecked_witness :
  exists tmp line tok,
    Py.index_last (Py.split nl "Ask for a quote") = Ok line /\
    Py.index_last (Py.split "=" line) = Ok tok /\
    parse_workpackage Sample.no_hour = Ok tmp /\
    WP.due_date tmp = "2024-03-01" /\ WP.due_hour tmp = Py.strip tok /\
    parse_workpackages_step (∅, []) Sample.no_hour
    = (<[elem_id Sample.no_hour := tmp]> ∅, []).
Proof.
  apply (due_hour_is_taken_unchecked (∅, []) Sample.no_hour
           "Call supplier" "2024-03-01" "Ask for a quote");
    first [reflexivity | discriminate].
Defined.

(** C6 as stated fails: a task with a due date and no due hour line is
    normalized without an error, and its due hour is the last line. *)
Lemma missing_due_hour_is_not_an_error :
  (parse_workpackages [Sample.no_hour; Sample.review]).2 = [] /\
  WP.due_hour <$> (parse_workpackages [Sample.no_hour; Sample.review]).1 !! 8
  = Some "Ask for a quote" /\
  str_to_date "2024-03-01" "Ask for a quote" = Raise ValueError.
Proof. repeat split; vm_compute; reflexivity. Qed.

(** ** Dates and event bodies *)

Section DateFacts.

Lemma datetime_new_inv (y mo d h mi s : Z) (dt : datetime) :
  datetime_new y mo d h mi s = Ok dt ->
  dt = Datetime y mo d h mi s /\
  1 <= y <= 9999 /\ 1 <= mo <= 12 /\ 1 <= d <= days_in_month y mo /\
  0 <= h <= 23 /\ 0 <= mi <= 59 /\ 0 <= s <= 59.
Proof.
  unfold datetime_new.
  destruct (_ && _) eqn:E; [|discriminate]. intros [= <-].
  repeat (apply andb_prop in E as [E ?]).
  repeat match goal with
         | H : (_ <=? _) = true |- _ => apply Z.leb_le in H
         end.
  repeat split; assumption.
Qed.

Lemma index_Ok {A} (l : list A) (i : nat) (a : A) :
  Py.index l i = Ok a -> l !! i = Some a.
Proof. unfold Py.index. destruct (l !! i); [intros [= ->]; reflexivity | discriminate]. Qed.

Lemma str_to_date_inv (d h : string) (dt : datetime) :
  str_to_date d h = Ok dt ->
  exists due_date due_hour,
    mapM PyInt.int (Py.split "-" d) = Ok due_date /\
    mapM PyInt.int (Py.split ":" h) = Ok due_hour /\
    due_hour !! 0%nat = Some (hour dt) /\
    1 <= year dt <= 9999 /\ 1 <= month dt <= 12 /\
    1 <= day dt <= days_in_month (year dt) (month dt) /\
    0 <= hour dt <= 23 /\ 0 <= minute dt <= 59 /\ 0 <= second dt <= 59.
Proof.
  unfold str_to_date. intros H.
  do 8 step_ok H.
  apply datetime_new_inv in H as (-> & Hy & Hmo & Hd & Hh & Hmi & Hs).
  eexists _, _. repeat split; try reflexivity; try (simpl; lia).
  simpl. now apply index_Ok.
Qed.

(** One hour later the hour field has changed and is still an hour. *)
Lemma add_one_hour_hour (dt dt' : datetime) :
  0 <= hour dt <= 23 -> add_one_hour dt = Ok dt' ->
  0 <= hour dt' <= 23 /\ hour dt' <> hour dt.
Proof.
  destruct dt as [y mo d h mi s]. simpl. intros Hh.
  destruct (h <? 23) eqn:E1; [apply Z.ltb_lt in E1; intros [= <-]; simpl; lia|].
  apply Z.ltb_ge in E1.
  destruct (d <? _); [intros [= <-]; simpl; lia|].
  destruct (mo <? 12); [intros [= <-]; simpl; lia|].
  destruct (y <? 9999); [intros [= <-]; simpl; lia | discriminate].
Qed.

Lemma replicate_zero_chars (p : ascii -> bool) (k : nat) :
  p "0"%char = true ->
  all_chars p (String.concat EmptyString (replicate k "0")) = true.
Proof.
  intros Hp. induction k as [|k IH]; [reflexivity|].
  destruct k; simpl in *; rewrite Hp; [reflexivity | exact IH].
Qed.

Lemma zfill_chars (p : ascii -> bool) (w : nat) (s : string) :
  p "0"%char = true -> all_chars p s = true ->
  all_chars p (PyInt.zfill w s) = true.
Proof.
  intros Hp Hs. unfold PyInt.zfill.
  now rewrite all_chars_append, replicate_zero_chars, Hs.
Qed.

Lemma zfill_str_chars (w : nat) (n : Z) :
  all_chars digit_or_minus (PyInt.zfill w (PyInt.str n)) = true.
Proof. apply zfill_chars; [reflexivity | apply str_chars]. Qed.

Lemma iso_date_chars (dt : datetime) :
  all_chars digit_or_minus (iso_date dt) = true.
Proof.
  unfold iso_date. now rewrite !all_chars_append, !zfill_str_chars.
Qed.

Lemma zfill_str_time_chars (w : nat) (n : Z) :
  all_chars time_char (PyInt.zfill w (PyInt.str n)) = true.
Proof.
  eapply all_chars_impl; [|apply zfill_str_chars].
  intros c Hc. unfold time_char. now rewrite Hc.
Qed.

Lemma iso_time_chars (dt : datetime) : all_chars time_char (iso_time dt) = true.
Proof.
  unfold iso_time. now rewrite !all_chars_append, !zfill_str_time_chars.
Qed.

Lemma iso_offset_chars (seconds : Z) :
  all_chars time_char (iso_offset seconds) = true.
Proof.
  unfold iso_offset. cbv zeta.
  rewrite !all_chars_append, !zfill_str_time_chars.
  destruct (seconds <? 0), (Z.abs seconds mod 60 =? 0); try reflexivity;
    now rewrite all_chars_append, zfill_str_time_chars.
Qed.

(** The timestamp of an event splits at its [T] into date and time. *)
Lemma split_isoformat (dt : aware_datetime) :
  Py.split "T" (isoformat dt)
  = [iso_date (naive dt); iso_time (naive dt) +:+ iso_offset (utcoffset dt)].
Proof.
  unfold isoformat.
  change (iso_date (naive dt) +:+ "T" +:+ iso_time (naive dt)
          +:+ iso_offset (utcoffset dt))
    with (iso_date (naive dt)
          +:+ String "T" (iso_time (naive dt) +:+ iso_offset (utcoffset dt))).
  rewrite split_first
    by (eapply all_chars_not_occurs; [|apply iso_date_chars]; reflexivity).
  rewrite split_absent; [reflexivity|].
  eapply all_chars_not_occurs with (p := time_char); [reflexivity|].
  now rewrite all_chars_append, iso_time_chars, iso_offset_chars.
Qed.

(** A printed hour reads back as the hour. *)
Lemma int_zfill_hour (h : Z) :
  0 <= h <= 23 -> PyInt.int (PyInt.zfill 2 (PyInt.str h)) = Ok h.
Proof.
  intros Hh. rewrite <- (Z2Nat.id h) by lia.
  assert (Hn : (Z.to_nat h < 24)%nat) by lia.
  generalize dependent (Z.to_nat h). clear Hh. intros n Hn.
  do 24 (destruct n as [|n]; [vm_compute; reflexivity|]). lia.
Qed.

(** The first segment of a printed time of day is the printed hour. *)
Lemma split_iso_time (dt : datetime) (suffix : string) :
  head (Py.split ":" (iso_time dt +:+ suffix))
  = Some (PyInt.zfill 2 (PyInt.str (hour dt))).
Proof.
  unfold iso_time. rewrite !append_assoc.
  change (":" +:+ ?x) with (String ":" x).
  rewrite split_first; [reflexivity|].
  eapply all_chars_not_occurs; [|apply zfill_str_chars]. reflexivity.
Qed.

Lemma astimezone_isoformat_Ok (zone : local_zone) (dt : datetime) (text : string) :
  astimezone_isoformat zone dt = Ok text ->
  exists local, zone dt = Ok local /\ text = isoformat local.
Proof.
  unfold astimezone_isoformat. destruct (zone dt) as [local|]; simpl; [|discriminate].
  intros [= <-]. eauto.
Qed.

Lemma wp_to_event_inv (zone : local_zone) (wp : WP.t) (body : Body.t) :
  wp_to_event zone wp = Ok body ->
  exists event_start event_finish local_start local_finish,
    str_to_date (WP.due_date wp) (WP.due_hour wp) = Ok event_start /\
    add_one_hour event_start = Ok event_finish /\
    zone event_start = Ok local_start /\
    zone event_finish = Ok local_finish /\
    body = {| Body.summary := str (WP.wp_id wp) +:+ ":" +:+ WP.subject wp;
              Body.description := event_description wp;
              Body.start_dateTime := isoformat local_start;
              Body.end_dateTime := isoformat local_finish;
              Body.reminders :=
                {| useDefault := false;
                   overrides := [("popup", 24 * 60); ("popup", 30)] |} |}.
Proof.
  unfold wp_to_event. intros H. do 4 step_ok H.
  apply astimezone_isoformat_Ok in E1 as (local_start & Hs & ->).
  apply astimezone_isoformat_Ok in E2 as (local_finish & Hf & ->).
  injection H as <-. eauto 10.
Qed.

End DateFacts.

(** C7, as the code has it: the body of the event is the description
    directly followed by [Parent=] and the parent, then the assignee and
    the update time on a line each. No line break follows the description. *)
Theorem event_body_layout (zone : local_zone) (wp : WP.t) (body : Body.t) :
  wp_to_event zone wp = Ok body ->
  Body.description body
  = WP.description wp +:+ "Parent=" +:+ WP.parent wp +:+ NL
    +:+ WP.assignee wp +:+ NL +:+ WP.updated_at wp.
Proof.
  intros (event_start & event_finish & ? & ? & _ & _ & _ & _ & ->)%wp_to_event_inv.
  reflexivity.
Qed.

Lemma event_body_layout_witness :
  Body.description Sample.review_body
  = "<p>Read it</p>" +:+ "Parent=" +:+ "5:Write report" +:+ NL
    +:+ "Not assigned to anyone" +:+ NL +:+ "2024-02-01T10:00:00Z".
Proof.
  apply (event_body_layout Sample.utc Sample.review_wp Sample.review_body).
  vm_compute. reflexivity.
Defined.

(** C7 as stated fails: the body built for task 7 is not the layout with a
    line break between the description and [Parent=]. *)
Lemma event_body_has_no_break_after_description :
  wp_to_event Sample.utc Sample.review_wp = Ok Sample.review_body /\
  Body.description Sample.review_body <> spec_event_body Sample.review_wp.
Proof. split; [vm_compute; reflexivity | vm_compute; discriminate]. Qed.

(** ** Event normalization *)

Section EventNormalization.

Lemma getitem_Ok {A} (key : string) (o : option A) (a : A) :
  getitem key o = Ok a -> o = Some a.
Proof. destruct o; [intros [= ->]; reflexivity | discriminate]. Qed.

Lemma parse_event_inv (elem : event_json) (key : Z) (tmp : PE.t) :
  parse_event elem = Ok (key, tmp) ->
  exists s seg,
    ev_summary elem = Some s /\
    head (Py.split ":" s) = Some seg /\
    PE.wp_id tmp = PyStr seg /\
    PyInt.int seg = Ok key.
Proof.
  unfold parse_event. intros H. do 10 step_ok H.
  injection H as <- <-.
  match goal with
  | Hs : getitem "summary" _ = Ok ?s, Hseg : Py.index (Py.split ":" ?s) 0%nat = Ok ?seg,
    Hint : PyInt.int ?seg = Ok _ |- _ =>
      apply getitem_Ok in Hs; apply index_Ok in Hseg;
      exists s, seg; split; [exact Hs|]; split;
      [now rewrite head_lookup | split; [reflexivity | exact Hint]]
  end.
Qed.

Lemma parse_events_step_ok (acc : gmap Z PE.t * list (event_json * exn))
    (elem : event_json) (key : Z) (tmp : PE.t) :
  parse_event elem = Ok (key, tmp) ->
  parse_events_step acc elem = (<[key := tmp]> acc.1, acc.2).
Proof. intros H. unfold parse_events_step. now rewrite H. Qed.

Lemma event_description_lines (wp : WP.t) :
  event_description wp
  = (WP.description wp +:+ "Parent=" +:+ WP.parent wp)
    +:+ String nl (WP.assignee wp +:+ String nl (WP.updated_at wp)).
Proof. unfold event_description. now rewrite !append_assoc. Qed.

(** Reading back the event stored for a task: the general form. *)
Lemma parse_stored_event (zone : local_zone) (wp : WP.t) (n : Z) (body : Body.t)
    (event_id : string) (event_start event_finish : datetime)
    (local_finish : aware_datetime) :
  WP.wp_id wp = PyInt n ->
  str_to_date (WP.due_date wp) (WP.due_hour wp) = Ok event_start ->
  add_one_hour event_start = Ok event_finish ->
  zone event_finish = Ok local_finish ->
  wp_to_event zone wp = Ok body ->
  exists subject assignee updated_at,
    Py.index_last (Py.split ":" (WP.subject wp)) = Ok subject /\
    Py.index_last2 (Py.split nl (event_description wp)) = Ok assignee /\
    Py.index_last (Py.split nl (WP.updated_at wp)) = Ok updated_at /\
    parse_event (stored_event event_id body)
    = Ok (n, {| PE.event_id := event_id;
                PE.wp_id := PyStr (PyInt.str n);
                PE.subject := subject;
                PE.assignee := assignee;
                PE.updated_at := updated_at;
                PE.due_date := iso_date (naive local_finish);
                PE.due_hour := iso_time (naive local_finish)
                               +:+ iso_offset (utcoffset local_finish) |}).
Proof.
  intros Hid Hstart Hfinish Hlocal Hbody.
  apply wp_to_event_inv in Hbody as (s' & f' & ls & lf & Hs' & Hf' & _ & Hlf & ->).
  rewrite Hstart in Hs'. injection Hs' as <-.
  rewrite Hfinish in Hf'. injection Hf' as <-.
  rewrite Hlocal in Hlf. injection Hlf as <-.
  destruct (index_last_split ":" (WP.subject wp)) as [subject Hsub].
  destruct (index_last_split nl (WP.updated_at wp)) as [updated_at Hupd].
  assert (Hlines : Py.split nl (event_description wp)
            = (Py.split nl (WP.description wp +:+ "Parent=" +:+ WP.parent wp)
               ++ Py.split nl (WP.assignee wp)
               ++ Py.split nl (WP.updated_at wp))%list)
    by now rewrite event_description_lines, !split_append.
  destruct (index_last2_long
              (Py.split nl (WP.description wp +:+ "Parent=" +:+ WP.parent wp))
              (Py.split nl (WP.assignee wp)) (Py.split nl (WP.updated_at wp)))
    as [assignee Hass]; [apply split_nonempty | apply split_nonempty |].
  rewrite <- Hlines in Hass.
  exists subject, assignee, updated_at.
  split; [exact Hsub|]. split; [exact Hass|]. split; [exact Hupd|].
  unfold parse_event, stored_event. simpl. rewrite Hid. simpl.
  change (PyInt.str n +:+ ":" +:+ WP.subject wp)
    with (PyInt.str n +:+ String ":" (WP.subject wp)).
  rewrite split_first by (apply str_not_occurs; reflexivity). simpl.
  change (PyInt.str n :: Py.split ":" (WP.subject wp))
    with ([PyInt.str n] ++ Py.split ":" (WP.subject wp))%list.
  rewrite index_last_app by apply split_nonempty.
  rewrite Hsub. simpl. rewrite Hass. simpl.
  rewrite Hlines, app_assoc, index_last_app by apply split_nonempty.
  rewrite Hupd. simpl.
  rewrite split_isoformat. simpl.
  rewrite int_str. reflexivity.
Qed.

End EventNormalization.

(** C9, as the code has it: the [wp_id] field of a normalized event is the
    first colon-separated segment of the title, kept as a string; the key
    under which the record is stored is the integer that [int] reads from
    that string. *)
Theorem event_key_is_int_of_wp_id
    (acc : gmap Z PE.t * list (event_json * exn))
    (elem : event_json) (key : Z) (tmp : PE.t) :
  parse_event elem = Ok (key, tmp) ->
  exists s seg,
    ev_summary elem = Some s /\
    head (Py.split ":" s) = Some seg /\
    PE.wp_id tmp = PyStr seg /\
    PyInt.int seg = Ok key /\
    (parse_events_step acc elem).1 !! key = Some tmp /\
    (parse_events_step acc elem).2 = acc.2.
Proof.
  intros H. destruct (parse_event_inv _ _ _ H) as (s & seg & Hs & Hseg & Hid & Hint).
  exists s, seg. repeat split; try assumption.
  - rewrite (parse_events_step_ok acc _ _ _ H). simpl. apply lookup_insert_eq.
  - now rewrite (parse_events_step_ok acc _ _ _ H).
Qed.

Lemma event_key_is_int_of_wp_id_witness :
  exists s seg,
    ev_summary Sample.event9 = Some s /\
    head (Py.split ":" s) = Some seg /\
    PE.wp_id
      {| PE.event_id := "evt9"; PE.wp_id := PyStr "9";
         PE.subject := "Private note";
         PE.assignee := "Not assigned to anyone";
         PE.updated_at := "2024-02-01T10:00:00Z";
         PE.due_date := "2024-03-01";
         PE.due_hour := "11:00:00+00:00" |} = PyStr seg /\
    PyInt.int seg = Ok 9 /\
    (parse_events_step (∅, []) Sample.event9).1 !! 9
    = Some {| PE.event_id := "evt9"; PE.wp_id := PyStr "9";
              PE.subject := "Private note";
              PE.assignee := "Not assigned to anyone";
              PE.updated_at := "2024-02-01T10:00:00Z";
              PE.due_date := "2024-03-01";
              PE.due_hour := "11:00:00+00:00" |} /\
    (parse_events_step (∅, []) Sample.event9).2 = [].
Proof.
  apply (event_key_is_int_of_wp_id (∅, []) Sample.event9 9).
  vm_compute. reflexivity.
Defined.

(** C9 as stated fails: an event titled [007:Write report] is stored under
    the integer 7, while its [wp_id] field is the string [007]: not an
    integer, and not even the text of the key. *)
Lemma event_wp_id_is_a_string :
  exists tmp,
    parse_event Sample.event7 = Ok (7, tmp) /\
    PE.wp_id tmp = PyStr "007" /\
    PE.wp_id tmp <> PyInt 7 /\
    str (PE.wp_id tmp) <> PyInt.str 7.
Proof.
  eexists. split; [vm_compute; reflexivity|].
  simpl. repeat split; [discriminate | vm_compute; discriminate].
Qed.

Section RoundTrip.

Lemma mapM_int_head (x : string) (l : list string) (ys : list Z) :
  mapM PyInt.int (x :: l) = Ok ys ->
  exists y, PyInt.int x = Ok y /\ ys !! 0%nat = Some y.
Proof.
  simpl. destruct (PyInt.int x) as [y|]; simpl; [|discriminate].
  destruct (mapM PyInt.int l); simpl; [|discriminate].
  intros [= <-]. eauto.
Qed.

(** No digit, sign or colon is white space. *)
Lemma time_char_not_space (c : ascii) :
  time_char c = true -> negb (Py.is_space c) = true.
Proof.
  unfold time_char, digit_or_minus. intros H.
  apply orb_prop in H as [H|H]; [apply orb_prop in H as [H|H]|];
    [apply orb_prop in H as [H|H]| |].
  - now apply is_digit_not_space.
  - apply Ascii.eqb_eq in H as ->. reflexivity.
  - apply Ascii.eqb_eq in H as ->. reflexivity.
  - apply Ascii.eqb_eq in H as ->. reflexivity.
Qed.

(** [int] reads no text in which a sign follows another character. *)
Lemma uint_of_string_not_digit (c : ascii) (s : string) :
  PyInt.is_digit c = false -> occurs c s = true ->
  NilEmpty.uint_of_string s = None.
Proof.
  intros Hc. induction s as [|a s IH]; simpl; [discriminate|].
  intros [Ha|Hs]%orb_prop.
  - apply Ascii.eqb_eq in Ha as ->.
    destruct (NilEmpty.uint_of_string s); [|reflexivity].
    destruct c as [[] [] [] [] [] [] [] []]; try reflexivity; discriminate Hc.
  - now rewrite (IH Hs).
Qed.

Lemma drop_underscores_keeps (c : ascii) (b : bool) (s s' : string) :
  Ascii.eqb c "_" = false -> occurs c s = true ->
  PyInt.drop_underscores b s = Some s' -> occurs c s' = true.
Proof.
  intros Hc. revert b s'. induction s as [|a s IH]; intros b s'; simpl; [discriminate|].
  intros Ho. destruct (Ascii.eqb a "_") eqn:Ha.
  - apply Ascii.eqb_eq in Ha as ->. rewrite Ascii.eqb_sym, Hc in Ho. simpl in Ho.
    destruct (b && PyInt.next_is_digit s); [|discriminate]. now apply IH.
  - destruct (PyInt.drop_underscores (PyInt.is_digit a) s) as [r|] eqn:Hr;
      simpl; [|discriminate].
    intros [= <-]. simpl. apply orb_prop in Ho as [->|Ho]; [reflexivity|].
    rewrite (IH _ _ Ho Hr). apply orb_true_r.
Qed.

Lemma unsigned_not_digit (c : ascii) (s : string) :
  PyInt.is_digit c = false -> Ascii.eqb c "_" = false -> occurs c s = true ->
  PyInt.unsigned s = None.
Proof.
  intros Hd Hu Ho. unfold PyInt.unsigned.
  destruct (PyInt.drop_underscores false s) as [s'|] eqn:Hs'; simpl; [|reflexivity].
  pose proof (drop_underscores_keeps c _ _ _ Hu Ho Hs') as Ho'.
  unfold NilZero.uint_of_string.
  destruct s' as [|a r]; [reflexivity|].
  now rewrite (uint_of_string_not_digit c _ Hd Ho').
Qed.

Lemma int_sign_inside (x y : string) (c : ascii) :
  x <> EmptyString ->
  all_chars time_char x = true -> all_chars time_char y = true ->
  c = "+"%char \/ c = "-"%char ->
  PyInt.int (x +:+ String c y) = Raise ValueError.
Proof.
  intros Hx Hcx Hcy Hc.
  assert (Hd : PyInt.is_digit c = false /\ Ascii.eqb c "_" = false /\ time_char c = true)
    by (destruct Hc as [-> | ->]; repeat split; reflexivity).
  destruct Hd as (Hd & Hu & Ht).
  unfold PyInt.int. rewrite int_strip_no_space.
  2:{ eapply all_chars_impl; [apply time_char_not_space|].
      rewrite all_chars_append. simpl. now rewrite Hcx, Ht, Hcy. }
  destruct x as [|a x]; [contradiction|]. rewrite append_String.
  assert (Hin : occurs c (x +:+ String c y) = true).
  { rewrite occurs_append. simpl. rewrite Ascii.eqb_refl. simpl. apply orb_true_r. }
  assert (Hin' : occurs c (String a (x +:+ String c y)) = true)
    by (simpl; rewrite Hin; apply orb_true_r).
  rewrite (unsigned_not_digit c _ Hd Hu Hin).
  rewrite (unsigned_not_digit c _ Hd Hu Hin').
  now destruct (Ascii.eqb a "-"), (Ascii.eqb a "+").
Qed.

Lemma zfill_nonempty (w : nat) (n : Z) : PyInt.zfill w (PyInt.str n) <> EmptyString.
Proof.
  unfold PyInt.zfill. intros H.
  destruct (String.concat EmptyString (replicate (w - String.length (PyInt.str n)) "0"));
    [|discriminate].
  rewrite append_Empty in H. revert H.
  unfold PyInt.str, NilZero.string_of_int.
  destruct (Z.to_int n); [apply nilzero_string_of_uint_nonempty | discriminate].
Qed.

(** The third field of a time printed with its offset is the seconds
    followed by the sign and the hours of the offset. *)
Lemma split_time_with_offset (dt : aware_datetime) :
  exists sign rest,
    (sign = "+"%char \/ sign = "-"%char) /\
    Py.split ":" (iso_time (naive dt) +:+ iso_offset (utcoffset dt))
    = PyInt.zfill 2 (PyInt.str (hour (naive dt)))
      :: PyInt.zfill 2 (PyInt.str (minute (naive dt)))
      :: (PyInt.zfill 2 (PyInt.str (second (naive dt)))
          +:+ String sign (PyInt.zfill 2 (PyInt.str (Z.abs (utcoffset dt) / 3600))))
      :: rest.
Proof.
  exists (if utcoffset dt <? 0 then "-"%char else "+"%char).
  eexists. split; [destruct (utcoffset dt <? 0); auto|].
  unfold iso_time, iso_offset. cbv zeta. rewrite !append_assoc.
  replace ((if utcoffset dt <? 0 then "-" else "+") +:+
           PyInt.zfill 2 (PyInt.str (Z.abs (utcoffset dt) / 3600)) +:+ ":" +:+
           PyInt.zfill 2 (PyInt.str (Z.abs (utcoffset dt) mod 3600 / 60)) +:+
           (if Z.abs (utcoffset dt) mod 60 =? 0 then ""
            else ":" +:+ PyInt.zfill 2 (PyInt.str (Z.abs (utcoffset dt) mod 60))))
    with (String (if utcoffset dt <? 0 then "-"%char else "+"%char)
            (PyInt.zfill 2 (PyInt.str (Z.abs (utcoffset dt) / 3600)) +:+ ":" +:+
             PyInt.zfill 2 (PyInt.str (Z.abs (utcoffset dt) mod 3600 / 60)) +:+
             (if Z.abs (utcoffset dt) mod 60 =? 0 then ""
              else ":" +:+ PyInt.zfill 2 (PyInt.str (Z.abs (utcoffset dt) mod 60)))))
    by now destruct (utcoffset dt <? 0).
  repeat (progress change (":" +:+ ?x) with (String ":" x)).
  rewrite split_first
    by (eapply all_chars_not_occurs; [|apply zfill_str_chars]; reflexivity).
  rewrite split_first
    by (eapply all_chars_not_occurs; [|apply zfill_str_chars]; reflexivity).
  rewrite <- append_String, <- append_assoc.
  rewrite split_first; [reflexivity|].
  rewrite occurs_append.
  rewrite (all_chars_not_occurs digit_or_minus ":" _ eq_refl (zfill_str_chars _ _)).
  simpl.
  rewrite (all_chars_not_occurs digit_or_minus ":" _ eq_refl (zfill_str_chars _ _)).
  now destruct (utcoffset dt <? 0).
Qed.

Lemma mapM_int_third (a b c : string) (l : list string) (ys : list Z) :
  mapM PyInt.int (a :: b :: c :: l) = Ok ys -> exists y, PyInt.int c = Ok y.
Proof.
  simpl. destruct (PyInt.int a); simpl; [|discriminate].
  destruct (PyInt.int b); simpl; [|discriminate].
  destruct (PyInt.int c); simpl; [eauto | discriminate].
Qed.

(** The due hour read back from an event is never the due hour of the
    task it was built from: the offset of the zone is attached to it,
    and no due hour with an offset gives a date. *)
Lemma due_hour_moves (due_date due_hour : string)
    (event_start : datetime) (local_finish : aware_datetime) :
  str_to_date due_date due_hour = Ok event_start ->
  iso_time (naive local_finish) +:+ iso_offset (utcoffset local_finish)
  <> due_hour.
Proof.
  intros Hstart Heq.
  apply str_to_date_inv in Hstart as (ds & hs & _ & Hhs & _).
  rewrite <- Heq in Hhs.
  destruct (split_time_with_offset local_finish) as (sign & rest & Hsign & Hsplit).
  rewrite Hsplit in Hhs.
  apply mapM_int_third in Hhs as [y Hy].
  rewrite int_sign_inside in Hy; [discriminate | apply zfill_nonempty | | | exact Hsign];
    apply zfill_str_time_chars.
Qed.

End RoundTrip.

(** C1, as the code has it: the event stored for a normalized task reads
    back under the task's id, with the decimal text of the id as [wp_id];
    the subject comes back when it has no colon, the update time when it
    has no line break, the assignee when neither has one. The due date
    and due hour that come back are the date and the time that the local
    zone of the machine prints for the end of the event, which is the
    task's due time plus one hour, read as local time; the UTC offset is
    attached to the time, so the due hour is never the task's. *)
Theorem stored_event_round_trip (zone : local_zone) (wp : WP.t) (n : Z)
    (body : Body.t) (event_id : string) :
  WP.wp_id wp = PyInt n ->
  wp_to_event zone wp = Ok body ->
  exists ev event_start event_finish local_finish,
    parse_event (stored_event event_id body) = Ok (n, ev) /\
    PE.event_id ev = event_id /\
    PE.wp_id ev = PyStr (PyInt.str n) /\
    (occurs ":" (WP.subject wp) = false -> PE.subject ev = WP.subject wp) /\
    (occurs nl (WP.updated_at wp) = false ->
     PE.updated_at ev = WP.updated_at wp) /\
    (occurs nl (WP.assignee wp) = false ->
     occurs nl (WP.updated_at wp) = false ->
     PE.assignee ev = WP.assignee wp) /\
    str_to_date (WP.due_date wp) (WP.due_hour wp) = Ok event_start /\
    add_one_hour event_start = Ok event_finish /\
    zone event_finish = Ok local_finish /\
    PE.due_date ev = iso_date (naive local_finish) /\
    PE.due_hour ev
    = iso_time (naive local_finish) +:+ iso_offset (utcoffset local_finish) /\
    PE.due_hour ev <> WP.due_hour wp.
Proof.
  intros Hid Hbody.
  destruct (wp_to_event_inv _ _ _ Hbody)
    as (event_start & event_finish & ls & local_finish & Hs & Hf & _ & Hl & _).
  destruct (parse_stored_event zone wp n body event_id _ _ _ Hid Hs Hf Hl Hbody)
    as (subject & assignee & updated_at & Hsub & Hass & Hupd & Hparse).
  eexists _, event_start, event_finish, local_finish.
  split; [exact Hparse|]. simpl.
  split; [reflexivity|]. split; [reflexivity|].
  split; [intros Hc; rewrite (index_last_absent _ _ Hc) in Hsub; congruence|].
  split; [intros Hc; rewrite (index_last_absent _ _ Hc) in Hupd; congruence|].
  split.
  { intros Ha Hu. rewrite event_description_lines, !split_append in Hass.
    rewrite (split_absent _ _ Ha), (split_absent _ _ Hu) in Hass.
    simpl in Hass. rewrite index_last2_snoc2 in Hass. congruence. }
  split; [exact Hs|]. split; [exact Hf|]. split; [exact Hl|].
  split; [reflexivity|]. split; [reflexivity|].
  exact (due_hour_moves _ _ _ _ Hs).
Qed.

Lemma stored_event_round_trip_witness :
  exists ev event_start event_finish local_finish,
    parse_event (stored_event "evt7" Sample.review_body) = Ok (7, ev) /\
    PE.event_id ev = "evt7" /\
    PE.wp_id ev = PyStr (PyInt.str 7) /\
    (occurs ":" "Review draft" = false -> PE.subject ev = "Review draft") /\
    (occurs nl "2024-02-01T10:00:00Z" = false ->
     PE.updated_at ev = "2024-02-01T10:00:00Z") /\
    (occurs nl "Not assigned to anyone" = false ->
     occurs nl "2024-02-01T10:00:00Z" = false ->
     PE.assignee ev = "Not assigned to anyone") /\
    str_to_date "2024-03-01" "08:15:00" = Ok event_start /\
    add_one_hour event_start = Ok event_finish /\
    Sample.utc event_finish = Ok local_finish /\
    PE.due_date ev = iso_date (naive local_finish) /\
    PE.due_hour ev
    = iso_time (naive local_finish) +:+ iso_offset (utcoffset local_finish) /\
    PE.due_hour ev <> "08:15:00".
Proof.
  apply (stored_event_round_trip Sample.utc Sample.review_wp 7 Sample.review_body "evt7").
  - reflexivity.
  - vm_compute. reflexivity.
Defined.

(** C1 as stated fails: task 7 is normalized, its event body is built and
    stored, and the event that reads back has another due hour and a
    [wp_id] that is a string, not the task's integer. *)
Lemma round_trip_loses_due_hour :
  exists ev,
    parse_workpackage Sample.review = Ok Sample.review_wp /\
    wp_to_event Sample.utc Sample.review_wp = Ok Sample.review_body /\
    parse_event (stored_event "evt7" Sample.review_body) = Ok (7, ev) /\
    WP.due_hour Sample.review_wp = "08:15:00" /\
    PE.due_hour ev = "09:15:00+00:00" /\
    PE.due_hour ev <> WP.due_hour Sample.review_wp /\
    PE.wp_id ev <> WP.wp_id Sample.review_wp.
Proof.
  eexists. split; [vm_compute; reflexivity|].
  split; [vm_compute; reflexivity|].
  split; [vm_compute; reflexivity|].
  simpl. repeat split; discriminate.
Qed.

(** ** The reconciler *)

Section ReconcilerFacts.

Context {St : Type}.
Variable execute : call -> St -> St * option string.
Variable calendar_id : string.
Variable zone : local_zone.
Variable iter : gset Z -> list Z.
Variable parsed_wps : gmap Z WP.t.
Variable parsed_events : gmap Z PE.t.

#[local] Existing Instances action_ret action_bind.

Abbreviation create_body :=
(fun wp_id => subscript parsed_wps wp_id ≫= fun wp =>
              to_create execute calendar_id zone wp).
Abbreviation delete_body :=
(fun wp_id => subscript parsed_events wp_id ≫= fun ev =>
              to_delete execute calendar_id ev).
Abbreviation update_body :=
(fun wp_id =>
   subscript parsed_wps wp_id ≫= fun work_package =>
   subscript parsed_events wp_id ≫= fun event =>
   may_update execute calendar_id zone work_package event).

Ltac unfold_action :=
unfold subscript, to_create, to_delete, may_update, request, lift, getitem,
  mbind, mret, action_bind, action_ret in *.

(** *** The loop *)

(** A loop whose body returns at every id returns, with one entry per
  id; its requests are those of the ids, in order. *)
Lemma for_each_Ok (body : Z -> @action St (option string))
  (calls : Z -> list call) (P : Z -> option string -> Prop) (ids : list Z) :
(forall wp_id (w : @world St) err w', body wp_id w = (Ok err, w') ->
                        w'.2 = (w.2 ++ calls wp_id)%list /\ P wp_id err) ->
forall errs0 (w : @world St) errs w',
  for_each ids body errs0 w = (Ok errs, w') ->
  exists new, errs = (errs0 ++ new)%list /\ Forall2 P ids new /\
              w'.2 = (w.2 ++ flat_map calls ids)%list.
Proof.
intros Hbody. induction ids as [|wp_id ids IH]; intros errs0 w errs w'; simpl.
- unfold mret, action_ret. intros [= <- <-]. exists [].
  now rewrite !app_nil_r.
- unfold mbind, action_bind.
  destruct (body wp_id w) as [[err|e] w1] eqn:Hb; [|discriminate].
  intros (new & -> & HP & Hlog)%IH.
  destruct (Hbody _ _ _ _ Hb) as [Hlog1 HP1].
  exists (err :: new). rewrite <- app_assoc. split; [reflexivity|].
  split; [now constructor|]. rewrite Hlog, Hlog1. now rewrite <- app_assoc.
Qed.

(** A loop returns when its body returns at every id. *)
Lemma for_each_returns (body : Z -> @action St (option string)) (ids : list Z) :
(forall wp_id w, wp_id ∈ ids -> exists err w', body wp_id w = (Ok err, w')) ->
forall errs0 w, exists errs w', for_each ids body errs0 w = (Ok errs, w').
Proof.
induction ids as [|wp_id ids IH]; intros Hbody errs0 w; simpl.
- unfold mret, action_ret. eauto.
- unfold mbind, action_bind.
  destruct (Hbody wp_id w (list_elem_of_here _ _)) as (err & w1 & ->).
  apply IH. intros i w2 Hi. apply Hbody. now right.
Qed.

(** An exception in the body at some id leaves the loop. *)
Lemma for_each_raises (body : Z -> @action St (option string)) (ids : list Z)
  (wp_id : Z) :
wp_id ∈ ids ->
(forall w, exists e w', body wp_id w = (Raise e, w')) ->
forall errs0 w, exists e w', for_each ids body errs0 w = (Raise e, w').
Proof.
intros Hin Hbody. induction ids as [|i ids IH]; intros errs0 w; simpl.
- now apply elem_of_nil in Hin.
- unfold mbind, action_bind.
  destruct (body i w) as [[err|e] w1] eqn:Hb; [|eauto].
  apply elem_of_cons in Hin as [->|Hin].
  + destruct (Hbody w) as (e & w' & He). congruence.
  + now apply IH.
Qed.

(** *** The three loop bodies *)

Lemma create_body_Ok (wp_id : Z) (w w' : @world St) (err : option string) :
create_body wp_id w = (Ok err, w') ->
w'.2 = (w.2 ++ create_calls calendar_id zone parsed_wps wp_id)%list /\
exists wp event,
  parsed_wps !! wp_id = Some wp /\
  wp_to_event zone wp = Ok event /\
  execute (Insert calendar_id event) w.1 = (w'.1, err).
Proof.
unfold create_calls. unfold_action.
destruct (parsed_wps !! wp_id) as [wp|] eqn:Hwp; [|discriminate].
destruct (wp_to_event zone wp) as [event|] eqn:Hevent; [|discriminate].
destruct (execute _ _) as [st e] eqn:He. intros [= <- <-]. simpl.
split; [reflexivity|]. eauto.
Qed.

Lemma delete_body_Ok (wp_id : Z) (w w' : @world St) (err : option string) :
delete_body wp_id w = (Ok err, w') ->
w'.2 = (w.2 ++ delete_calls calendar_id parsed_events wp_id)%list /\
exists ev,
  parsed_events !! wp_id = Some ev /\
  execute (Delete calendar_id (PE.event_id ev)) w.1 = (w'.1, err).
Proof.
unfold delete_calls. unfold_action.
destruct (parsed_events !! wp_id) as [ev|] eqn:Hev; [|discriminate].
destruct (execute _ _) as [st e] eqn:He. intros [= <- <-]. simpl.
split; [reflexivity|]. eauto.
Qed.

Lemma update_body_Ok (wp_id : Z) (w w' : @world St) (err : option string) :
update_body wp_id w = (Ok err, w') ->
w'.2 = (w.2 ++ update_calls calendar_id zone parsed_wps parsed_events wp_id)%list /\
exists wp ev,
  parsed_wps !! wp_id = Some wp /\ parsed_events !! wp_id = Some ev /\
  ((WP.updated_at wp = PE.updated_at ev /\ err = None /\ w' = w) \/
   (WP.updated_at wp <> PE.updated_at ev /\
    exists tmp, wp_to_event zone wp = Ok tmp /\
      execute (Update calendar_id (PE.event_id ev) tmp) w.1 = (w'.1, err))).
Proof.
unfold update_calls. unfold_action.
destruct (parsed_wps !! wp_id) as [wp|] eqn:Hwp; [|discriminate].
destruct (parsed_events !! wp_id) as [ev|] eqn:Hev; [|discriminate].
case_bool_decide as Hneq.
- destruct (wp_to_event zone wp) as [tmp|] eqn:Htmp; [|discriminate].
  destruct (execute _ _) as [st e] eqn:He. intros [= <- <-]. simpl.
  split; [reflexivity|]. exists wp, ev. repeat split. right. eauto.
- intros [= <- <-]. rewrite app_nil_r. split; [reflexivity|].
  exists wp, ev. repeat split. left. repeat split.
  destruct (decide (WP.updated_at wp = PE.updated_at ev)); [assumption | contradiction].
Qed.

Lemma create_body_returns (wp_id : Z) (wp : WP.t) (event : Body.t) (w : @world St) :
parsed_wps !! wp_id = Some wp -> wp_to_event zone wp = Ok event ->
exists err w', create_body wp_id w = (Ok err, w').
Proof.
intros Hwp Hevent. unfold_action. rewrite Hwp, Hevent.
destruct (execute _ _); eauto.
Qed.

Lemma create_body_raises (wp_id : Z) (wp : WP.t) (e : exn) (w : @world St) :
parsed_wps !! wp_id = Some wp -> wp_to_event zone wp = Raise e ->
create_body wp_id w = (Raise e, w).
Proof. intros Hwp Hevent. unfold_action. now rewrite Hwp, Hevent. Qed.

Lemma delete_body_returns (wp_id : Z) (ev : PE.t) (w : @world St) :
parsed_events !! wp_id = Some ev ->
exists err w', delete_body wp_id w = (Ok err, w').
Proof.
intros Hev. unfold_action. rewrite Hev. destruct (execute _ _); eauto.
Qed.

Lemma update_body_returns (wp_id : Z) (wp : WP.t) (ev : PE.t) (w : @world St) :
parsed_wps !! wp_id = Some wp -> parsed_events !! wp_id = Some ev ->
(WP.updated_at wp <> PE.updated_at ev ->
 exists tmp, wp_to_event zone wp = Ok tmp) ->
exists err w', update_body wp_id w = (Ok err, w').
Proof.
intros Hwp Hev Htmp. unfold_action. rewrite Hwp, Hev.
case_bool_decide as Hneq; [|eauto].
destruct (Htmp Hneq) as [tmp ->]. destruct (execute _ _); eauto.
Qed.

Lemma update_body_raises (wp_id : Z) (wp : WP.t) (ev : PE.t) (e : exn)
  (w : @world St) :
parsed_wps !! wp_id = Some wp -> parsed_events !! wp_id = Some ev ->
WP.updated_at wp <> PE.updated_at ev -> wp_to_event zone wp = Raise e ->
update_body wp_id w = (Raise e, w).
Proof.
intros Hwp Hev Hneq Htmp. unfold_action. rewrite Hwp, Hev.
rewrite bool_decide_eq_true_2 by assumption. now rewrite Htmp.
Qed.

(** *** The three sets *)

Lemma elem_of_to_create_set (wp_id : Z) :
wp_id ∈ to_create_set parsed_wps parsed_events <->
is_Some (parsed_wps !! wp_id) /\ parsed_events !! wp_id = None.
Proof.
unfold to_create_set.
rewrite elem_of_difference, elem_of_dom, not_elem_of_dom. reflexivity.
Qed.

Lemma elem_of_to_delete_set (wp_id : Z) :
wp_id ∈ to_delete_set parsed_wps parsed_events <->
is_Some (parsed_events !! wp_id) /\ parsed_wps !! wp_id = None.
Proof.
unfold to_delete_set.
rewrite elem_of_difference, elem_of_dom, not_elem_of_dom. reflexivity.
Qed.

Lemma elem_of_may_update_set (wp_id : Z) :
wp_id ∈ may_update_set parsed_wps parsed_events <->
is_Some (parsed_events !! wp_id) /\ is_Some (parsed_wps !! wp_id).
Proof.
unfold may_update_set. rewrite elem_of_intersection, !elem_of_dom. reflexivity.
Qed.

(** *** The whole run *)

Hypothesis iter_perm : forall X : gset Z, iter X ≡ₚ elements X.

Lemma elem_of_iter (X : gset Z) (wp_id : Z) : wp_id ∈ iter X <-> wp_id ∈ X.
Proof. now rewrite (iter_perm X), elem_of_elements. Qed.

Lemma length_iter (X : gset Z) : length (iter X) = size X.
Proof. now rewrite (iter_perm X). Qed.

Lemma NoDup_iter (X : gset Z) : NoDup (iter X).
Proof. rewrite (iter_perm X). apply NoDup_elements. Qed.

(** A run whose event bodies can all be built returns. *)
Lemma synchronize_wps_returns (w : @world St) :
payloads_ok zone parsed_wps parsed_events ->
exists result w',
  synchronize_wps execute calendar_id zone iter parsed_wps parsed_events w
  = (Ok result, w').
Proof.
intros Hok. unfold synchronize_wps.
destruct (for_each_returns create_body
            (iter (to_create_set parsed_wps parsed_events))) with (errs0 := @nil (option string)) (w := w)
  as (ce & w1 & Hc).
{ intros i w0 [[wp Hwp] Hev]%elem_of_iter%elem_of_to_create_set.
  destruct (Hok i wp Hwp) as [event Hevent]; [intros ev; congruence|].
  eapply create_body_returns; eauto. }
destruct (for_each_returns delete_body
            (iter (to_delete_set parsed_wps parsed_events))) with (errs0 := @nil (option string)) (w := w1)
  as (de & w2 & Hd).
{ intros i w0 [[ev Hev] Hwp]%elem_of_iter%elem_of_to_delete_set.
  eapply delete_body_returns; eauto. }
destruct (for_each_returns update_body
            (iter (may_update_set parsed_wps parsed_events))) with (errs0 := @nil (option string)) (w := w2)
  as (ue & w3 & Hu).
{ intros i w0 [[ev Hev] [wp Hwp]]%elem_of_iter%elem_of_may_update_set.
  eapply update_body_returns; eauto.
  intros Hneq. apply (Hok i wp Hwp). intros ev'. congruence. }
unfold mbind at 1, action_bind at 1. rewrite Hc.
unfold mbind at 1, action_bind at 1. rewrite Hd.
unfold mbind at 1, action_bind at 1. rewrite Hu.
unfold mret, action_ret. eauto.
Qed.

(** What a run that returns has done: one entry per id in each list,
  each the answer of the service to the request for that id, and the
  requests of the three phases in order. *)
Lemma synchronize_wps_Ok (w w' : @world St) (wp_ids : gset Z * gset Z * gset Z)
  (ce de ue : list (option string)) :
synchronize_wps execute calendar_id zone iter parsed_wps parsed_events w
= (Ok (wp_ids, (ce, de, ue)), w') ->
wp_ids = (to_create_set parsed_wps parsed_events,
          to_delete_set parsed_wps parsed_events,
          may_update_set parsed_wps parsed_events) /\
Forall2 (fun wp_id err => exists wp event st st',
           parsed_wps !! wp_id = Some wp /\
           wp_to_event zone wp = Ok event /\
           execute (Insert calendar_id event) st = (st', err))
        (iter (to_create_set parsed_wps parsed_events)) ce /\
Forall2 (fun wp_id err => exists ev st st',
           parsed_events !! wp_id = Some ev /\
           execute (Delete calendar_id (PE.event_id ev)) st = (st', err))
        (iter (to_delete_set parsed_wps parsed_events)) de /\
Forall2 (fun wp_id err => exists wp ev,
           parsed_wps !! wp_id = Some wp /\ parsed_events !! wp_id = Some ev /\
           ((WP.updated_at wp = PE.updated_at ev /\ err = None) \/
            (WP.updated_at wp <> PE.updated_at ev /\
             exists tmp st st', wp_to_event zone wp = Ok tmp /\
               execute (Update calendar_id (PE.event_id ev) tmp) st = (st', err))))
        (iter (may_update_set parsed_wps parsed_events)) ue /\
w'.2 = (w.2
        ++ flat_map (create_calls calendar_id zone parsed_wps)
             (iter (to_create_set parsed_wps parsed_events))
        ++ flat_map (delete_calls calendar_id parsed_events)
             (iter (to_delete_set parsed_wps parsed_events))
        ++ flat_map (update_calls calendar_id zone parsed_wps parsed_events)
             (iter (may_update_set parsed_wps parsed_events)))%list.
Proof.
unfold synchronize_wps.
unfold mbind at 1, action_bind at 1.
destruct (for_each (iter (to_create_set parsed_wps parsed_events)) create_body [] w)
  as [[ce'|] w1] eqn:Hc; [|discriminate].
unfold mbind at 1, action_bind at 1.
destruct (for_each (iter (to_delete_set parsed_wps parsed_events)) delete_body [] w1)
  as [[de'|] w2] eqn:Hd; [|discriminate].
unfold mbind at 1, action_bind at 1.
destruct (for_each (iter (may_update_set parsed_wps parsed_events)) update_body [] w2)
  as [[ue'|] w3] eqn:Hu; [|discriminate].
unfold mret, action_ret. intros [= <- <- <- <- <-].
apply (for_each_Ok _ (create_calls calendar_id zone parsed_wps)
         (fun wp_id err => exists wp event st st',
            parsed_wps !! wp_id = Some wp /\
            wp_to_event zone wp = Ok event /\
            execute (Insert calendar_id event) st = (st', err)))
  in Hc as (ce & -> & HPc & Hlc).
2:{ intros i v err v' Hb.
    apply create_body_Ok in Hb as [Hl (wp & event & H1 & H2 & H3)].
    split; [exact Hl | exists wp, event, v.1, v'.1; auto]. }
apply (for_each_Ok _ (delete_calls calendar_id parsed_events)
         (fun wp_id err => exists ev st st',
            parsed_events !! wp_id = Some ev /\
            execute (Delete calendar_id (PE.event_id ev)) st = (st', err)))
  in Hd as (de & -> & HPd & Hld).
2:{ intros i v err v' Hb.
    apply delete_body_Ok in Hb as [Hl (ev & H1 & H2)].
    split; [exact Hl | exists ev, v.1, v'.1; auto]. }
apply (for_each_Ok _ (update_calls calendar_id zone parsed_wps parsed_events)
         (fun wp_id err => exists wp ev,
            parsed_wps !! wp_id = Some wp /\ parsed_events !! wp_id = Some ev /\
            ((WP.updated_at wp = PE.updated_at ev /\ err = None) \/
             (WP.updated_at wp <> PE.updated_at ev /\
              exists tmp st st', wp_to_event zone wp = Ok tmp /\
                execute (Update calendar_id (PE.event_id ev) tmp) st = (st', err)))))
  in Hu as (ue & -> & HPu & Hlu).
2:{ intros i v err v' Hb.
    apply update_body_Ok in Hb as [Hl (wp & ev & H1 & H2 & H3)].
    split; [exact Hl|]. exists wp, ev. split; [exact H1|]. split; [exact H2|].
    destruct H3 as [(? & ? & ?)|(? & tmp & ? & ?)];
      [left; auto | right; split; [assumption | exists tmp, v.1, v'.1; auto]]. }
simpl. repeat split; try assumption.
rewrite Hlu, Hld, Hlc. now rewrite <- !app_assoc.
Qed.

(** An event body that cannot be built for a task without an event ends
  the run with an exception. *)
Lemma payload_failure_escapes (w : @world St) (wp_id : Z) (wp : WP.t) (e : exn) :
wp_id ∈ to_create_set parsed_wps parsed_events ->
parsed_wps !! wp_id = Some wp ->
wp_to_event zone wp = Raise e ->
exists e' w',
  synchronize_wps execute calendar_id zone iter parsed_wps parsed_events w
  = (Raise e', w').
Proof.
intros Hin Hwp Hevent. unfold synchronize_wps.
destruct (for_each_raises create_body
            (iter (to_create_set parsed_wps parsed_events)) wp_id)
  with (errs0 := @nil (option string)) (w := w) as (e' & w' & Hc).
{ now apply elem_of_iter. }
{ intros v. exists e, v. now apply create_body_raises with wp. }
unfold mbind at 1, action_bind at 1. rewrite Hc. eauto.
Qed.

Lemma Forall2_elem_of_l {A B} (P : A -> B -> Prop) (l : list A) (k : list B) (x : A) :
  Forall2 P l k -> x ∈ l -> exists y, P x y.
Proof.
  induction 1 as [|a b l k Hab _ IH]; intros Hx.
  - now apply elem_of_nil in Hx.
  - apply elem_of_cons in Hx as [->|Hx]; eauto.
Qed.

(** A run returns only if every event body it needs can be built. *)
Lemma synchronize_wps_returns_only_if (w w' : @world St)
    (result : (gset Z * gset Z * gset Z)
              * (list (option string) * list (option string) * list (option string))) :
  synchronize_wps execute calendar_id zone iter parsed_wps parsed_events w
  = (Ok result, w') ->
  payloads_ok zone parsed_wps parsed_events.
Proof.
  destruct result as [wp_ids [[ce de] ue]].
  intros (_ & Hc & _ & Hu & _)%synchronize_wps_Ok wp_id wp Hwp Hneq.
  destruct (parsed_events !! wp_id) as [ev|] eqn:Hev.
  - destruct (Forall2_elem_of_l _ _ _ wp_id Hu) as (err & wp' & ev' & Hwp' & Hev' & H).
    { apply elem_of_iter, elem_of_may_update_set. rewrite Hwp, Hev. eauto. }
    rewrite Hwp in Hwp'. injection Hwp' as <-.
    rewrite Hev in Hev'. injection Hev' as <-.
    destruct H as [[Heq _]|(_ & tmp & _ & _ & Htmp & _)]; [|eauto].
    now destruct (Hneq ev).
  - destruct (Forall2_elem_of_l _ _ _ wp_id Hc) as (err & wp' & event & _ & _ & Hwp' & Hevent & _).
    { apply elem_of_iter, elem_of_to_create_set. rewrite Hwp, Hev. eauto. }
    rewrite Hwp in Hwp'. injection Hwp' as <-. eauto.
Qed.

(** The sets that a run returns are the ones it computes from the keys
    of the two maps. *)
Lemma synchronize_wps_sets (w w' : @world St)
    (result : (gset Z * gset Z * gset Z)
              * (list (option string) * list (option string) * list (option string))) :
  synchronize_wps execute calendar_id zone iter parsed_wps parsed_events w
  = (Ok result, w') ->
  result.1 = (to_create_set parsed_wps parsed_events,
              to_delete_set parsed_wps parsed_events,
              may_update_set parsed_wps parsed_events).
Proof.
  unfold synchronize_wps.
  unfold mbind at 1, action_bind at 1.
  destruct (for_each (iter (to_create_set parsed_wps parsed_events)) create_body [] w)
    as [[ce|] w1]; [|discriminate].
  unfold mbind at 1, action_bind at 1.
  destruct (for_each (iter (to_delete_set parsed_wps parsed_events)) delete_body [] w1)
    as [[de|] w2]; [|discriminate].
  unfold mbind at 1, action_bind at 1.
  destruct (for_each (iter (may_update_set parsed_wps parsed_events)) update_body [] w2)
    as [[ue|] w3]; [|discriminate].
  unfold mret, action_ret. now intros [= <- <-].
Qed.

(** Difference, difference and intersection of the two sets of keys
    split the keys as a partition does. *)
Lemma key_sets_partition :
  to_create_set parsed_wps parsed_events ∪ may_update_set parsed_wps parsed_events
  = dom parsed_wps /\
  to_delete_set parsed_wps parsed_events ∪ may_update_set parsed_wps parsed_events
  = dom parsed_events /\
  to_create_set parsed_wps parsed_events ## to_delete_set parsed_wps parsed_events /\
  to_create_set parsed_wps parsed_events ## may_update_set parsed_wps parsed_events /\
  to_delete_set parsed_wps parsed_events ## may_update_set parsed_wps parsed_events.
Proof.
  unfold to_create_set, to_delete_set, may_update_set.
  split; [|split; [|split; [|split]]].
  - apply set_eq. intros x.
    rewrite elem_of_union, elem_of_difference, elem_of_intersection.
    destruct (decide (x ∈ dom parsed_events)); tauto.
  - apply set_eq. intros x.
    rewrite elem_of_union, elem_of_difference, elem_of_intersection.
    destruct (decide (x ∈ dom parsed_wps)); tauto.
  - apply elem_of_disjoint. intros x. rewrite !elem_of_difference. tauto.
  - apply elem_of_disjoint. intros x.
    rewrite elem_of_difference, elem_of_intersection. tauto.
  - apply elem_of_disjoint. intros x.
    rewrite elem_of_difference, elem_of_intersection. tauto.
Qed.

End ReconcilerFacts.

(** C3: the sets of ids that [synchronize_wps] computes from the two
    maps. The ids to create and the ids that may need an update are
    together the ids of the tasks; the ids to delete and the ids that
    may need an update are together the ids of the events; no id is in
    two of the three sets. A run that returns has returned these three
    sets, and a run whose event bodies can all be built returns. *)
Theorem classification_is_a_partition {St : Type}
    (execute : call -> St -> St * option string) (calendar_id : string)
    (zone : local_zone) (iter : gset Z -> list Z)
    (parsed_wps : gmap Z WP.t) (parsed_events : gmap Z PE.t) (w : @world St) :
  (forall X : gset Z, iter X ≡ₚ elements X) ->
  (to_create_set parsed_wps parsed_events ∪ may_update_set parsed_wps parsed_events
   = dom parsed_wps /\
   to_delete_set parsed_wps parsed_events ∪ may_update_set parsed_wps parsed_events
   = dom parsed_events /\
   to_create_set parsed_wps parsed_events ## to_delete_set parsed_wps parsed_events /\
   to_create_set parsed_wps parsed_events ## may_update_set parsed_wps parsed_events /\
   to_delete_set parsed_wps parsed_events ## may_update_set parsed_wps parsed_events) /\
  (forall result w',
     synchronize_wps execute calendar_id zone iter parsed_wps parsed_events w
     = (Ok result, w') ->
     result.1 = (to_create_set parsed_wps parsed_events,
                 to_delete_set parsed_wps parsed_events,
                 may_update_set parsed_wps parsed_events)) /\
  (payloads_ok zone parsed_wps parsed_events ->
   exists to_create to_delete may_update error w',
     synchronize_wps execute calendar_id zone iter parsed_wps parsed_events w
     = (Ok ((to_create, to_delete, may_update), error), w') /\
     to_create ∪ may_update = dom parsed_wps /\
     to_delete ∪ may_update = dom parsed_events /\
     to_create ## to_delete /\
     to_create ## may_update /\
     to_delete ## may_update).
Proof.
  intros Hiter. split; [apply key_sets_partition|]. split.
  - intros result w'. apply synchronize_wps_sets.
  - intros Hok.
    destruct (synchronize_wps_returns execute calendar_id zone iter
                parsed_wps parsed_events Hiter w Hok) as ([wp_ids error] & w' & Hrun).
    pose proof (synchronize_wps_sets _ _ _ _ _ _ _ _ _ Hrun) as Hsets.
    simpl in Hsets. subst wp_ids.
    eexists _, _, _, error, w'. split; [exact Hrun|].
    apply key_sets_partition.
Qed.

Lemma classification_is_a_partition_witness :
  exists to_create to_delete may_update error w',
    synchronize_wps Sample.accept "cal" Sample.utc elements
      Sample.tasks Sample.events (tt, [])
    = (Ok ((to_create, to_delete, may_update), error), w') /\
    to_create ∪ may_update = dom Sample.tasks /\
    to_delete ∪ may_update = dom Sample.events /\
    to_create ## to_delete /\
    to_create ## may_update /\
    to_delete ## may_update.
Proof.
  apply (classification_is_a_partition Sample.accept "cal" Sample.utc elements
           Sample.tasks Sample.events (tt, [])).
  - intros X. reflexivity.
  - eapply (synchronize_wps_returns_only_if Sample.accept "cal" Sample.utc elements
              Sample.tasks Sample.events (fun X => reflexivity _) (tt, [])).
    vm_compute. reflexivity.
Defined.

(** C10: in a run that returns, each of the three error lists has one
    entry per id of its set, in the order of the visit: the answer of the
    calendar to the request made for that id ([None] for a reply, the
    text of the error for a failure), and [None] for an id whose update
    times agree, for which no request is made. *)
Theorem error_lists_have_one_entry_per_id {St : Type}
    (execute : call -> St -> St * option string) (calendar_id : string)
    (zone : local_zone) (iter : gset Z -> list Z)
    (parsed_wps : gmap Z WP.t) (parsed_events : gmap Z PE.t)
    (w w' : @world St) (wp_ids : gset Z * gset Z * gset Z)
    (ce de ue : list (option string)) :
  (forall X : gset Z, iter X ≡ₚ elements X) ->
  synchronize_wps execute calendar_id zone iter parsed_wps parsed_events w
  = (Ok (wp_ids, (ce, de, ue)), w') ->
  wp_ids = (to_create_set parsed_wps parsed_events,
            to_delete_set parsed_wps parsed_events,
            may_update_set parsed_wps parsed_events) /\
  length ce = size (to_create_set parsed_wps parsed_events) /\
  length de = size (to_delete_set parsed_wps parsed_events) /\
  length ue = size (may_update_set parsed_wps parsed_events) /\
  Forall2 (fun wp_id err => exists wp event st st',
             parsed_wps !! wp_id = Some wp /\
             wp_to_event zone wp = Ok event /\
             execute (Insert calendar_id event) st = (st', err))
          (iter (to_create_set parsed_wps parsed_events)) ce /\
  Forall2 (fun wp_id err => exists ev st st',
             parsed_events !! wp_id = Some ev /\
             execute (Delete calendar_id (PE.event_id ev)) st = (st', err))
          (iter (to_delete_set parsed_wps parsed_events)) de /\
  Forall2 (fun wp_id err => exists wp ev,
             parsed_wps !! wp_id = Some wp /\ parsed_events !! wp_id = Some ev /\
             ((WP.updated_at wp = PE.updated_at ev /\ err = None) \/
              (WP.updated_at wp <> PE.updated_at ev /\
               exists tmp st st', wp_to_event zone wp = Ok tmp /\
                 execute (Update calendar_id (PE.event_id ev) tmp) st = (st', err))))
          (iter (may_update_set parsed_wps parsed_events)) ue.
Proof.
  intros Hiter Hrun.
  apply synchronize_wps_Ok in Hrun as (Hids & Hc & Hd & Hu & _).
  split; [exact Hids|].
  rewrite <- (Forall2_length _ _ _ Hc), <- (Forall2_length _ _ _ Hd),
    <- (Forall2_length _ _ _ Hu).
  rewrite !(length_iter iter Hiter).
  repeat split; first [reflexivity | assumption].
Qed.

Lemma error_lists_have_one_entry_per_id_witness :
  length [Some "HttpError 403"] = size (to_create_set Sample.tasks Sample.events) /\
  length [Some "HttpError 403"] = size (to_delete_set Sample.tasks Sample.events) /\
  length [@None string] = size (may_update_set Sample.tasks Sample.events).
Proof.
  destruct (error_lists_have_one_entry_per_id Sample.refuse "cal" Sample.utc elements
              Sample.tasks Sample.events (tt, [])
              (tt, [Insert "cal"
                      {| Body.summary := "5:Write report";
                         Body.description :=
                           "<p>Draft...</p>Parent=No parent" +:+ NL +:+ "Alice"
                           +:+ NL +:+ "2024-01-02T09:00:00Z";
                         Body.start_dateTime := "2024-01-02T09:00:00+00:00";
                         Body.end_dateTime := "2024-01-02T10:00:00+00:00";
                         Body.reminders :=
                           {| useDefault := false;
                              overrides := [("popup", 1440); ("popup", 30)] |} |};
                    Delete "cal" "evt9"])
              (to_create_set Sample.tasks Sample.events,
               to_delete_set Sample.tasks Sample.events,
               may_update_set Sample.tasks Sample.events)
              [Some "HttpError 403"] [Some "HttpError 403"] [None])
    as (_ & H1 & H2 & H3 & _).
  - intros X. reflexivity.
  - vm_compute. reflexivity.
  - auto.
Defined.

Section UpdateCalls.

Lemma create_calls_not_update (calendar_id : string) (zone : local_zone)
  (parsed_wps : gmap Z WP.t) (ids : list Z) :
Forall (fun c => is_update c = false)
       (flat_map (create_calls calendar_id zone parsed_wps) ids).
Proof.
apply Forall_flat_map, Forall_forall. intros i _. unfold create_calls.
destruct (parsed_wps !! i) as [wp|]; [|constructor].
destruct (wp_to_event zone wp); repeat constructor.
Qed.

Lemma delete_calls_not_update (calendar_id : string)
  (parsed_events : gmap Z PE.t) (ids : list Z) :
Forall (fun c => is_update c = false)
       (flat_map (delete_calls calendar_id parsed_events) ids).
Proof.
apply Forall_flat_map, Forall_forall. intros i _. unfold delete_calls.
destruct (parsed_events !! i); repeat constructor.
Qed.

Lemma update_calls_same (calendar_id : string) (zone : local_zone)
  (parsed_wps : gmap Z WP.t) (parsed_events : gmap Z PE.t)
  (wp_id : Z) (wp : WP.t) (ev : PE.t) :
parsed_wps !! wp_id = Some wp -> parsed_events !! wp_id = Some ev ->
WP.updated_at wp = PE.updated_at ev ->
update_calls calendar_id zone parsed_wps parsed_events wp_id = [].
Proof.
intros Hwp Hev Heq. unfold update_calls. rewrite Hwp, Hev.
now rewrite bool_decide_eq_false_2 by tauto.
Qed.

Lemma update_calls_stale (calendar_id : string) (zone : local_zone)
  (parsed_wps : gmap Z WP.t) (parsed_events : gmap Z PE.t)
  (wp_id : Z) (wp : WP.t) (ev : PE.t) (tmp : Body.t) :
parsed_wps !! wp_id = Some wp -> parsed_events !! wp_id = Some ev ->
WP.updated_at wp <> PE.updated_at ev ->
wp_to_event zone wp = Ok tmp ->
update_calls calendar_id zone parsed_wps parsed_events wp_id
= [Update calendar_id (PE.event_id ev) tmp].
Proof.
intros Hwp Hev Hneq Htmp. unfold update_calls. rewrite Hwp, Hev.
rewrite bool_decide_eq_true_2 by assumption. now rewrite Htmp.
Qed.

End UpdateCalls.

(** C4, as the code has it: in a run whose event bodies can all be built,
    the run returns, and an id with both a task and an event is visited
    once in the update phase. At that visit no request is made when the
    two update times are the same string, and exactly one [update]
    request is made when they differ, with the event's [event_id] and the
    body built from the task. All [update] requests come from these
    visits. *)
Theorem update_is_requested_once_when_stale {St : Type}
    (execute : call -> St -> St * option string) (calendar_id : string)
    (zone : local_zone) (iter : gset Z -> list Z)
    (parsed_wps : gmap Z WP.t) (parsed_events : gmap Z PE.t)
    (w : @world St) (wp_id : Z) (wp : WP.t) (ev : PE.t) :
  (forall X : gset Z, iter X ≡ₚ elements X) ->
  payloads_ok zone parsed_wps parsed_events ->
  parsed_wps !! wp_id = Some wp ->
  parsed_events !! wp_id = Some ev ->
  exists result w' earlier this l1 l2,
    synchronize_wps execute calendar_id zone iter parsed_wps parsed_events w
    = (Ok result, w') /\
    iter (may_update_set parsed_wps parsed_events) = (l1 ++ wp_id :: l2)%list /\
    (wp_id ∉ l1) /\ (wp_id ∉ l2) /\
    w'.2 = (w.2 ++ earlier
            ++ flat_map (update_calls calendar_id zone parsed_wps parsed_events) l1
            ++ this
            ++ flat_map (update_calls calendar_id zone parsed_wps parsed_events) l2)%list /\
    Forall (fun c => is_update c = false) earlier /\
    (WP.updated_at wp = PE.updated_at ev -> this = []) /\
    (WP.updated_at wp <> PE.updated_at ev ->
     exists tmp, wp_to_event zone wp = Ok tmp /\
                 this = [Update calendar_id (PE.event_id ev) tmp]).
Proof.
  intros Hiter Hok Hwp Hev.
  destruct (synchronize_wps_returns execute calendar_id zone iter
              parsed_wps parsed_events Hiter w Hok) as ([wp_ids [[ce de] ue]] & w' & Hrun).
  pose proof (synchronize_wps_Ok _ _ _ _ _ _ _ _ _ _ _ _ Hrun) as (_ & _ & _ & _ & Hlog).
  assert (Hin : wp_id ∈ iter (may_update_set parsed_wps parsed_events)).
  { apply (elem_of_iter iter Hiter), elem_of_may_update_set. eauto. }
  apply list_elem_of_split in Hin as (l1 & l2 & Hsplit).
  pose proof (NoDup_iter iter Hiter (may_update_set parsed_wps parsed_events)) as Hnd.
  rewrite Hsplit in Hnd. apply NoDup_app in Hnd as (_ & Hl1 & [Hl2 _]%NoDup_cons).
  exists (wp_ids, (ce, de, ue)), w',
    (flat_map (create_calls calendar_id zone parsed_wps)
       (iter (to_create_set parsed_wps parsed_events))
     ++ flat_map (delete_calls calendar_id parsed_events)
          (iter (to_delete_set parsed_wps parsed_events)))%list,
    (update_calls calendar_id zone parsed_wps parsed_events wp_id), l1, l2.
  split; [exact Hrun|]. split; [exact Hsplit|].
  split; [intros Hin; apply (Hl1 _ Hin); now left|].
  split; [exact Hl2|].
  split.
  { rewrite Hlog, Hsplit, flat_map_app. simpl.
    now rewrite <- !app_assoc. }
  split.
  { apply Forall_app. split;
      [apply create_calls_not_update | apply delete_calls_not_update]. }
  split.
  - intros Heq. now apply update_calls_same with wp ev.
  - intros Hneq. destruct (Hok wp_id wp Hwp) as [tmp Htmp].
    { intros ev'. congruence. }
    exists tmp. split; [exact Htmp|]. now apply update_calls_stale with wp.
Qed.

Lemma update_is_requested_once_when_stale_witness :
  exists result w' earlier this l1 l2,
    synchronize_wps Sample.accept "cal" Sample.utc elements
      {[7 := Sample.review_wp]} {[7 := Sample.event7_old_parsed]} (tt, [])
    = (Ok result, w') /\
    elements (may_update_set {[7 := Sample.review_wp]}
                             {[7 := Sample.event7_old_parsed]})
    = (l1 ++ 7 :: l2)%list /\
    (7 ∉ l1) /\ (7 ∉ l2) /\
    w'.2 = ([] ++ earlier
            ++ flat_map (update_calls "cal" Sample.utc {[7 := Sample.review_wp]}
                           {[7 := Sample.event7_old_parsed]}) l1
            ++ this
            ++ flat_map (update_calls "cal" Sample.utc {[7 := Sample.review_wp]}
                           {[7 := Sample.event7_old_parsed]}) l2)%list /\
    Forall (fun c => is_update c = false) earlier /\
    (WP.updated_at Sample.review_wp = PE.updated_at Sample.event7_old_parsed ->
     this = []) /\
    (WP.updated_at Sample.review_wp <> PE.updated_at Sample.event7_old_parsed ->
     exists tmp, wp_to_event Sample.utc Sample.review_wp = Ok tmp /\
                 this = [Update "cal" (PE.event_id Sample.event7_old_parsed) tmp]).
Proof.
  apply (update_is_requested_once_when_stale Sample.accept "cal" Sample.utc elements
           {[7 := Sample.review_wp]} {[7 := Sample.event7_old_parsed]}
           (tt, []) 7 Sample.review_wp Sample.event7_old_parsed).
  - intros X. reflexivity.
  - intros i wp' [<- <-]%lookup_singleton_Some _.
    exists Sample.review_body. vm_compute. reflexivity.
  - vm_compute. reflexivity.
  - vm_compute. reflexivity.
Defined.

(** C4 as stated fails: task 8 and its event carry different update
    times, yet no [update] request is made, because the body of task 8
    cannot be built. *)
Lemma stale_task_without_due_hour_gets_no_update :
  exists wp ev,
    (parse_workpackages [Sample.no_hour]).1 !! 8 = Some wp /\
    (parse_events [Sample.event8_old]).1 !! 8 = Some ev /\
    WP.updated_at wp <> PE.updated_at ev /\
    synchronize_wps Sample.accept "cal" Sample.utc elements
      (parse_workpackages [Sample.no_hour]).1
      (parse_events [Sample.event8_old]).1 (tt, [])
    = (Raise ValueError, (tt, [])).
Proof.
  eexists _, _. split; [vm_compute; reflexivity|].
  split; [vm_compute; reflexivity|].
  split; [discriminate | vm_compute; reflexivity].
Qed.

(** C2 fails on the code: tasks 5 and 8 have no event and the set is
    visited as 8, 5. The body of task 8 cannot be built; the exception
    leaves [to_create] and the run, no error list is returned, and no
    request is made for task 5. *)
Theorem payload_failure_aborts_the_run :
  Sample.backwards
    (to_create_set (parse_workpackages [Sample.report; Sample.no_hour]).1 ∅)
  = [8; 5] /\
  (parse_workpackages [Sample.report; Sample.no_hour]).1 !! 8
  = Some Sample.no_hour_wp /\
  wp_to_event Sample.utc Sample.no_hour_wp = Raise ValueError /\
  synchronize_wps Sample.refuse "cal" Sample.utc Sample.backwards
    (parse_workpackages [Sample.report; Sample.no_hour]).1 ∅ (tt, [])
  = (Raise ValueError, (tt, [])).
Proof. repeat split; vm_compute; reflexivity. Qed.

(** ** Runs of the reconciler, whatever their outcome *)

Section Runs.

Context {St : Type}.
Variable execute : call -> St -> St * option string.
Variable calendar_id : string.
Variable zone : local_zone.
Variable iter : gset Z -> list Z.
Variable parsed_wps : gmap Z WP.t.
Variable parsed_events : gmap Z PE.t.

#[local] Existing Instances action_ret action_bind.

Abbreviation create_body :=
  (fun wp_id => subscript parsed_wps wp_id ≫= fun wp =>
                to_create execute calendar_id zone wp).
Abbreviation delete_body :=
  (fun wp_id => subscript parsed_events wp_id ≫= fun ev =>
                to_delete execute calendar_id ev).
Abbreviation update_body :=
  (fun wp_id =>
     subscript parsed_wps wp_id ≫= fun work_package =>
     subscript parsed_events wp_id ≫= fun event =>
     may_update execute calendar_id zone work_package event).

Ltac unfold_action :=
  unfold subscript, to_create, to_delete, may_update, request, lift, getitem,
    mbind, mret, action_bind, action_ret in *.

(** An exception in a loop body leaves the service as it was. *)
Lemma create_body_Raise (wp_id : Z) (w w' : @world St) (e : exn) :
  create_body wp_id w = (Raise e, w') -> w' = w.
Proof.
  unfold_action.
  destruct (parsed_wps !! wp_id) as [wp|]; [|now intros [= _ <-]].
  destruct (wp_to_event zone wp); [|now intros [= _ <-]].
  destruct (execute _ _). discriminate.
Qed.

Lemma delete_body_Raise (wp_id : Z) (w w' : @world St) (e : exn) :
  delete_body wp_id w = (Raise e, w') -> w' = w.
Proof.
  unfold_action.
  destruct (parsed_events !! wp_id) as [ev|]; [|now intros [= _ <-]].
  destruct (execute _ _). discriminate.
Qed.

Lemma update_body_Raise (wp_id : Z) (w w' : @world St) (e : exn) :
  update_body wp_id w = (Raise e, w') -> w' = w.
Proof.
  unfold_action.
  destruct (parsed_wps !! wp_id) as [wp|]; [|now intros [= _ <-]].
  destruct (parsed_events !! wp_id) as [ev|]; [|now intros [= _ <-]].
  case_bool_decide; [|discriminate].
  destruct (wp_to_event zone wp); [|now intros [= _ <-]].
  destruct (execute _ _). discriminate.
Qed.

(** The requests of a loop, whether it returns or raises: those of the
    ids visited before it ended. *)
Lemma for_each_log (body : Z -> @action St (option string))
    (calls : Z -> list call) (ids : list Z) :
  (forall wp_id (w : @world St) err w',
     body wp_id w = (Ok err, w') -> w'.2 = (w.2 ++ calls wp_id)%list) ->
  (forall wp_id (w : @world St) e w', body wp_id w = (Raise e, w') -> w' = w) ->
  forall errs0 (w : @world St) r w',
    for_each ids body errs0 w = (r, w') ->
    exists l1 l2, ids = (l1 ++ l2)%list /\
                  w'.2 = (w.2 ++ flat_map calls l1)%list /\
                  (forall errs, r = Ok errs -> l2 = []).
Proof.
  intros HOk HRaise. induction ids as [|wp_id ids IH]; intros errs0 w r w'; simpl.
  - unfold mret, action_ret. intros [= <- <-]. exists [], [].
    simpl. rewrite app_nil_r. auto.
  - unfold mbind, action_bind.
    destruct (body wp_id w) as [[err|e] w1] eqn:Hb.
    + intros (l1 & l2 & -> & Hlog & Hdone)%IH.
      exists (wp_id :: l1), l2. split; [reflexivity|]. split; [|exact Hdone].
      simpl. rewrite Hlog, (HOk _ _ _ _ Hb). now rewrite <- app_assoc.
    + intros [= <- <-]. exists [], (wp_id :: ids).
      split; [reflexivity|]. split; [|discriminate].
      rewrite (HRaise _ _ _ _ Hb). simpl. now rewrite app_nil_r.
Qed.

Lemma prefix_app_l {A} (l k1 k2 : list A) :
  k1 `prefix_of` k2 -> (l ++ k1)%list `prefix_of` (l ++ k2)%list.
Proof. intros [k ->]. exists k. now rewrite app_assoc. Qed.

Lemma flat_map_prefix (calls : Z -> list call) (l1 l2 : list Z) :
  flat_map calls l1 `prefix_of` flat_map calls (l1 ++ l2)%list.
Proof. rewrite flat_map_app. now apply prefix_app_r. Qed.

(** The requests of a run are the first requests of its plan. *)
Lemma synchronize_wps_log (w w' : @world St)
    (r : res ((gset Z * gset Z * gset Z)
              * (list (option string) * list (option string) * list (option string)))) :
  synchronize_wps execute calendar_id zone iter parsed_wps parsed_events w
  = (r, w') ->
  exists done,
    w'.2 = (w.2 ++ done)%list /\
    done `prefix_of`
      planned_calls calendar_id zone iter parsed_wps parsed_events /\
    (forall result, r = Ok result ->
       done = planned_calls calendar_id zone iter parsed_wps parsed_events).
Proof.
  unfold synchronize_wps, planned_calls.
  unfold mbind at 1, action_bind at 1.
  destruct (for_each (iter (to_create_set parsed_wps parsed_events)) create_body [] w)
    as [rc w1] eqn:Hc.
  apply (for_each_log _ (create_calls calendar_id zone parsed_wps)) in Hc
    as (c1 & c2 & Hcs & Hlc & Hcd);
    [|intros i v err v' Hb; now apply create_body_Ok in Hb as [Hl _]
     |intros i v e v' Hb; now apply create_body_Raise in Hb].
  destruct rc as [ce|e].
  2:{ intros [= <- <-]. exists (flat_map (create_calls calendar_id zone parsed_wps) c1).
      split; [exact Hlc|]. split; [|discriminate].
      rewrite Hcs. apply prefix_app_r, flat_map_prefix. }
  rewrite (Hcd ce eq_refl), app_nil_r in Hcs. subst c1. clear Hcd.
  unfold mbind at 1, action_bind at 1.
  destruct (for_each (iter (to_delete_set parsed_wps parsed_events)) delete_body [] w1)
    as [rd w2] eqn:Hd.
  apply (for_each_log _ (delete_calls calendar_id parsed_events)) in Hd
    as (d1 & d2 & Hds & Hld & Hdd);
    [|intros i v err v' Hb; now apply delete_body_Ok in Hb as [Hl _]
     |intros i v e v' Hb; now apply delete_body_Raise in Hb].
  destruct rd as [de|e].
  2:{ intros [= <- <-].
      exists (flat_map (create_calls calendar_id zone parsed_wps)
                (iter (to_create_set parsed_wps parsed_events))
              ++ flat_map (delete_calls calendar_id parsed_events) d1)%list.
      split; [rewrite Hld, Hlc; now rewrite <- app_assoc|]. split; [|discriminate].
      apply prefix_app_l. rewrite Hds. apply prefix_app_r, flat_map_prefix. }
  rewrite (Hdd de eq_refl), app_nil_r in Hds. subst d1. clear Hdd.
  unfold mbind at 1, action_bind at 1.
  destruct (for_each (iter (may_update_set parsed_wps parsed_events)) update_body [] w2)
    as [ru w3] eqn:Hu.
  apply (for_each_log _ (update_calls calendar_id zone parsed_wps parsed_events))
    in Hu as (u1 & u2 & Hus & Hlu & Hud);
    [|intros i v err v' Hb; now apply update_body_Ok in Hb as [Hl _]
     |intros i v e v' Hb; now apply update_body_Raise in Hb].
  destruct ru as [ue|e].
  2:{ intros [= <- <-].
      exists (flat_map (create_calls calendar_id zone parsed_wps)
                (iter (to_create_set parsed_wps parsed_events))
              ++ flat_map (delete_calls calendar_id parsed_events)
                   (iter (to_delete_set parsed_wps parsed_events))
              ++ flat_map (update_calls calendar_id zone parsed_wps parsed_events) u1)%list.
      split; [rewrite Hlu, Hld, Hlc; now rewrite <- !app_assoc|]. split; [|discriminate].
      do 2 apply prefix_app_l. rewrite Hus. apply flat_map_prefix. }
  rewrite (Hud ue eq_refl), app_nil_r in Hus. subst u1. clear Hud.
  unfold mret, action_ret. intros [= <- <-].
  eexists. split; [rewrite Hlu, Hld, Hlc; now rewrite <- !app_assoc|].
  split; [reflexivity | intros; reflexivity].
Qed.

(** The ids that a run has visited in each phase when it ends, and the
    requests it has made: those of the visits. A run that returns has
    visited every id of the three sets. *)
Lemma synchronize_wps_visits (w w' : @world St)
    (r : res ((gset Z * gset Z * gset Z)
              * (list (option string) * list (option string) * list (option string)))) :
  synchronize_wps execute calendar_id zone iter parsed_wps parsed_events w
  = (r, w') ->
  exists created deleted updated,
    created `prefix_of` iter (to_create_set parsed_wps parsed_events) /\
    deleted `prefix_of` iter (to_delete_set parsed_wps parsed_events) /\
    updated `prefix_of` iter (may_update_set parsed_wps parsed_events) /\
    w'.2 = (w.2
            ++ flat_map (create_calls calendar_id zone parsed_wps) created
            ++ flat_map (delete_calls calendar_id parsed_events) deleted
            ++ flat_map (update_calls calendar_id zone parsed_wps parsed_events)
                 updated)%list /\
    (forall result, r = Ok result ->
       created = iter (to_create_set parsed_wps parsed_events) /\
       deleted = iter (to_delete_set parsed_wps parsed_events) /\
       updated = iter (may_update_set parsed_wps parsed_events)).
Proof.
  unfold synchronize_wps.
  unfold mbind at 1, action_bind at 1.
  destruct (for_each (iter (to_create_set parsed_wps parsed_events)) create_body [] w)
    as [rc w1] eqn:Hc.
  apply (for_each_log _ (create_calls calendar_id zone parsed_wps)) in Hc
    as (c1 & c2 & Hcs & Hlc & Hcd);
    [|intros i v err v' Hb; now apply create_body_Ok in Hb as [Hl _]
     |intros i v e v' Hb; now apply create_body_Raise in Hb].
  destruct rc as [ce|e].
  2:{ intros [= <- <-]. exists c1, [], [].
      split; [rewrite Hcs; now apply prefix_app_r|].
      split; [apply prefix_nil|]. split; [apply prefix_nil|].
      split; [|discriminate]. simpl. now rewrite app_nil_r. }
  rewrite (Hcd ce eq_refl), app_nil_r in Hcs. subst c1. clear Hcd.
  unfold mbind at 1, action_bind at 1.
  destruct (for_each (iter (to_delete_set parsed_wps parsed_events)) delete_body [] w1)
    as [rd w2] eqn:Hd.
  apply (for_each_log _ (delete_calls calendar_id parsed_events)) in Hd
    as (d1 & d2 & Hds & Hld & Hdd);
    [|intros i v err v' Hb; now apply delete_body_Ok in Hb as [Hl _]
     |intros i v e v' Hb; now apply delete_body_Raise in Hb].
  destruct rd as [de|e].
  2:{ intros [= <- <-].
      exists (iter (to_create_set parsed_wps parsed_events)), d1, [].
      split; [reflexivity|].
      split; [rewrite Hds; now apply prefix_app_r|]. split; [apply prefix_nil|].
      split; [|discriminate]. simpl. rewrite app_nil_r, Hld, Hlc.
      now rewrite <- app_assoc. }
  rewrite (Hdd de eq_refl), app_nil_r in Hds. subst d1. clear Hdd.
  unfold mbind at 1, action_bind at 1.
  destruct (for_each (iter (may_update_set parsed_wps parsed_events)) update_body [] w2)
    as [ru w3] eqn:Hu.
  apply (for_each_log _ (update_calls calendar_id zone parsed_wps parsed_events))
    in Hu as (u1 & u2 & Hus & Hlu & Hud);
    [|intros i v err v' Hb; now apply update_body_Ok in Hb as [Hl _]
     |intros i v e v' Hb; now apply update_body_Raise in Hb].
  assert (Hlog : w3.2 = (w.2
            ++ flat_map (create_calls calendar_id zone parsed_wps)
                 (iter (to_create_set parsed_wps parsed_events))
            ++ flat_map (delete_calls calendar_id parsed_events)
                 (iter (to_delete_set parsed_wps parsed_events))
            ++ flat_map (update_calls calendar_id zone parsed_wps parsed_events)
                 u1)%list)
    by (rewrite Hlu, Hld, Hlc; now rewrite <- !app_assoc).
  destruct ru as [ue|e].
  2:{ intros [= <- <-].
      exists (iter (to_create_set parsed_wps parsed_events)),
             (iter (to_delete_set parsed_wps parsed_events)), u1.
      split; [reflexivity|]. split; [reflexivity|].
      split; [rewrite Hus; now apply prefix_app_r|].
      split; [exact Hlog | discriminate]. }
  rewrite (Hud ue eq_refl), app_nil_r in Hus. subst u1. clear Hud.
  unfold mret, action_ret. intros [= <- <-].
  exists (iter (to_create_set parsed_wps parsed_events)),
         (iter (to_delete_set parsed_wps parsed_events)),
         (iter (may_update_set parsed_wps parsed_events)).
  split; [reflexivity|]. split; [reflexivity|]. split; [reflexivity|].
  split; [exact Hlog | auto].
Qed.

End Runs.

Section Plans.

Variable calendar_id : string.
Variable zone : local_zone.
Variable iter : gset Z -> list Z.
Variable parsed_wps : gmap Z WP.t.
Variable parsed_events : gmap Z PE.t.
Hypothesis iter_perm : forall X : gset Z, iter X ≡ₚ elements X.

(** Every request of the plan is called for by the two maps. *)
Lemma planned_calls_called_for :
  Forall (called_for calendar_id zone parsed_wps parsed_events)
         (planned_calls calendar_id zone iter parsed_wps parsed_events).
Proof.
  unfold planned_calls. rewrite !Forall_app. repeat split.
  - apply Forall_flat_map, Forall_forall.
    intros i [[wp Hwp] Hev]%(elem_of_iter iter iter_perm)%elem_of_to_create_set.
    unfold create_calls. rewrite Hwp.
    destruct (wp_to_event zone wp) as [body|] eqn:Hb; [|constructor].
    repeat constructor. exists i, wp. auto.
  - apply Forall_flat_map, Forall_forall.
    intros i [[ev Hev] Hwp]%(elem_of_iter iter iter_perm)%elem_of_to_delete_set.
    unfold delete_calls. rewrite Hev.
    repeat constructor. exists i, ev. auto.
  - apply Forall_flat_map, Forall_forall.
    intros i [[ev Hev] [wp Hwp]]%(elem_of_iter iter iter_perm)%elem_of_may_update_set.
    unfold update_calls. rewrite Hwp, Hev.
    case_bool_decide as Hneq; [|constructor].
    destruct (wp_to_event zone wp) as [body|] eqn:Hb; [|constructor].
    repeat constructor. exists i, wp, ev. auto.
Qed.

End Plans.

(** C5, as the code has it: a task whose raw description is null or
    starts with the line [!!!] gets no normalized record and no entry in
    the error list. Whatever the outcome of the run, its id is not
    visited in the loop that creates events nor in the loop that updates
    them, so the run makes no [insert] and no [update] request for it.
    Its id is visited in the loop that deletes events only when the
    calendar holds an event for it; a run that returns then visits it
    once and makes the [delete] request for that event. A run that an
    exception ends may end before that visit. *)
Theorem unsynchronized_task_is_only_ever_deleted {St : Type}
    (execute : call -> St -> St * option string) (calendar_id : string)
    (zone : local_zone) (iter : gset Z -> list Z)
    (workpackages : list work_package_json) (elem : work_package_json)
    (parsed_events : gmap Z PE.t) (w w' : @world St)
    (r : res ((gset Z * gset Z * gset Z)
              * (list (option string) * list (option string) * list (option string)))) :
  (forall X : gset Z, iter X ≡ₚ elements X) ->
  not_synchronized elem = true ->
  (forall e, e ∈ workpackages -> elem_id e = elem_id elem ->
             not_synchronized e = true) ->
  synchronize_wps execute calendar_id zone iter
    (parse_workpackages workpackages).1 parsed_events w = (r, w') ->
  (parse_workpackages workpackages).1 !! elem_id elem = None /\
  (forall x, (elem, x) ∉ (parse_workpackages workpackages).2) /\
  exists created deleted updated,
    w'.2 = (w.2
            ++ flat_map (create_calls calendar_id zone
                           (parse_workpackages workpackages).1) created
            ++ flat_map (delete_calls calendar_id parsed_events) deleted
            ++ flat_map (update_calls calendar_id zone
                           (parse_workpackages workpackages).1 parsed_events)
                 updated)%list /\
    (elem_id elem ∉ created) /\
    (elem_id elem ∉ updated) /\
    (elem_id elem ∈ deleted -> is_Some (parsed_events !! elem_id elem)) /\
    (forall result ev,
       r = Ok result -> parsed_events !! elem_id elem = Some ev ->
       delete_calls calendar_id parsed_events (elem_id elem)
       = [Delete calendar_id (PE.event_id ev)] /\
       Delete calendar_id (PE.event_id ev) ∈ w'.2 /\
       exists before after,
         deleted = (before ++ elem_id elem :: after)%list /\
         (elem_id elem ∉ before) /\ (elem_id elem ∉ after)).
Proof.
  intros Hiter Hs Hothers Hrun.
  assert (Hnone : (parse_workpackages workpackages).1 !! elem_id elem = None).
  { apply parse_workpackages_lookup_None; [exact Hothers | apply lookup_empty]. }
  split; [exact Hnone|]. split.
  { intros x Hx. apply parse_workpackages_err in Hx as [Hx|(_ & Hx & _)].
    - now apply elem_of_nil in Hx.
    - congruence. }
  apply synchronize_wps_visits in Hrun
    as (created & deleted & updated & [c2 Hc] & [d2 Hd] & [u2 Hu] & Hlog & Hall).
  exists created, deleted, updated. split; [exact Hlog|]. split.
  { intros Hin.
    assert (Hin' : elem_id elem ∈ iter (to_create_set (parse_workpackages workpackages).1
                                          parsed_events))
      by (rewrite Hc; apply elem_of_app; now left).
    apply (elem_of_iter iter Hiter), elem_of_to_create_set in Hin' as [[? Hwp] _].
    congruence. }
  split.
  { intros Hin.
    assert (Hin' : elem_id elem ∈ iter (may_update_set (parse_workpackages workpackages).1
                                          parsed_events))
      by (rewrite Hu; apply elem_of_app; now left).
    apply (elem_of_iter iter Hiter), elem_of_may_update_set in Hin' as [_ [? Hwp]].
    congruence. }
  split.
  { intros Hin.
    assert (Hin' : elem_id elem ∈ iter (to_delete_set (parse_workpackages workpackages).1
                                          parsed_events))
      by (rewrite Hd; apply elem_of_app; now left).
    now apply (elem_of_iter iter Hiter), elem_of_to_delete_set in Hin' as [Hev _]. }
  intros result ev Hr Hev.
  assert (Hcall : delete_calls calendar_id parsed_events (elem_id elem)
                  = [Delete calendar_id (PE.event_id ev)])
    by (unfold delete_calls; now rewrite Hev).
  split; [exact Hcall|].
  destruct (Hall result Hr) as (_ & Hdel & _).
  assert (Hin : elem_id elem ∈ deleted).
  { rewrite Hdel. apply (elem_of_iter iter Hiter), elem_of_to_delete_set.
    rewrite Hev, Hnone. eauto. }
  split.
  { rewrite Hlog. apply elem_of_app. right. apply elem_of_app. right.
    apply elem_of_app. left. apply list_elem_of_In, in_flat_map.
    exists (elem_id elem). split; [now apply list_elem_of_In|].
    rewrite Hcall. now left. }
  pose proof (NoDup_iter iter Hiter
                (to_delete_set (parse_workpackages workpackages).1 parsed_events))
    as Hnd.
  rewrite <- Hdel in Hnd.
  apply list_elem_of_split in Hin as (before & after & ->).
  exists before, after. split; [reflexivity|].
  apply NoDup_app in Hnd as (_ & Hfresh & Hafter).
  apply NoDup_cons in Hafter as [Hafter _].
  split; [|exact Hafter].
  intros Hb. apply (Hfresh _ Hb). now left.
Qed.

Lemma unsynchronized_task_is_only_ever_deleted_witness :
  (parse_workpackages [Sample.review; Sample.private]).1 !! 9 = None /\
  (forall x, (Sample.private, x)
             ∉ (parse_workpackages [Sample.review; Sample.private]).2) /\
  exists created deleted updated,
    [Delete "cal" "evt9"]
    = ([] ++ flat_map (create_calls "cal" Sample.utc
                         (parse_workpackages [Sample.review; Sample.private]).1)
               created
          ++ flat_map (delete_calls "cal" Sample.events) deleted
          ++ flat_map (update_calls "cal" Sample.utc
                         (parse_workpackages [Sample.review; Sample.private]).1
                         Sample.events) updated)%list /\
    (9 ∉ created) /\
    (9 ∉ updated) /\
    (9 ∈ deleted -> is_Some (Sample.events !! 9)) /\
    (forall result ev,
       Ok ((∅ : gset Z, {[9]} : gset Z, {[7]} : gset Z),
           ([] : list (option string), [@None string], [@None string]))
       = Ok result ->
       Sample.events !! 9 = Some ev ->
       delete_calls "cal" Sample.events 9 = [Delete "cal" (PE.event_id ev)] /\
       Delete "cal" (PE.event_id ev) ∈ [Delete "cal" "evt9"] /\
       exists before after,
         deleted = (before ++ 9 :: after)%list /\ (9 ∉ before) /\ (9 ∉ after)).
Proof.
  apply (unsynchronized_task_is_only_ever_deleted Sample.accept "cal" Sample.utc
           elements [Sample.review; Sample.private] Sample.private Sample.events
           (tt, []) (tt, [Delete "cal" "evt9"])).
  - intros X. reflexivity.
  - reflexivity.
  - intros e He Hid. apply elem_of_cons in He as [->|He]; [discriminate Hid|].
    apply list_elem_of_singleton in He as ->. reflexivity.
  - vm_compute. reflexivity.
Defined.

(** C5 as stated fails: task 9 is marked [!!!] and the calendar still
    holds an event for it. The run makes a [delete] request for that
    event: an action for the id of a task that is not synchronized. *)
Lemma unsynchronized_task_event_is_deleted :
  not_synchronized Sample.private = true /\
  elem_id Sample.private = 9 /\
  (parse_workpackages [Sample.private]).1 !! 9 = None /\
  PE.event_id <$> (parse_events [Sample.event9]).1 !! 9 = Some "evt9" /\
  elements (to_delete_set (parse_workpackages [Sample.private]).1
                          (parse_events [Sample.event9]).1) = [9] /\
  (synchronize_wps Sample.accept "cal" Sample.utc elements
     (parse_workpackages [Sample.private]).1
     (parse_events [Sample.event9]).1 (tt, [])).2
  = (tt, [Delete "cal" "evt9"]).
Proof. repeat split; vm_compute; reflexivity. Qed.

(** The [delete] request waits for the loop that creates events: when a
    body cannot be built there, the run ends and the event of task 9
    stays on the calendar. *)
Example failed_run_leaves_the_event :
  not_synchronized Sample.private = true /\
  (parse_events [Sample.event9]).1 !! 9 = Sample.events !! 9 /\
  synchronize_wps Sample.accept "cal" Sample.utc elements
    (parse_workpackages [Sample.no_hour; Sample.private]).1
    (parse_events [Sample.event9]).1 (tt, [])
  = (Raise ValueError, (tt, [])).
Proof. repeat split; vm_compute; reflexivity. Qed.

(** * Further facts about the code *)

(** ** Normalization of a batch *)

Section Batches.

Lemma parse_workpackages_errors_acc (l : list work_package_json)
    (acc : gmap Z WP.t * list (work_package_json * exn)) :
  (foldl parse_workpackages_step acc l).2
  = (acc.2 ++ omap (fun elem =>
                      if not_synchronized elem then None
                      else match parse_workpackage elem with
                           | Ok _ => None
                           | Raise error => Some (elem, error)
                           end) l)%list.
Proof.
  revert acc. induction l as [|e l IH]; intros acc; simpl.
  - now rewrite app_nil_r.
  - rewrite IH. unfold parse_workpackages_step.
    destruct (not_synchronized e); [reflexivity|].
    destruct (parse_workpackage e); simpl; [reflexivity|].
    now rewrite <- app_assoc.
Qed.

Lemma parse_events_snoc (l : list event_json) (elem : event_json) :
  parse_events (l ++ [elem]) = parse_events_step (parse_events l) elem.
Proof. unfold parse_events. now rewrite foldl_app. Qed.

Lemma parse_events_errors_acc (l : list event_json)
    (acc : gmap Z PE.t * list (event_json * exn)) :
  (foldl parse_events_step acc l).2
  = (acc.2 ++ omap (fun elem =>
                      match parse_event elem with
                      | Ok _ => None
                      | Raise error => Some (elem, error)
                      end) l)%list.
Proof.
  revert acc. induction l as [|e l IH]; intros acc; simpl.
  - now rewrite app_nil_r.
  - rewrite IH. unfold parse_events_step.
    destruct (parse_event e) as [[key tmp]|]; simpl; [reflexivity|].
    now rewrite <- app_assoc.
Qed.

(** A record in the map of events comes from an event that was read. *)
Lemma parse_events_sound (l : list event_json) (k : Z) (tmp : PE.t) :
  (parse_events l).1 !! k = Some tmp ->
  exists elem, elem ∈ l /\ parse_event elem = Ok (k, tmp).
Proof.
  induction l as [|e l IH] using rev_ind.
  - unfold parse_events. simpl. now rewrite lookup_empty.
  - rewrite parse_events_snoc. unfold parse_events_step.
    destruct (parse_event e) as [[key t]|] eqn:Hp; simpl.
    + destruct (decide (key = k)) as [<-|Hne].
      * rewrite lookup_insert_eq. intros [= <-]. exists e.
        split; [apply elem_of_app; right; now left | assumption].
      * rewrite lookup_insert_ne by assumption.
        intros (elem & ? & ?)%IH. exists elem.
        split; [apply elem_of_app; now left | assumption].
    + intros (elem & ? & ?)%IH. exists elem.
      split; [apply elem_of_app; now left | assumption].
Qed.

Lemma parse_event_event_id (elem : event_json) (k : Z) (tmp : PE.t) :
  parse_event elem = Ok (k, tmp) -> PE.event_id tmp = ev_id elem.
Proof.
  unfold parse_event. intros H. do 10 step_ok H. now injection H as <- <-.
Qed.

End Batches.

(** X1: the error list of task normalization holds, in the order of the
    input, exactly the synchronized tasks whose normalization raised,
    each with its exception; a failure never stops the batch. *)
Theorem parse_workpackages_errors_in_order (workpackages : list work_package_json) :
  (parse_workpackages workpackages).2
  = omap (fun elem =>
            if not_synchronized elem then None
            else match parse_workpackage elem with
                 | Ok _ => None
                 | Raise error => Some (elem, error)
                 end) workpackages.
Proof. unfold parse_workpackages. now rewrite parse_workpackages_errors_acc. Qed.

(** X2: when the ids of the work packages are distinct, the map holds
    under an id exactly the normalization of the synchronized work
    package with that id: one record per eligible task, none for the
    others. *)
Theorem one_record_per_synchronized_task (workpackages : list work_package_json)
    (k : Z) (tmp : WP.t) :
  NoDup (elem_id <$> workpackages) ->
  (parse_workpackages workpackages).1 !! k = Some tmp <->
  exists elem, elem ∈ workpackages /\ elem_id elem = k /\
               not_synchronized elem = false /\ parse_workpackage elem = Ok tmp.
Proof.
  intros Hnd. split; [apply parse_workpackages_sound|].
  intros (elem & Hin & <- & Hs & Hp).
  induction workpackages as [|e l IH] using rev_ind.
  - now apply elem_of_nil in Hin.
  - rewrite fmap_app in Hnd. apply NoDup_app in Hnd as (Hl & Hfresh & _).
    rewrite parse_workpackages_snoc.
    apply elem_of_app in Hin as [Hin|Hin].
    2:{ apply list_elem_of_singleton in Hin as ->.
        rewrite (parse_workpackages_step_ok _ _ _ Hs Hp). simpl.
        apply lookup_insert_eq. }
    assert (elem_id e <> elem_id elem) as Hne.
    { intros Heq. apply (Hfresh (elem_id elem)).
      - apply list_elem_of_fmap. eauto.
      - rewrite <- Heq. simpl. now left. }
    unfold parse_workpackages_step.
    destruct (not_synchronized e); [now apply IH|].
    destruct (parse_workpackage e); simpl; [|now apply IH].
    rewrite lookup_insert_ne by assumption. now apply IH.
Qed.

Lemma one_record_per_synchronized_task_witness :
  (parse_workpackages [Sample.review; Sample.private; Sample.broken]).1 !! 7
  = Some Sample.review_wp <->
  exists elem, elem ∈ [Sample.review; Sample.private; Sample.broken] /\
               elem_id elem = 7 /\
               not_synchronized elem = false /\
               parse_workpackage elem = Ok Sample.review_wp.
Proof.
  apply (one_record_per_synchronized_task
           [Sample.review; Sample.private; Sample.broken] 7 Sample.review_wp).
  apply (bool_decide_unpack _). vm_compute. exact I.
Defined.

(** X3: the error list of event normalization holds, in the order of the
    input, exactly the events whose normalization raised, each with its
    exception. *)
Theorem parse_events_errors_in_order (events : list event_json) :
  (parse_events events).2
  = omap (fun elem =>
            match parse_event elem with
            | Ok _ => None
            | Raise error => Some (elem, error)
            end) events.
Proof. unfold parse_events. now rewrite parse_events_errors_acc. Qed.

Section LastEventWins.

(** Events that do not normalize to the key [k] leave its entry alone. *)
Lemma parse_events_lookup_others (l : list event_json)
    (acc : gmap Z PE.t * list (event_json * exn)) (k : Z) :
  (forall e t, e ∈ l -> parse_event e <> Ok (k, t)) ->
  (foldl parse_events_step acc l).1 !! k = acc.1 !! k.
Proof.
  revert acc. induction l as [|e l IH]; intros acc Hl; [reflexivity|].
  simpl. rewrite IH by (intros e' t He'; apply Hl; now right).
  unfold parse_events_step.
  destruct (parse_event e) as [[key t]|] eqn:Hp; simpl; [|reflexivity].
  apply lookup_insert_ne. intros ->. now apply (Hl e t (list_elem_of_here _ _)).
Qed.

End LastEventWins.

(** X4: the map of events holds under a key the record of the last event
    of the list that normalizes to that key. An earlier event with the
    same work package id in its title is not in the map. *)
Theorem last_event_with_an_id_wins (events : list event_json) (k : Z) (tmp : PE.t) :
  (parse_events events).1 !! k = Some tmp <->
  exists l1 elem l2,
    events = (l1 ++ elem :: l2)%list /\
    parse_event elem = Ok (k, tmp) /\
    forall e' t, e' ∈ l2 -> parse_event e' <> Ok (k, t).
Proof.
  split.
  - induction events as [|e0 l IH] using rev_ind.
    + unfold parse_events. simpl. now rewrite lookup_empty.
    + rewrite parse_events_snoc. unfold parse_events_step.
      destruct (parse_event e0) as [[key t]|] eqn:Hp; simpl.
      * destruct (decide (key = k)) as [->|Hne].
        -- rewrite lookup_insert_eq. intros [= <-].
           exists l, e0, []. repeat split; [assumption|].
           intros e' t' He. now apply elem_of_nil in He.
        -- rewrite lookup_insert_ne by assumption.
           intros (l1 & elem & l2 & -> & Helem & Hl2)%IH.
           exists l1, elem, (l2 ++ [e0])%list.
           split; [now rewrite <- app_assoc|]. split; [assumption|].
           intros e' t' [He|He%list_elem_of_singleton]%elem_of_app; [now apply Hl2|].
           subst e'. rewrite Hp. congruence.
      * intros (l1 & elem & l2 & -> & Helem & Hl2)%IH.
        exists l1, elem, (l2 ++ [e0])%list.
        split; [now rewrite <- app_assoc|]. split; [assumption|].
        intros e' t' [He|He%list_elem_of_singleton]%elem_of_app; [now apply Hl2|].
        subst e'. rewrite Hp. discriminate.
  - intros (l1 & elem & l2 & -> & Helem & Hl2).
    unfold parse_events. rewrite foldl_app. simpl.
    rewrite parse_events_lookup_others by assumption.
    rewrite (parse_events_step_ok _ _ _ _ Helem). simpl.
    apply lookup_insert_eq.
Qed.

(** ** The fields of a normalized task *)

Section TaskFields.

Lemma parse_workpackage_inv (elem : work_package_json) (tmp : WP.t) :
  parse_workpackage elem = Ok tmp ->
  exists sub p due,
    elem_subject elem = Some sub /\ parse_parent elem = Ok p /\
    parse_due elem = Ok due /\
    tmp = {| WP.wp_id := PyInt (elem_id elem);
             WP.subject := Py.strip sub;
             WP.description := html (elem_description elem);
             WP.parent := p;
             WP.assignee := parse_assignee elem;
             WP.due_date := due.1;
             WP.due_hour := due.2;
             WP.updated_at := elem_updatedAt elem |}.
Proof.
  unfold parse_workpackage.
  destruct (elem_subject elem) as [sub|]; simpl; [|discriminate].
  destruct (parse_parent elem) as [p|]; simpl; [|discriminate].
  destruct (parse_due elem) as [due|]; simpl; [|discriminate].
  intros [= <-]. eauto 10.
Qed.

Lemma mapM_int_raises (l : list string) (e : exn) :
  mapM PyInt.int l = Raise e -> e = ValueError.
Proof.
  induction l as [|x l IH]; simpl; [discriminate|].
  destruct (PyInt.int x) as [y|e'] eqn:Hx; simpl.
  - destruct (mapM PyInt.int l); simpl; [discriminate|].
    intros [= <-]. now apply IH.
  - intros [= <-]. unfold PyInt.int in Hx.
    destruct (match PyInt.strip x with EmptyString => _ | String _ _ => _ end);
      congruence.
Qed.


End TaskFields.





(** X7: the parent of a normalized task is the last path segment of the
    parent link, a colon and the parent's title, or [No parent] without a
    link; the assignee is the title of the assignee link, or
    [Not assigned to anyone] without one. *)
Theorem parent_and_assignee_of_a_task (elem : work_package_json) (tmp : WP.t) :
  parse_workpackage elem = Ok tmp ->
  (Py.truthy (href (elem_parent elem)) = false -> WP.parent tmp = "No parent") /\
  (forall prefix pid,
     href (elem_parent elem) = Some (prefix +:+ "/" +:+ pid) ->
     occurs "/" pid = false ->
     WP.parent tmp = pid +:+ ":" +:+ title (elem_parent elem)) /\
  (Py.truthy (href (elem_assignee elem)) = false ->
   WP.assignee tmp = "Not assigned to anyone") /\
  (Py.truthy (href (elem_assignee elem)) = true ->
   WP.assignee tmp = title (elem_assignee elem)).
Proof.
  intros (sub & p & due & _ & Hp & _ & ->)%parse_workpackage_inv. simpl.
  unfold parse_assignee. repeat split.
  - intros Hf. unfold parse_parent in Hp. rewrite Hf in Hp. now injection Hp as <-.
  - intros prefix pid Hh Hpid. unfold parse_parent in Hp. rewrite Hh in Hp.
    assert (Ht : Py.truthy (Some (prefix +:+ "/" +:+ pid)) = true).
    { destruct prefix; reflexivity. }
    rewrite Ht in Hp. simpl in Hp.
    change (prefix +:+ "/" +:+ pid) with (prefix +:+ String "/" pid) in Hp.
    rewrite split_append, index_last_app in Hp by apply split_nonempty.
    rewrite (index_last_absent _ _ Hpid) in Hp. simpl in Hp. now injection Hp as <-.
  - now intros ->.
  - now intros ->.
Qed.

Lemma parent_and_assignee_of_a_task_witness :
  (Py.truthy (href (elem_parent Sample.review)) = false ->
   WP.parent Sample.review_wp = "No parent") /\
  (forall prefix pid,
     href (elem_parent Sample.review) = Some (prefix +:+ "/" +:+ pid) ->
     occurs "/" pid = false ->
     WP.parent Sample.review_wp = pid +:+ ":" +:+ title (elem_parent Sample.review)) /\
  (Py.truthy (href (elem_assignee Sample.review)) = false ->
   WP.assignee Sample.review_wp = "Not assigned to anyone") /\
  (Py.truthy (href (elem_assignee Sample.review)) = true ->
   WP.assignee Sample.review_wp = title (elem_assignee Sample.review)).
Proof.
  apply (parent_and_assignee_of_a_task Sample.review Sample.review_wp).
  reflexivity.
Defined.

(** ** Dates *)

Section Calendar.

Lemma days_before_year_succ (y : Z) :
  days_before_year (y + 1)
  = days_before_year y + 365 + (if is_leap y then 1 else 0).
Proof.
  unfold days_before_year, is_leap. cbv zeta.
  replace (y + 1 - 1) with y by lia.
  destruct (y mod 4 =? 0) eqn:H4; destruct (y mod 100 =? 0) eqn:H100;
    destruct (y mod 400 =? 0) eqn:H400; simpl;
    rewrite ?Z.eqb_eq, ?Z.eqb_neq in *;
    Z.to_euclidean_division_equations; lia.
Qed.

Lemma days_before_month_succ (y m : Z) :
  1 <= m <= 11 ->
  days_before_month y (m + 1) = days_before_month y m + days_in_month y m.
Proof.
  intros Hm.
  assert (m = 1 \/ m = 2 \/ m = 3 \/ m = 4 \/ m = 5 \/ m = 6 \/ m = 7 \/
          m = 8 \/ m = 9 \/ m = 10 \/ m = 11) as Hcases by lia.
  unfold days_before_month, days_in_month.
  repeat (destruct Hcases as [->|Hcases]); [..|subst m];
    simpl; destruct (is_leap y); reflexivity.
Qed.

Lemma days_in_month_december (y : Z) : days_in_month y 12 = 31.
Proof. reflexivity. Qed.

(** One hour later is 3600 seconds later, at a valid date. *)
Lemma add_one_hour_seconds (dt dt' : datetime) :
  valid_datetime dt -> add_one_hour dt = Ok dt' ->
  valid_datetime dt' /\ to_seconds dt' = to_seconds dt + 3600.
Proof.
  destruct dt as [y mo d h mi s]. unfold valid_datetime, to_seconds, toordinal.
  simpl. intros (Hy & Hmo & Hd & Hh & Hmi & Hs).
  destruct (h <? 23) eqn:E1.
  { apply Z.ltb_lt in E1. intros [= <-]. simpl. lia. }
  apply Z.ltb_ge in E1.
  destruct (d <? days_in_month y mo) eqn:E2.
  { apply Z.ltb_lt in E2. intros [= <-]. simpl. lia. }
  apply Z.ltb_ge in E2.
  destruct (mo <? 12) eqn:E3.
  { apply Z.ltb_lt in E3. intros [= <-]. simpl.
    rewrite days_before_month_succ by lia.
    assert (28 <= days_in_month y (mo + 1)).
    { unfold days_in_month. repeat (destruct (_ =? _) || destruct (is_leap _)); simpl; lia. }
    lia. }
  apply Z.ltb_ge in E3.
  destruct (y <? 9999) eqn:E4; [|discriminate].
  apply Z.ltb_lt in E4. intros [= <-]. simpl.
  assert (mo = 12) as -> by lia. rewrite days_in_month_december in *.
  rewrite days_before_year_succ. unfold days_before_month, days_in_month. simpl.
  destruct (is_leap y); lia.
Qed.

Lemma str_to_date_valid (d h : string) (dt : datetime) :
  str_to_date d h = Ok dt -> valid_datetime dt.
Proof.
  intros (_ & _ & _ & _ & _ & H)%str_to_date_inv. exact H.
Qed.

End Calendar.

Section DateRoundTrip.

Lemma str_nonneg_digits (n : Z) :
  0 <= n -> all_chars PyInt.is_digit (PyInt.str n) = true.
Proof.
  intros Hn. unfold PyInt.str. destruct n as [|p|p]; [reflexivity| |lia].
  apply nilzero_string_of_uint_digits.
Qed.

Lemma str_nonempty (n : Z) : PyInt.str n <> EmptyString.
Proof.
  unfold PyInt.str. destruct (Z.to_int n) as [d|d]; simpl;
    [apply nilzero_string_of_uint_nonempty | discriminate].
Qed.

Lemma zeros_S (k : nat) :
  String.concat EmptyString (replicate (S k) "0")
  = String "0" (String.concat EmptyString (replicate k "0")).
Proof. destruct k; reflexivity. Qed.

Lemma unsigned_zero_prefix (r : string) :
  r <> EmptyString -> all_chars PyInt.is_digit r = true ->
  PyInt.unsigned (String "0" r) = PyInt.unsigned r.
Proof.
  intros Hne Hr. unfold PyInt.unsigned.
  rewrite (drop_underscores_digits false (String "0" r)) by (simpl; exact Hr).
  rewrite (drop_underscores_digits false r Hr). simpl.
  destruct r as [|c r]; [contradiction|].
  unfold NilZero.uint_of_string.
  change (NilEmpty.uint_of_string (String "0" (String c r)))
    with (uint_of_char "0" (NilEmpty.uint_of_string (String c r))).
  destruct (NilEmpty.uint_of_string (String c r)); reflexivity.
Qed.

Lemma unsigned_zeros (k : nat) (s : string) :
  s <> EmptyString -> all_chars PyInt.is_digit s = true ->
  PyInt.unsigned (String.concat EmptyString (replicate k "0") +:+ s)
  = PyInt.unsigned s.
Proof.
  intros Hne Hs. induction k as [|k IH]; [reflexivity|].
  rewrite zeros_S, append_String, unsigned_zero_prefix; [exact IH| |].
  - destruct (String.concat EmptyString (replicate k "0")); [exact Hne | discriminate].
  - now rewrite all_chars_append, replicate_zero_chars, Hs.
Qed.

(** A field printed with leading zeros reads back as the field. *)
Lemma int_zfill (w : nat) (n : Z) :
  0 <= n -> PyInt.int (PyInt.zfill w (PyInt.str n)) = Ok n.
Proof.
  intros Hn. pose proof (str_nonneg_digits n Hn) as Hd.
  pose proof (str_nonempty n) as Hne.
  rewrite int_digits.
  - unfold PyInt.zfill. rewrite unsigned_zeros by assumption.
    rewrite <- int_digits by assumption. apply int_str.
  - apply zfill_chars; [reflexivity | exact Hd].
  - unfold PyInt.zfill.
    destruct (String.concat _ _); [exact Hne | discriminate].
Qed.

Lemma zfill_no_minus (w : nat) (n : Z) (c : ascii) :
  0 <= n -> PyInt.is_digit c = false ->
  occurs c (PyInt.zfill w (PyInt.str n)) = false.
Proof.
  intros Hn Hc. eapply all_chars_not_occurs; [exact Hc|].
  apply zfill_chars; [reflexivity | now apply str_nonneg_digits].
Qed.

Lemma datetime_new_valid (dt : datetime) :
  valid_datetime dt ->
  datetime_new (year dt) (month dt) (day dt) (hour dt) (minute dt) (second dt)
  = Ok dt.
Proof.
  destruct dt as [y mo d h mi s]. unfold valid_datetime, datetime_new. simpl.
  intros (Hy & Hmo & Hd & Hh & Hmi & Hs).
  repeat match goal with
         | |- context [?a <=? ?b] =>
             rewrite (proj2 (Z.leb_le a b)) by lia
         end.
  reflexivity.
Qed.

End DateRoundTrip.

(** X8: [str_to_date] reads back a date and a time of day printed in ISO
    format: every valid [datetime] is recovered from its printed date and
    its printed time. *)
Theorem str_to_date_reads_iso_format (dt : datetime) :
  valid_datetime dt -> str_to_date (iso_date dt) (iso_time dt) = Ok dt.
Proof.
  intros Hv. pose proof Hv as (Hy & Hmo & Hd & Hh & Hmi & Hs).
  unfold str_to_date, iso_date, iso_time.
  repeat (progress change ("-" +:+ ?x) with (String "-" x)).
  repeat (progress change (":" +:+ ?x) with (String ":" x)).
  rewrite !split_first by (apply zfill_no_minus; [lia | reflexivity]).
  rewrite !split_absent by (apply zfill_no_minus; [lia | reflexivity]).
  simpl. rewrite !int_zfill by lia. simpl.
  now apply datetime_new_valid.
Qed.

Lemma str_to_date_reads_iso_format_witness :
  str_to_date (iso_date (Datetime 2024 2 29 23 59 59))
              (iso_time (Datetime 2024 2 29 23 59 59))
  = Ok (Datetime 2024 2 29 23 59 59).
Proof.
  apply (str_to_date_reads_iso_format (Datetime 2024 2 29 23 59 59)).
  unfold valid_datetime. simpl.
  change (days_in_month 2024 2) with 29. lia.
Defined.

(** X9: when an event body is built, the due date and due hour of the
    task give a valid date and time of day, and the time one hour later
    is valid too and 3600 seconds further on the calendar, also across
    the end of a day, a month or a year. The start and the end of the
    event are what the local zone prints for these two times; what it
    prints is up to the zone. *)
Theorem event_end_is_start_plus_one_hour (zone : local_zone) (wp : WP.t)
    (body : Body.t) :
  wp_to_event zone wp = Ok body ->
  exists event_start event_finish,
    str_to_date (WP.due_date wp) (WP.due_hour wp) = Ok event_start /\
    add_one_hour event_start = Ok event_finish /\
    valid_datetime event_start /\ valid_datetime event_finish /\
    to_seconds event_finish = to_seconds event_start + 3600 /\
    astimezone_isoformat zone event_start = Ok (Body.start_dateTime body) /\
    astimezone_isoformat zone event_finish = Ok (Body.end_dateTime body).
Proof.
  intros (event_start & event_finish & ls & lf & Hs & Hf & Hls & Hlf & ->)%wp_to_event_inv.
  pose proof (str_to_date_valid _ _ _ Hs) as Hv.
  destruct (add_one_hour_seconds _ _ Hv Hf) as [Hv' Hsec].
  exists event_start, event_finish.
  split; [exact Hs|]. split; [exact Hf|]. split; [exact Hv|]. split; [exact Hv'|].
  split; [exact Hsec|]. unfold astimezone_isoformat. rewrite Hls, Hlf. now split.
Qed.

Lemma event_end_is_start_plus_one_hour_witness :
  exists event_start event_finish,
    str_to_date "2024-03-10" "02:30:00" = Ok event_start /\
    add_one_hour event_start = Ok event_finish /\
    valid_datetime event_start /\ valid_datetime event_finish /\
    to_seconds event_finish = to_seconds event_start + 3600 /\
    astimezone_isoformat Sample.spring_forward event_start
    = Ok "2024-03-10T03:30:00-04:00" /\
    astimezone_isoformat Sample.spring_forward event_finish
    = Ok "2024-03-10T03:30:00-04:00".
Proof.
  apply (event_end_is_start_plus_one_hour Sample.spring_forward
           Sample.night_wp Sample.night_body).
  reflexivity.
Defined.

Section ShortTimes.

Lemma mapM_int_length (l : list string) (ns : list Z) :
  mapM PyInt.int l = Ok ns -> length ns = length l.
Proof.
  revert ns. induction l as [|x l IH]; intros ns; simpl.
  - now intros [= <-].
  - destruct (PyInt.int x); simpl; [|discriminate].
    destruct (mapM PyInt.int l) as [k|]; simpl; [|discriminate].
    intros [= <-]. simpl. now rewrite (IH k).
Qed.

Lemma index_raises {A} (l : list A) (i : nat) :
  (length l <= i)%nat -> Py.index l i = Raise IndexError.
Proof.
  intros Hi. unfold Py.index. now rewrite (lookup_ge_None_2 l i Hi).
Qed.

Lemma index_cases {A} (l : list A) (i : nat) :
  (exists a, Py.index l i = Ok a) \/ Py.index l i = Raise IndexError.
Proof. unfold Py.index. destruct (l !! i); eauto. Qed.

End ShortTimes.

(** X10: a due hour with fewer than three colon-separated fields (no
    seconds, say) is refused: the event body is not built, and the
    exception is a [ValueError] or an [IndexError]. *)
Theorem due_hour_needs_three_fields (zone : local_zone) (wp : WP.t) :
  (length (Py.split ":" (WP.due_hour wp)) < 3)%nat ->
  wp_to_event zone wp = Raise ValueError \/
  wp_to_event zone wp = Raise IndexError.
Proof.
  intros Hlen. unfold wp_to_event, str_to_date.
  destruct (mapM PyInt.int (Py.split "-" (WP.due_date wp))) as [ds|e] eqn:Hd; simpl.
  2:{ left. now rewrite (mapM_int_raises _ _ Hd). }
  destruct (mapM PyInt.int (Py.split ":" (WP.due_hour wp))) as [hs|e] eqn:Hh; simpl.
  2:{ left. now rewrite (mapM_int_raises _ _ Hh). }
  apply mapM_int_length in Hh.
  destruct (index_cases ds 0) as [[y ->]| ->]; simpl; [|now right].
  destruct (index_cases ds 1) as [[mo ->]| ->]; simpl; [|now right].
  destruct (index_cases ds 2) as [[d ->]| ->]; simpl; [|now right].
  destruct (index_cases hs 0) as [[h ->]| ->]; simpl; [|now right].
  destruct (index_cases hs 1) as [[mi ->]| ->]; simpl; [|now right].
  rewrite (index_raises hs 2) by lia. now right.
Qed.

Lemma due_hour_needs_three_fields_witness :
  wp_to_event Sample.utc
    {| WP.wp_id := PyInt 7; WP.subject := "Review draft";
       WP.description := "<p>Read it</p>"; WP.parent := "No parent";
       WP.assignee := "Alice"; WP.due_date := "2024-03-01";
       WP.due_hour := "08:15"; WP.updated_at := "2024-02-01T10:00:00Z" |}
  = Raise ValueError \/
  wp_to_event Sample.utc
    {| WP.wp_id := PyInt 7; WP.subject := "Review draft";
       WP.description := "<p>Read it</p>"; WP.parent := "No parent";
       WP.assignee := "Alice"; WP.due_date := "2024-03-01";
       WP.due_hour := "08:15"; WP.updated_at := "2024-02-01T10:00:00Z" |}
  = Raise IndexError.
Proof.
  apply (due_hour_needs_three_fields Sample.utc). simpl. lia.
Defined.

(** X11: whatever the outcome of a run, the requests it has made are the
    first requests of its plan: the [insert]s of the ids to create, then
    the [delete]s of the ids to delete, then the [update]s of the stale
    ids, each in the order of the visit. A run that returns has made them
    all; an exception only cuts the plan short. *)
Theorem requests_follow_the_plan {St : Type}
    (execute : call -> St -> St * option string) (calendar_id : string)
    (zone : local_zone) (iter : gset Z -> list Z)
    (parsed_wps : gmap Z WP.t) (parsed_events : gmap Z PE.t)
    (w w' : @world St)
    (r : res ((gset Z * gset Z * gset Z)
              * (list (option string) * list (option string) * list (option string)))) :
  synchronize_wps execute calendar_id zone iter parsed_wps parsed_events w
  = (r, w') ->
  exists done,
    w'.2 = (w.2 ++ done)%list /\
    done `prefix_of`
      planned_calls calendar_id zone iter parsed_wps parsed_events /\
    (forall result, r = Ok result ->
       done = planned_calls calendar_id zone iter parsed_wps parsed_events).
Proof. apply synchronize_wps_log. Qed.

Lemma requests_follow_the_plan_witness :
  exists done,
    [Insert "cal" Sample.review_body] = ([] ++ done)%list /\
    done `prefix_of`
      planned_calls "cal" Sample.utc elements
        (parse_workpackages [Sample.review; Sample.no_hour]).1 ∅ /\
    (forall result,
       @Raise ((gset Z * gset Z * gset Z)
               * (list (option string) * list (option string)
                  * list (option string))) ValueError = Ok result ->
       done = planned_calls "cal" Sample.utc elements
                (parse_workpackages [Sample.review; Sample.no_hour]).1 ∅).
Proof.
  apply (requests_follow_the_plan Sample.accept "cal" Sample.utc elements
           (parse_workpackages [Sample.review; Sample.no_hour]).1 ∅
           (tt, []) (tt, [Insert "cal" Sample.review_body]) (Raise ValueError)).
  vm_compute. reflexivity.
Defined.

(** X12: whatever the outcome of a run, every request it has made is
    called for: an [insert] carries the body of a task that has no
    event, a [delete] names an event whose id has no task, an [update]
    names the event of a task whose update time differs and carries the
    body of that task. The run never deletes the event of a task that is
    present and never creates a second event for a task that has one. *)
Theorem requests_are_called_for {St : Type}
    (execute : call -> St -> St * option string) (calendar_id : string)
    (zone : local_zone) (iter : gset Z -> list Z)
    (parsed_wps : gmap Z WP.t) (parsed_events : gmap Z PE.t)
    (w w' : @world St)
    (r : res ((gset Z * gset Z * gset Z)
              * (list (option string) * list (option string) * list (option string)))) :
  (forall X : gset Z, iter X ≡ₚ elements X) ->
  synchronize_wps execute calendar_id zone iter parsed_wps parsed_events w
  = (r, w') ->
  exists done,
    w'.2 = (w.2 ++ done)%list /\
    Forall (called_for calendar_id zone parsed_wps parsed_events) done.
Proof.
  intros Hiter (done & Hlog & [rest Hplan] & _)%synchronize_wps_log.
  exists done. split; [exact Hlog|].
  pose proof (planned_calls_called_for calendar_id zone iter
                parsed_wps parsed_events Hiter) as Hall.
  rewrite Hplan in Hall. now apply Forall_app in Hall as [Hall _].
Qed.

Lemma requests_are_called_for_witness :
  exists done,
    [Insert "cal" Sample.review_body] = ([] ++ done)%list /\
    Forall (called_for "cal" Sample.utc
              (parse_workpackages [Sample.review; Sample.no_hour]).1 ∅) done.
Proof.
  apply (requests_are_called_for Sample.accept "cal" Sample.utc elements
           (parse_workpackages [Sample.review; Sample.no_hour]).1 ∅
           (tt, []) (tt, [Insert "cal" Sample.review_body]) (Raise ValueError)).
  - intros X. reflexivity.
  - vm_compute. reflexivity.
Defined.

Section SpecialRuns.

Context {St : Type}.
Variable execute : call -> St -> St * option string.
Variable calendar_id : string.
Variable zone : local_zone.
Variable iter : gset Z -> list Z.
Hypothesis iter_perm : forall X : gset Z, iter X ≡ₚ elements X.

Lemma iter_empty : iter ∅ = [].
Proof.
  apply Permutation_nil. symmetry. rewrite (iter_perm ∅).
  now rewrite elements_empty.
Qed.

Lemma to_create_set_no_tasks (parsed_events : gmap Z PE.t) :
  to_create_set ∅ parsed_events = ∅.
Proof.
  apply set_eq. intros x. rewrite elem_of_to_create_set, lookup_empty.
  split; [intros [[? ?] _]; discriminate | intros H; now apply elem_of_empty in H].
Qed.

Lemma may_update_set_no_tasks (parsed_events : gmap Z PE.t) :
  may_update_set ∅ parsed_events = ∅.
Proof.
  apply set_eq. intros x. rewrite elem_of_may_update_set, lookup_empty.
  split; [intros [_ [? ?]]; discriminate | intros H; now apply elem_of_empty in H].
Qed.

Lemma to_delete_set_no_tasks (parsed_events : gmap Z PE.t) :
  to_delete_set ∅ parsed_events = dom parsed_events.
Proof.
  apply set_eq. intros x. rewrite elem_of_to_delete_set, lookup_empty, elem_of_dom.
  tauto.
Qed.

Lemma payloads_ok_no_tasks (parsed_events : gmap Z PE.t) :
  payloads_ok zone ∅ parsed_events.
Proof. intros i wp Hwp. now rewrite lookup_empty in Hwp. Qed.

End SpecialRuns.

(** X13: when no task is left (an empty list of work packages, or only
    tasks that are not synchronized), the run returns and sends one
    [delete] request for every event in the map, and nothing else: the
    calendar is emptied of the events it tracks. *)
Theorem no_tasks_deletes_every_event {St : Type}
    (execute : call -> St -> St * option string) (calendar_id : string)
    (zone : local_zone) (iter : gset Z -> list Z)
    (parsed_events : gmap Z PE.t) (w : @world St) :
  (forall X : gset Z, iter X ≡ₚ elements X) ->
  exists result w',
    synchronize_wps execute calendar_id zone iter ∅ parsed_events w
    = (Ok result, w') /\
    w'.2 = (w.2 ++ flat_map (delete_calls calendar_id parsed_events)
                     (iter (dom parsed_events)))%list /\
    forall k ev, parsed_events !! k = Some ev ->
                 Delete calendar_id (PE.event_id ev) ∈ w'.2.
Proof.
  intros Hiter.
  destruct (synchronize_wps_returns execute calendar_id zone iter ∅
              parsed_events Hiter w (payloads_ok_no_tasks zone parsed_events))
    as ([wp_ids [[ce de] ue]] & w' & Hrun).
  pose proof (synchronize_wps_Ok _ _ _ _ _ _ _ _ _ _ _ _ Hrun) as (_ & _ & _ & _ & Hlog).
  rewrite to_create_set_no_tasks, may_update_set_no_tasks, to_delete_set_no_tasks,
    (iter_empty iter Hiter) in Hlog.
  simpl in Hlog. rewrite app_nil_r in Hlog.
  exists (wp_ids, (ce, de, ue)), w'. split; [exact Hrun|]. split; [exact Hlog|].
  intros k ev Hev. rewrite Hlog. apply elem_of_app. right.
  apply list_elem_of_In, in_flat_map. exists k. split.
  - apply list_elem_of_In, (elem_of_iter iter Hiter), elem_of_dom. eauto.
  - unfold delete_calls. rewrite Hev. now left.
Qed.

Lemma no_tasks_deletes_every_event_witness :
  exists result w',
    synchronize_wps Sample.accept "cal" Sample.utc elements ∅ Sample.events (tt, [])
    = (Ok result, w') /\
    w'.2 = ([] ++ flat_map (delete_calls "cal" Sample.events)
                    (elements (dom Sample.events)))%list /\
    forall k ev, Sample.events !! k = Some ev ->
                 Delete "cal" (PE.event_id ev) ∈ w'.2.
Proof.
  apply (no_tasks_deletes_every_event Sample.accept "cal" Sample.utc elements
           Sample.events (tt, [])).
  intros X. reflexivity.
Defined.

(** X14: when every task has an event with the same update time and
    every event has a task, the run returns without a single request:
    nothing to create, nothing to delete, and [None] for every id in the
    third error list. *)
Theorem nothing_to_do_when_in_sync {St : Type}
    (execute : call -> St -> St * option string) (calendar_id : string)
    (zone : local_zone) (iter : gset Z -> list Z)
    (parsed_wps : gmap Z WP.t) (parsed_events : gmap Z PE.t) (w : @world St) :
  (forall X : gset Z, iter X ≡ₚ elements X) ->
  (forall wp_id wp, parsed_wps !! wp_id = Some wp ->
     exists ev, parsed_events !! wp_id = Some ev /\
                WP.updated_at wp = PE.updated_at ev) ->
  (forall wp_id ev, parsed_events !! wp_id = Some ev ->
     is_Some (parsed_wps !! wp_id)) ->
  exists wp_ids ue w',
    synchronize_wps execute calendar_id zone iter parsed_wps parsed_events w
    = (Ok (wp_ids, ([], [], ue)), w') /\
    w'.2 = w.2 /\
    Forall (fun err => err = None) ue /\
    length ue = size (dom parsed_wps).
Proof.
  intros Hiter Hsame Htask.
  assert (Hok : payloads_ok zone parsed_wps parsed_events).
  { intros i wp Hwp Hneq. destruct (Hsame i wp Hwp) as (ev & Hev & Heq).
    now destruct (Hneq ev Hev). }
  assert (Hc : to_create_set parsed_wps parsed_events = ∅).
  { apply set_eq. intros x. rewrite elem_of_to_create_set. split.
    - intros [[wp Hwp] Hev]. destruct (Hsame x wp Hwp) as (ev & Hev' & _). congruence.
    - intros H. now apply elem_of_empty in H. }
  assert (Hd : to_delete_set parsed_wps parsed_events = ∅).
  { apply set_eq. intros x. rewrite elem_of_to_delete_set. split.
    - intros [[ev Hev] Hwp]. destruct (Htask x ev Hev) as [wp Hwp']. congruence.
    - intros H. now apply elem_of_empty in H. }
  assert (Hu : may_update_set parsed_wps parsed_events = dom parsed_wps).
  { apply set_eq. intros x. rewrite elem_of_may_update_set, elem_of_dom. split.
    - tauto.
    - intros [wp Hwp]. destruct (Hsame x wp Hwp) as (ev & Hev & _). eauto. }
  destruct (synchronize_wps_returns execute calendar_id zone iter parsed_wps
              parsed_events Hiter w Hok) as ([wp_ids [[ce de] ue]] & w' & Hrun).
  pose proof (synchronize_wps_Ok _ _ _ _ _ _ _ _ _ _ _ _ Hrun)
    as (_ & HPc & HPd & HPu & Hlog).
  rewrite Hc, (iter_empty iter Hiter) in HPc, Hlog.
  rewrite Hd, (iter_empty iter Hiter) in HPd, Hlog.
  apply Forall2_nil_inv_l in HPc as ->. apply Forall2_nil_inv_l in HPd as ->.
  exists wp_ids, ue, w'. split; [exact Hrun|].
  assert (Hnone : Forall (fun err => err = None) ue).
  { clear Hlog Hrun. induction HPu as [|i err l k (wp & ev & Hwp & Hev & H) _ IH];
      constructor; [|exact IH].
    destruct H as [[_ ->]|[Hneq _]]; [reflexivity|].
    destruct (Hsame i wp Hwp) as (ev' & Hev' & Heq). congruence. }
  split; [|split; [exact Hnone|]].
  - rewrite Hlog. simpl.
    replace (flat_map _ _) with (@nil call); [now rewrite app_nil_r|].
    symmetry. clear Hlog Hrun Hnone HPu.
    induction (iter (may_update_set parsed_wps parsed_events)) as [|i l IH];
      [reflexivity|].
    simpl. rewrite IH, app_nil_r. unfold update_calls.
    destruct (parsed_wps !! i) as [wp|] eqn:Hwp; [|reflexivity].
    destruct (Hsame i wp Hwp) as (ev & -> & Heq).
    now rewrite bool_decide_eq_false_2 by tauto.
  - rewrite <- (Forall2_length _ _ _ HPu), Hu. apply (length_iter iter Hiter).
Qed.

Lemma nothing_to_do_when_in_sync_witness :
  exists wp_ids ue w',
    synchronize_wps Sample.refuse "cal" Sample.utc elements
      {[7 := Sample.review_wp]}
      {[7 := {| PE.event_id := "evt7"; PE.wp_id := PyStr "7";
                PE.subject := "Review draft";
                PE.assignee := "Not assigned to anyone";
                PE.updated_at := "2024-02-01T10:00:00Z";
                PE.due_date := "2024-03-01";
                PE.due_hour := "09:15:00+00:00" |}]} (tt, [])
    = (Ok (wp_ids, ([], [], ue)), w') /\
    w'.2 = [] /\
    Forall (fun err => err = None) ue /\
    length ue = size (dom ({[7 := Sample.review_wp]} : gmap Z WP.t)).
Proof.
  apply (nothing_to_do_when_in_sync Sample.refuse "cal" Sample.utc elements
           {[7 := Sample.review_wp]} _ (tt, [])).
  - intros X. reflexivity.
  - intros i wp [<- <-]%lookup_singleton_Some.
    eexists. split; [apply lookup_singleton_eq | reflexivity].
  - intros i ev [<- _]%lookup_singleton_Some.
    rewrite lookup_singleton_eq. eauto.
Defined.

(** X15: the event stored for a task is in sync with it. When the body
    of a task is built and stored, the event reads back under the task's
    id with the task's update time (the update time has no line break),
    and [may_update] on the pair makes no request and returns [None],
    although the due hour that reads back differs. *)
Theorem created_event_needs_no_update {St : Type}
    (execute : call -> St -> St * option string) (calendar_id : string)
    (zone : local_zone) (wp : WP.t) (n : Z) (body : Body.t) (event_id : string) :
  WP.wp_id wp = PyInt n ->
  wp_to_event zone wp = Ok body ->
  occurs nl (WP.updated_at wp) = false ->
  exists ev,
    parse_event (stored_event event_id body) = Ok (n, ev) /\
    PE.event_id ev = event_id /\
    PE.updated_at ev = WP.updated_at wp /\
    forall w : @world St,
      may_update execute calendar_id zone wp ev w = (Ok None, w).
Proof.
  intros Hid Hbody Hnl.
  destruct (wp_to_event_inv _ _ _ Hbody)
    as (event_start & event_finish & ls & lf & Hs & Hf & _ & Hlf & _).
  destruct (parse_stored_event zone wp n body event_id _ _ _ Hid Hs Hf Hlf Hbody)
    as (subject & assignee & updated_at & _ & _ & Hupd & Hparse).
  rewrite (index_last_absent _ _ Hnl) in Hupd. injection Hupd as <-.
  eexists. split; [exact Hparse|]. simpl. split; [reflexivity|].
  split; [reflexivity|]. intros w. unfold may_update. simpl.
  now rewrite bool_decide_eq_false_2 by tauto.
Qed.

Lemma created_event_needs_no_update_witness :
  exists ev,
    parse_event (stored_event "evt7" Sample.review_body) = Ok (7, ev) /\
    PE.event_id ev = "evt7" /\
    PE.updated_at ev = WP.updated_at Sample.review_wp /\
    forall w : @world unit,
      may_update Sample.refuse "cal" Sample.utc Sample.review_wp ev w = (Ok None, w).
Proof.
  apply (created_event_needs_no_update Sample.refuse "cal" Sample.utc
           Sample.review_wp 7 Sample.review_body "evt7"); reflexivity.
Defined.

(** X16: whether a run returns does not depend on the calendar service.
    It returns exactly when every event body it has to build can be
    built; refused or failed requests are answers recorded in the error
    lists and never end the run. *)
Theorem run_returns_iff_bodies_are_built {St : Type}
    (execute : call -> St -> St * option string) (calendar_id : string)
    (zone : local_zone) (iter : gset Z -> list Z)
    (parsed_wps : gmap Z WP.t) (parsed_events : gmap Z PE.t) (w : @world St) :
  (forall X : gset Z, iter X ≡ₚ elements X) ->
  (exists result w',
     synchronize_wps execute calendar_id zone iter parsed_wps parsed_events w
     = (Ok result, w')) <->
  payloads_ok zone parsed_wps parsed_events.
Proof.
  intros Hiter. split.
  - intros (result & w' & Hrun).
    now apply (synchronize_wps_returns_only_if execute calendar_id zone iter
                 parsed_wps parsed_events Hiter w w' result).
  - now apply synchronize_wps_returns.
Qed.

Lemma run_returns_iff_bodies_are_built_witness :
  (exists result w',
     synchronize_wps Sample.refuse "cal" Sample.utc elements Sample.tasks Sample.events (tt, [])
     = (Ok result, w')) <->
  payloads_ok Sample.utc Sample.tasks Sample.events.
Proof.
  apply (run_returns_iff_bodies_are_built Sample.refuse "cal" Sample.utc elements
           Sample.tasks Sample.events (tt, [])).
  intros X. reflexivity.
Defined.

(** ** The log sheet and the program *)

Section ProgramFacts.

Lemma get_projects_and_ids_snoc (l : list (string * Z)) (elem : string * Z) :
  get_projects_and_ids (l ++ [elem])
  = <[elem.1 := elem.2]> (get_projects_and_ids l).
Proof. unfold get_projects_and_ids. now rewrite foldl_app. Qed.

(** A name that no project has is not a key of the dictionary. *)
Lemma get_projects_and_ids_None (l : list (string * Z)) (name : string) :
  name ∉ l.*1 -> get_projects_and_ids l !! name = None.
Proof.
  induction l as [|elem l IH] using rev_ind; intros Hn.
  - apply lookup_empty.
  - rewrite get_projects_and_ids_snoc. rewrite fmap_app in Hn.
    rewrite lookup_insert_ne.
    + apply IH. intros H. apply Hn, elem_of_app. now left.
    + intros Heq. apply Hn, elem_of_app. right. simpl. rewrite Heq. now left.
Qed.

Lemma get_projects_and_ids_Some (l : list (string * Z)) (name : string) (id : Z) :
  get_projects_and_ids l !! name = Some id -> (name, id) ∈ l.
Proof.
  induction l as [|[n i] l IH] using rev_ind.
  - unfold get_projects_and_ids. simpl. now rewrite lookup_empty.
  - rewrite get_projects_and_ids_snoc. simpl.
    destruct (decide (n = name)) as [->|Hne].
    + rewrite lookup_insert_eq. intros [= ->]. apply elem_of_app. right. now left.
    + rewrite lookup_insert_ne by assumption. intros H%IH.
      apply elem_of_app. now left.
Qed.

End ProgramFacts.

(** X17: when the names of the projects are distinct, the dictionary of
    [get_projects_and_ids] maps a name to an id exactly when the reply
    lists a project with that name and that id. *)
Theorem projects_are_found_by_name (raw_projects : list (string * Z))
    (name : string) (id : Z) :
  NoDup raw_projects.*1 ->
  get_projects_and_ids raw_projects !! name = Some id <->
  (name, id) ∈ raw_projects.
Proof.
  intros Hnd. split; [apply get_projects_and_ids_Some|].
  induction raw_projects as [|[n i] l IH] using rev_ind; intros Hin.
  - now apply elem_of_nil in Hin.
  - rewrite fmap_app in Hnd. apply NoDup_app in Hnd as (Hl & Hfresh & _).
    rewrite get_projects_and_ids_snoc. simpl.
    apply elem_of_app in Hin as [Hin|Hin].
    + assert (n <> name) as Hne.
      { intros ->. apply (Hfresh name).
        - apply list_elem_of_fmap. now exists (name, id).
        - simpl. now left. }
      rewrite lookup_insert_ne by assumption. now apply IH.
    + apply list_elem_of_singleton in Hin. injection Hin as -> ->.
      apply lookup_insert_eq.
Qed.

Lemma projects_are_found_by_name_witness :
  get_projects_and_ids [("Lab", 3); ("Office", 4)] !! "Office" = Some 4 <->
  ("Office", 4) ∈ [("Lab", 3); ("Office", 4)].
Proof.
  apply (projects_are_found_by_name [("Lab", 3); ("Office", 4)] "Office" 4).
  apply (bool_decide_unpack _). vm_compute. exact I.
Defined.

(** X18: when no project has the name given in the parameters, [main]
    ends with [KeyError] on that name before it reads a work package or
    an event: no request reaches the calendar or the sheet. *)
Theorem unknown_project_ends_the_program {St Sh : Type}
    (execute : call -> St -> St * option string)
    (append : sheet_call -> Sh -> Sh * option string)
    (zone : local_zone) (iter : gset Z -> list Z) (now : string)
    (params : parameters) (env : replies) (w : @world St) (s : @sheet Sh) :
  project_name params ∉ (projects_reply env).*1 ->
  main execute append zone iter now params env w s
  = (Failed (Uncaught (KeyError (project_name params))), (w, s)).
Proof.
  intros Hn. unfold main.
  now rewrite (get_projects_and_ids_None _ _ Hn).
Qed.

Lemma unknown_project_ends_the_program_witness :
  main Sample.accept (fun _ (sh : unit) => (sh, None)) Sample.utc elements "2024-03-01T07:00:00"
    (Parameters "key.json" [] "cal" "https://op/api/v3/" "secret" "Garden" true "sheet")
    (Replies [("Lab", 3); ("Office", 4)] (fun _ => [Sample.review])
             (ListResult (Some [Sample.event9])))
    (tt, []) (tt, [])
  = (Failed (Uncaught (KeyError "Garden")), ((tt, []), (tt, []))).
Proof.
  apply (unknown_project_ends_the_program Sample.accept
           (fun _ (sh : unit) => (sh, None)) Sample.utc elements "2024-03-01T07:00:00"
           (Parameters "key.json" [] "cal" "https://op/api/v3/" "secret" "Garden"
              true "sheet")).
  apply (bool_decide_unpack _). vm_compute. exact I.
Defined.

(** X19: when listing the events raises, [read_events] returns [None]
    and [main] ends with the [TypeError] of the loop of [parse_events]
    over [None]: nothing is created, deleted, updated or logged. *)
Theorem failed_listing_ends_the_program {St Sh : Type}
    (execute : call -> St -> St * option string)
    (append : sheet_call -> Sh -> Sh * option string)
    (zone : local_zone) (iter : gset Z -> list Z) (now : string)
    (params : parameters) (env : replies) (w : @world St) (s : @sheet Sh)
    (project_id : Z) (msg : string) :
  get_projects_and_ids (projects_reply env) !! project_name params
  = Some project_id ->
  events_reply env = ListRaises msg ->
  main execute append zone iter now params env w s
  = (Failed TypeError, (w, s)).
Proof.
  intros Hp He. unfold main. rewrite Hp, He. simpl.
  now destruct (parse_workpackages _).
Qed.

Lemma failed_listing_ends_the_program_witness :
  main Sample.accept (fun _ (sh : unit) => (sh, None)) Sample.utc elements "2024-03-01T07:00:00"
    (Parameters "key.json" [] "cal" "https://op/api/v3/" "secret" "Office" true "sheet")
    (Replies [("Lab", 3); ("Office", 4)] (fun _ => [Sample.review])
             (ListRaises "timed out"))
    (tt, []) (tt, [])
  = (Failed TypeError, ((tt, []), (tt, []))).
Proof.
  apply (failed_listing_ends_the_program Sample.accept
           (fun _ (sh : unit) => (sh, None)) Sample.utc elements "2024-03-01T07:00:00"
           (Parameters "key.json" [] "cal" "https://op/api/v3/" "secret" "Office"
              true "sheet")
           (Replies [("Lab", 3); ("Office", 4)] (fun _ => [Sample.review])
              (ListRaises "timed out"))
           (tt, []) (tt, []) 4 "timed out"); reflexivity.
Defined.

(** X20: logging does not touch the calendar. For the same replies, the
    same calendar and the same project, the calendar ends in the same
    state with the same requests whether logs are saved or not, whatever
    the sheet answers; without [save_logs] the sheet gets no request. *)
Theorem logging_leaves_the_calendar_alone {St Sh Sh' : Type}
    (execute : call -> St -> St * option string)
    (append : sheet_call -> Sh -> Sh * option string)
    (append' : sheet_call -> Sh' -> Sh' * option string)
    (zone : local_zone) (iter : gset Z -> list Z) (now now' : string)
    (params params' : parameters) (env : replies) (w : @world St)
    (s : @sheet Sh) (s' : @sheet Sh') :
  p_calendar_id params = p_calendar_id params' ->
  project_name params = project_name params' ->
  (main execute append zone iter now params env w s).2.1
  = (main execute append' zone iter now' params' env w s').2.1 /\
  (p_save_logs params = false ->
   (main execute append zone iter now params env w s).2.2 = s).
Proof.
  intros Hc Hp. unfold main. rewrite <- Hc, <- Hp.
  destruct (get_projects_and_ids _ !! _) as [pid|]; [|auto].
  destruct (parse_workpackages _) as [parsed_wps op_err].
  destruct (read_events _) as [events|]; [|auto].
  destruct (parse_events events) as [parsed_events gc_err].
  destruct (synchronize_wps _ _ _ _ _ _ w) as [[[wps errors]|e] w1]; [|auto].
  split.
  - destruct (p_save_logs params), (p_save_logs params');
      repeat destruct (save_logs _ _ _ _ _ _ _); reflexivity.
  - now intros ->.
Qed.

Lemma logging_leaves_the_calendar_alone_witness :
  (main Sample.refuse (fun _ (sh : unit) => (sh, Some "quota")) Sample.utc elements "t1"
     (Parameters "key.json" [] "cal" "https://op/api/v3/" "secret" "Office" true "sheet")
     (Replies [("Office", 4)] (fun _ => [Sample.review]) (ListResult None))
     (tt, []) (tt, [])).2.1
  = (main Sample.refuse (fun _ (sh : unit) => (sh, None)) Sample.utc elements "t2"
       (Parameters "key.json" [] "cal" "https://op/api/v3/" "secret" "Office" false "")
       (Replies [("Office", 4)] (fun _ => [Sample.review]) (ListResult None))
       (tt, []) (tt, [])).2.1 /\
  (p_save_logs
     (Parameters "key.json" [] "cal" "https://op/api/v3/" "secret" "Office" true "sheet")
   = false ->
   (main Sample.refuse (fun _ (sh : unit) => (sh, Some "quota")) Sample.utc elements "t1"
      (Parameters "key.json" [] "cal" "https://op/api/v3/" "secret" "Office" true "sheet")
      (Replies [("Office", 4)] (fun _ => [Sample.review]) (ListResult None))
      (tt, []) (tt, [])).2.2 = (tt, [])).
Proof.
  apply (logging_leaves_the_calendar_alone Sample.refuse
           (fun _ (sh : unit) => (sh, Some "quota"))
           (fun _ (sh : unit) => (sh, None)) Sample.utc elements "t1" "t2"); reflexivity.
Defined.

(** X21: after a run that returned, [save_logs] on a sheet that accepts
    both requests appends two tables, the errors and then the actions,
    each with the time of logging and one titled row per phase. The
    errors row and the actions row of a phase have the same length, so
    the entry at a position of the errors row is the outcome for the id
    at that position of the actions row. *)
Theorem log_rows_line_up {St Sh : Type}
    (execute : call -> St -> St * option string)
    (append : sheet_call -> Sh -> Sh * option string)
    (calendar_id : string) (zone : local_zone) (iter : gset Z -> list Z)
    (now sheet_id : string)
    (parsed_wps : gmap Z WP.t) (parsed_events : gmap Z PE.t)
    (w w' : @world St) (wp_ids : gset Z * gset Z * gset Z)
    (ce de ue : list (option string)) (s s' : @sheet Sh) :
  synchronize_wps execute calendar_id zone iter parsed_wps parsed_events w
  = (Ok (wp_ids, (ce, de, ue)), w') ->
  save_logs append iter now wp_ids (ce, de, ue) sheet_id s = (Done tt, s') ->
  s'.2 = (s.2 ++
          [Append sheet_id "USER_ENTERED" "errors"
             [[now];
              "to_create_errors" :: (str_of_entry <$> ce);
              "to_delete_errors" :: (str_of_entry <$> de);
              "may_update_errors" :: (str_of_entry <$> ue)];
           Append sheet_id "USER_ENTERED" "actions"
             [[now];
              "to_create"
                :: (PyInt.str <$> iter (to_create_set parsed_wps parsed_events));
              "to_delete"
                :: (PyInt.str <$> iter (to_delete_set parsed_wps parsed_events));
              "may_update"
                :: (PyInt.str <$> iter (may_update_set parsed_wps parsed_events))]])%list /\
  length (str_of_entry <$> ce)
  = length (PyInt.str <$> iter (to_create_set parsed_wps parsed_events)) /\
  length (str_of_entry <$> de)
  = length (PyInt.str <$> iter (to_delete_set parsed_wps parsed_events)) /\
  length (str_of_entry <$> ue)
  = length (PyInt.str <$> iter (may_update_set parsed_wps parsed_events)).
Proof.
  intros (-> & Hc & Hd & Hu & _)%synchronize_wps_Ok Hlog.
  split.
  - unfold save_logs, sheet_request in Hlog. simpl in Hlog.
    destruct (append _ s.1) as [sh1 [msg|]]; [discriminate|]. simpl in Hlog.
    destruct (append _ sh1) as [sh2 [msg|]]; [discriminate|].
    injection Hlog as <-. simpl. now rewrite <- app_assoc.
  - rewrite !length_fmap.
    rewrite (Forall2_length _ _ _ Hc), (Forall2_length _ _ _ Hd),
      (Forall2_length _ _ _ Hu). auto.
Qed.

Lemma log_rows_line_up_witness :
  (tt, [Append "sheet" "USER_ENTERED" "errors"
          [["2024-03-01T07:00:00"];
           "to_create_errors" :: (str_of_entry <$> [Some "HttpError 403"]);
           "to_delete_errors" :: (str_of_entry <$> [Some "HttpError 403"]);
           "may_update_errors" :: (str_of_entry <$> [None])];
        Append "sheet" "USER_ENTERED" "actions"
          [["2024-03-01T07:00:00"];
           "to_create" :: ["5"]; "to_delete" :: ["9"]; "may_update" :: ["7"]]]).2
  = ([] ++
     [Append "sheet" "USER_ENTERED" "errors"
        [["2024-03-01T07:00:00"];
         "to_create_errors" :: (str_of_entry <$> [Some "HttpError 403"]);
         "to_delete_errors" :: (str_of_entry <$> [Some "HttpError 403"]);
         "may_update_errors" :: (str_of_entry <$> [None])];
      Append "sheet" "USER_ENTERED" "actions"
        [["2024-03-01T07:00:00"];
         "to_create"
           :: (PyInt.str <$> elements (to_create_set Sample.tasks Sample.events));
         "to_delete"
           :: (PyInt.str <$> elements (to_delete_set Sample.tasks Sample.events));
         "may_update"
           :: (PyInt.str <$> elements (may_update_set Sample.tasks Sample.events))]])%list /\
  length (str_of_entry <$> [Some "HttpError 403"])
  = length (PyInt.str <$> elements (to_create_set Sample.tasks Sample.events)) /\
  length (str_of_entry <$> [Some "HttpError 403"])
  = length (PyInt.str <$> elements (to_delete_set Sample.tasks Sample.events)) /\
  length (str_of_entry <$> [@None string])
  = length (PyInt.str <$> elements (may_update_set Sample.tasks Sample.events)).
Proof.
  apply (log_rows_line_up Sample.refuse (fun _ (sh : unit) => (sh, None))
           "cal" Sample.utc elements "2024-03-01T07:00:00" "sheet"
           Sample.tasks Sample.events (tt, [])
           (tt, [Insert "cal"
                   {| Body.summary := "5:Write report";
                      Body.description :=
                        "<p>Draft...</p>Parent=No parent" +:+ NL +:+ "Alice"
                        +:+ NL +:+ "2024-01-02T09:00:00Z";
                      Body.start_dateTime := "2024-01-02T09:00:00+00:00";
                      Body.end_dateTime := "2024-01-02T10:00:00+00:00";
                      Body.reminders :=
                        {| useDefault := false;
                           overrides := [("popup", 1440); ("popup", 30)] |} |};
                 Delete "cal" "evt9"])
           (to_create_set Sample.tasks Sample.events,
            to_delete_set Sample.tasks Sample.events,
            may_update_set Sample.tasks Sample.events)
           [Some "HttpError 403"] [Some "HttpError 403"] [None] (tt, [])).
  - vm_compute. reflexivity.
  - vm_compute. reflexivity.
Defined.

(** X22: an event that the normalization refuses (no title, a title that
    does not start with an integer, a one-line body, no end time), and
    whose identifier no other listed event shares, is left alone:
    whatever the outcome of the run, no [delete] and no [update] request
    names it. *)
Theorem unreadable_event_is_left_alone {St : Type}
    (execute : call -> St -> St * option string) (calendar_id : string)
    (zone : local_zone) (iter : gset Z -> list Z)
    (parsed_wps : gmap Z WP.t) (events : list event_json) (elem : event_json)
    (w w' : @world St)
    (r : res ((gset Z * gset Z * gset Z)
              * (list (option string) * list (option string) * list (option string)))) :
  (forall X : gset Z, iter X ≡ₚ elements X) ->
  (forall e, e ∈ events -> ev_id e = ev_id elem ->
             exists x, parse_event e = Raise x) ->
  synchronize_wps execute calendar_id zone iter parsed_wps
    (parse_events events).1 w = (r, w') ->
  exists done,
    w'.2 = (w.2 ++ done)%list /\
    Forall (fun c => match c with
                     | Insert _ _ => True
                     | Delete _ eventId | Update _ eventId _ =>
                         eventId <> ev_id elem
                     end) done.
Proof.
  intros Hiter Hbad (done & Hlog & [rest Hplan] & _)%synchronize_wps_log.
  exists done. split; [exact Hlog|].
  pose proof (planned_calls_called_for calendar_id zone iter
                parsed_wps (parse_events events).1 Hiter) as Hall.
  rewrite Hplan in Hall. apply Forall_app in Hall as [Hall _].
  eapply Forall_impl; [exact Hall|].
  assert (Hid : forall k ev, (parse_events events).1 !! k = Some ev ->
                             PE.event_id ev <> ev_id elem).
  { intros k ev (e & He & Hp)%parse_events_sound Heq.
    rewrite (parse_event_event_id _ _ _ Hp) in Heq.
    destruct (Hbad e He Heq) as [x Hx]. congruence. }
  intros [cal body|cal eid|cal eid body]; simpl; [trivial| |].
  - intros (_ & k & ev & Hev & _ & <-). now apply (Hid k).
  - intros (_ & k & wp & ev & _ & Hev & _ & <- & _). now apply (Hid k).
Qed.

Lemma unreadable_event_is_left_alone_witness :
  exists done,
    [Delete "cal" "evt9"] = ([] ++ done)%list /\
    Forall (fun c => match c with
                     | Insert _ _ => True
                     | Delete _ eventId | Update _ eventId _ =>
                         eventId <> ev_id (EventJson "lunch" (Some "Lunch") None None)
                     end) done.
Proof.
  apply (unreadable_event_is_left_alone Sample.accept "cal" Sample.utc elements ∅
           [EventJson "lunch" (Some "Lunch") None None; Sample.event9]
           (EventJson "lunch" (Some "Lunch") None None)
           (tt, []) (tt, [Delete "cal" "evt9"])
           (Ok ((∅, {[9]}, ∅), ([], [None], [])))).
  - intros X. reflexivity.
  - intros e He Hid. apply elem_of_cons in He as [->|He]; [eexists; reflexivity|].
    apply list_elem_of_singleton in He as ->. discriminate Hid.
  - vm_compute. reflexivity.
Defined.

(** X23: a synchronized task whose normalization raises is recorded in
    the error list and gets no record; when the calendar holds an event
    for its id, that id is among the ids to delete, and the request that
    the run plans for it deletes the event. *)
Theorem failed_task_loses_its_event (workpackages : list work_package_json)
    (elem : work_package_json) (x : exn) (parsed_events : gmap Z PE.t)
    (ev : PE.t) (calendar_id : string) :
  elem ∈ workpackages ->
  not_synchronized elem = false ->
  parse_workpackage elem = Raise x ->
  (forall e, e ∈ workpackages -> elem_id e = elem_id elem -> e = elem) ->
  parsed_events !! elem_id elem = Some ev ->
  (elem, x) ∈ (parse_workpackages workpackages).2 /\
  (parse_workpackages workpackages).1 !! elem_id elem = None /\
  elem_id elem ∈ to_delete_set (parse_workpackages workpackages).1 parsed_events /\
  delete_calls calendar_id parsed_events (elem_id elem)
  = [Delete calendar_id (PE.event_id ev)].
Proof.
  intros Hin Hs Hp Huniq Hev.
  assert (Hnone : (parse_workpackages workpackages).1 !! elem_id elem = None).
  { destruct ((parse_workpackages workpackages).1 !! elem_id elem)
      as [tmp|] eqn:Hl; [|reflexivity].
    apply parse_workpackages_sound in Hl as (e & He & Hid & _ & Hok).
    rewrite (Huniq e He Hid) in Hok. congruence. }
  split.
  { unfold parse_workpackages. rewrite parse_workpackages_errors_acc. simpl.
    apply list_elem_of_omap. exists elem. split; [exact Hin|].
    now rewrite Hs, Hp. }
  split; [exact Hnone|]. split.
  - apply elem_of_to_delete_set. rewrite Hev, Hnone. eauto.
  - unfold delete_calls. now rewrite Hev.
Qed.

Lemma failed_task_loses_its_event_witness :
  (Sample.broken, AttributeError)
    ∈ (parse_workpackages [Sample.review; Sample.broken]).2 /\
  (parse_workpackages [Sample.review; Sample.broken]).1 !! 10 = None /\
  10 ∈ to_delete_set (parse_workpackages [Sample.review; Sample.broken]).1
         {[10 := Sample.event7_old_parsed]} /\
  delete_calls "cal" {[10 := Sample.event7_old_parsed]} 10
  = [Delete "cal" (PE.event_id Sample.event7_old_parsed)].
Proof.
  apply (failed_task_loses_its_event [Sample.review; Sample.broken]
           Sample.broken AttributeError {[10 := Sample.event7_old_parsed]}
           Sample.event7_old_parsed "cal").
  - right. left.
  - reflexivity.
  - reflexivity.
  - intros e He Hid. apply elem_of_cons in He as [->|He]; [discriminate Hid|].
    now apply list_elem_of_singleton in He.
  - apply lookup_singleton_eq.
Defined.

(** ** The program on small inputs *)

Module ProgramChecks.

Example listing_without_items : read_events (ListResult None) = Some [].
Proof. reflexivity. Qed.

Example later_project_replaces_earlier :
  get_projects_and_ids [("Lab", 3); ("Lab", 8)] !! "Lab" = Some 8.
Proof. reflexivity. Qed.

Example refused_errors_table_stops_logging :
  save_logs (fun _ (sh : unit) => (sh, Some "quota")) elements "t"
    (∅, ∅, ∅) ([], [], []) "sheet" (tt, [])
  = (Failed (ServiceError "quota"),
     (tt, [Append "sheet" "USER_ENTERED" "errors"
             [["t"]; ["to_create_errors"]; ["to_delete_errors"];
              ["may_update_errors"]]])).
Proof. reflexivity. Qed.

Example whole_program :
  main Sample.accept (fun _ (sh : unit) => (sh, None)) Sample.utc elements "t"
    (Parameters "key.json" [] "cal" "https://op/api/v3/" "secret" "Office" true "sheet")
    (Replies [("Office", 4)] (fun _ => [Sample.review; Sample.private])
             (ListResult (Some [Sample.event9])))
    (tt, []) (tt, [])
  = (Done tt,
     ((tt, [Insert "cal" Sample.review_body; Delete "cal" "evt9"]),
      (tt, [Append "sheet" "USER_ENTERED" "errors"
              [["t"]; ["to_create_errors"; "None"]; ["to_delete_errors"; "None"];
               ["may_update_errors"]];
            Append "sheet" "USER_ENTERED" "actions"
              [["t"]; ["to_create"; "7"]; ["to_delete"; "9"]; ["may_update"]]]))).
Proof. vm_compute. reflexivity. Qed.

Example program_stops_on_a_task_without_due_hour :
  main Sample.accept (fun _ (sh : unit) => (sh, None)) Sample.utc elements "t"
    (Parameters "key.json" [] "cal" "https://op/api/v3/" "secret" "Office" true "sheet")
    (Replies [("Office", 4)] (fun _ => [Sample.no_hour])
             (ListResult (Some [Sample.event9])))
    (tt, []) (tt, [])
  = (Failed (Uncaught ValueError), ((tt, []), (tt, []))).
Proof. vm_compute. reflexivity. Qed.

End ProgramChecks.
